(** * pyIB2d front end: input2d ingestion and parameter-model construction

    A shallow embedding of [pyIB2d/pyIB2d.py]: the two passes of
    [give_Me_input2d_Parameters] over the [input2d] file, the positional
    mapping performed by [main2d], and the flag handling of the script body.

    Conventions.
    - Text is ASCII ([string]); a file is read as the list of lines that
      iterating over the open file yields, each with its newline.
    - Python exceptions are modelled by their class ([exn]); messages are
      not modelled.
    - A NumPy [f8] is an IEEE-754 binary64 value ([spec_float] with
      precision 53 and maximal exponent 1024); a Python [int] is a [Z].
    - A column returned by [np.loadtxt] is an [ndarray]: one-dimensional,
      or zero-dimensional when the file has exactly one row.
    - A Python [dict] with string keys is a [gmap string pyval].
    - The solver [Driver.main] and [argparse] are outside this file: how
      the call of the one and the parse of the other end is given. *)

From Stdlib Require Import ZArith Lia Ascii String List Floats.SpecFloat.
From stdpp Require Import gmap strings list fin_maps.

Open Scope string_scope.
Open Scope Z_scope.

(** ** Exceptions and the error monad *)

Inductive exn : Type :=
  | ValueError          (* float() or loadtxt on malformed text; int(nan) *)
  | OverflowError       (* int(inf) *)
  | IndexError          (* sequence index out of range *)
  | UnboundLocalError   (* a local read before any assignment *)
  | FileNotFoundError   (* open() on a missing file *)
  | Exception (class_name : string).  (* any other subclass of Exception *)

Inductive result (A : Type) : Type :=
  | Ok (a : A)
  | Raise (e : exn).
Arguments Ok {A} a.
Arguments Raise {A} e.

#[global] Instance result_ret : MRet result := fun A a => Ok a.
#[global] Instance result_bind : MBind result := fun A B f m =>
  match m with
  | Ok a => f a
  | Raise e => Raise e
  end.

Definition is_Ok {A} (r : result A) : bool :=
  match r with Ok _ => true | Raise _ => false end.

(** ** Python string primitives *)

Module Py.

(** [c.isspace()] on the ASCII range. *)
Definition isspace (c : ascii) : bool :=
  let n := nat_of_ascii c in
  ((9 <=? n)%nat && (n <=? 13)%nat) || ((28 <=? n)%nat && (n <=? 32)%nat).

(** [s.startswith(p)] *)
Fixpoint startswith (p s : string) : bool :=
  match p, s with
  | EmptyString, _ => true
  | String _ _, EmptyString => false
  | String a p', String b s' => Ascii.eqb a b && startswith p' s'
  end.

(** [sub in s] *)
Fixpoint str_in (sub s : string) : bool :=
  startswith sub s ||
  match s with
  | EmptyString => false
  | String _ s' => str_in sub s'
  end.

(** [s.find(sub)]: the lowest index at which [sub] occurs, [-1] if none. *)
Fixpoint find_from (sub s : string) (i : Z) : Z :=
  if startswith sub s then i
  else match s with
       | EmptyString => -1
       | String _ s' => find_from sub s' (i + 1)
       end.

Definition find (sub s : string) : Z := find_from sub s 0.

(** [s.split()]: the maximal runs of non-whitespace characters. [word]
    is the run being read, if any. *)
Fixpoint split_from (s : string) (word : option string) : list string :=
  match s with
  | EmptyString => match word with Some w => [w] | None => [] end
  | String c s' =>
      if isspace c then
        match word with
        | Some w => w :: split_from s' None
        | None => split_from s' None
        end
      else
        split_from s' (Some (match word with
                             | Some w => w ++ String c EmptyString
                             | None => String c EmptyString
                             end))
  end.

Definition split (s : string) : list string := split_from s None.

(** [s.split(d)] for a one-character separator: never empty. *)
Fixpoint split_on (d : ascii) (s : string) : list string :=
  match s with
  | EmptyString => [EmptyString]
  | String c s' =>
      if Ascii.eqb c d then EmptyString :: split_on d s'
      else match split_on d s' with
           | w :: ws => String c w :: ws
           | [] => [String c EmptyString]
           end
  end.

Fixpoint lstrip (s : string) : string :=
  match s with
  | EmptyString => EmptyString
  | String c s' => if isspace c then lstrip s' else s
  end.

Fixpoint rstrip (s : string) : string :=
  match s with
  | EmptyString => EmptyString
  | String c s' =>
      match rstrip s' with
      | EmptyString => if isspace c then EmptyString else String c EmptyString
      | r => String c r
      end
  end.

Definition strip (s : string) : string := rstrip (lstrip s).

(** [c in chars] for a character [c] *)
Fixpoint char_in (c : ascii) (chars : string) : bool :=
  match chars with
  | EmptyString => false
  | String d chars' => Ascii.eqb c d || char_in c chars'
  end.

(** [s.lstrip(chars)], [s.rstrip(chars)] and [s.strip(chars)] *)
Fixpoint lstrip_chars (chars s : string) : string :=
  match s with
  | EmptyString => EmptyString
  | String c s' => if char_in c chars then lstrip_chars chars s' else s
  end.

Fixpoint rstrip_chars (chars s : string) : string :=
  match s with
  | EmptyString => EmptyString
  | String c s' =>
      match rstrip_chars chars s' with
      | EmptyString => if char_in c chars then EmptyString else String c EmptyString
      | r => String c r
      end
  end.

Definition strip_chars (chars s : string) : string :=
  rstrip_chars chars (lstrip_chars chars s).

(** [c.lower()] on the ASCII range. *)
Definition lower_ascii (c : ascii) : ascii :=
  let n := nat_of_ascii c in
  if ((65 <=? n)%nat && (n <=? 90)%nat) then ascii_of_nat (n + 32) else c.

Fixpoint lower (s : string) : string :=
  match s with
  | EmptyString => EmptyString
  | String c s' => String (lower_ascii c) (lower s')
  end.

End Py.

(** ** [os.path] on POSIX *)

Module posixpath.

Fixpoint endswith_slash (s : string) : bool :=
  match s with
  | EmptyString => false
  | String c EmptyString => Ascii.eqb c "/"
  | String _ s' => endswith_slash s'
  end.

(** [os.path.join(a, b)] *)
Definition join (a b : string) : string :=
  if Py.startswith "/" b then b
  else if (String.eqb a "" || endswith_slash a)%bool then a ++ b
  else a ++ "/" ++ b.

(** Splits at the last slash: [(p[:i], p[i:])] with [i = p.rfind('/') + 1]. *)
Fixpoint cut_last_slash (p : string) : string * string :=
  match p with
  | EmptyString => (EmptyString, EmptyString)
  | String c p' =>
      let '(h, t) := cut_last_slash p' in
      if Py.str_in "/" p' then (String c h, t)
      else if Ascii.eqb c "/" then ("/", p')
      else (EmptyString, p)
  end.

Fixpoint all_slashes (s : string) : bool :=
  match s with
  | EmptyString => true
  | String c s' => Ascii.eqb c "/" && all_slashes s'
  end.

Fixpoint rstrip_slash (s : string) : string :=
  match s with
  | EmptyString => EmptyString
  | String c s' =>
      match rstrip_slash s' with
      | EmptyString => if Ascii.eqb c "/" then EmptyString else String c EmptyString
      | r => String c r
      end
  end.

(** [os.path.split(p)] *)
Definition split (p : string) : string * string :=
  let '(head, tail) := cut_last_slash p in
  if (negb (String.eqb head "") && negb (all_slashes head))%bool
  then (rstrip_slash head, tail)
  else (head, tail).

End posixpath.

(** ** The string-reference pass (source lines 72-87) *)

Definition keyword : string := "string_name".
Definition comment_marker : string := "%".

(** The test of the [if] at source lines 76-77. *)
Definition qualifies (line : string) : bool :=
  Py.str_in keyword line && (Py.find keyword line <? Py.find comment_marker line).

(** The inner [for n, word in enumerate(words)] loop; [ws] is what is left
    to visit and [n] the index of its head. The result is the binding of
    [struct_name] when the loop is left. *)
Fixpoint for_words (dir : string) (words ws : list string) (n : nat)
  : result (option string) :=
  match ws with
  | [] => Ok None
  | word :: ws' =>
      if String.eqb word "=" then
        match words !! (n + 1)%nat with
        | Some w => Ok (Some (posixpath.join dir w))
        | None => Raise IndexError
        end
      else for_words dir words ws' (S n)
  end.

(** The outer [for line in f] loop: it is left at the first qualifying
    line, whatever the inner loop did. *)
Fixpoint for_lines (dir : string) (lines : list string) : result (option string) :=
  match lines with
  | [] => Ok None
  | line :: rest =>
      if qualifies line then
        let words := Py.split line in
        for_words dir words words 0
      else for_lines dir rest
  end.

(** Reading [struct_name] in the [return] of source line 87. *)
Definition read_local {A} (v : option A) : result A :=
  match v with
  | Some a => Ok a
  | None => Raise UnboundLocalError
  end.

Definition string_reference_pass (dir : string) (lines : list string) : result string :=
  for_lines dir lines ≫= read_local.

(** ** NumPy [f8] values: IEEE-754 binary64 *)

Module F8.

Definition prec : Z := 53.
Definition emax : Z := 1024.

Abbreviation f8 := spec_float (only parsing).

(** [x / y] on [numpy.float64]: division by zero gives an infinity or a
    NaN (with a warning), never an exception. *)
Definition div (x y : f8) : f8 := SFdiv prec emax x y.

Definition is_finite (x : f8) : bool :=
  match x with
  | S754_zero _ | S754_finite _ _ _ => true
  | S754_infinity _ | S754_nan => false
  end.

(** [int(x)]: truncation toward zero. *)
Definition to_int (x : f8) : result Z :=
  match x with
  | S754_nan => Raise ValueError
  | S754_infinity _ => Raise OverflowError
  | S754_zero _ => Ok 0
  | S754_finite s m e =>
      Ok (cond_Zopp s (if 0 <=? e then Z.pos m * 2 ^ e
                       else Z.pos m / 2 ^ (- e)))
  end.

(** [float(n)] for an integer [n] in the range of binary64. *)
Definition of_Z (n : Z) : f8 := binary_normalize prec emax n 0 false.

(** The binary64 nearest to [(-1)^s * m * 10^e] (ties to even). *)
Definition of_decimal (s : bool) (m e : Z) : f8 :=
  match m with
  | Z.pos p =>
      if 0 <=? e then binary_round prec emax s (p * Z.to_pos (10 ^ e)) 0
      else SFdiv prec emax (S754_finite s p 0)
                           (S754_finite false (Z.to_pos (10 ^ (- e))) 0)
  | _ => S754_zero s
  end.

Definition digit_val (c : ascii) : option Z :=
  let n := nat_of_ascii c in
  if ((48 <=? n)%nat && (n <=? 57)%nat) then Some (Z.of_nat n - 48) else None.

(** Reads a maximal run of decimal digits: the number read so far, how
    many digits were read, and what follows them. *)
Fixpoint digits (s : string) (acc k : Z) : Z * Z * string :=
  match s with
  | EmptyString => (acc, k, EmptyString)
  | String c s' =>
      match digit_val c with
      | Some d => digits s' (10 * acc + d) (k + 1)
      | None => (acc, k, s)
      end
  end.

Definition sign (s : string) : bool * string :=
  match s with
  | String "-" s' => (true, s')
  | String "+" s' => (false, s')
  | _ => (false, s)
  end.

(** What may follow the mantissa: nothing, or [e] or [E], an optional
    sign and at least one digit. *)
Definition exponent (s : string) : option Z :=
  match s with
  | EmptyString => Some 0
  | String c s' =>
      if (Ascii.eqb c "e" || Ascii.eqb c "E")%bool then
        let '(sg, s'') := sign s' in
        let '(v, k, rest) := digits s'' 0 0 in
        if ((0 <? k) && String.eqb rest "")%bool then Some (cond_Zopp sg v)
        else None
      else None
  end.

(** A decimal numeral: digits, an optional fraction of digits after a
    point, with at least one digit in all, and an optional exponent. *)
Definition numeral (sg : bool) (body : string) : result f8 :=
  let '(ip, ki, r1) := digits body 0 0 in
  let '(m, kf, r2) :=
    match r1 with
    | String "." r => digits r ip 0
    | _ => (ip, 0, r1)
    end in
  if ki + kf =? 0 then Raise ValueError
  else match exponent r2 with
       | Some e => Ok (of_decimal sg m (e - kf))
       | None => Raise ValueError
       end.

(** What may follow the sign: [inf], [infinity] or [nan] in any letter
    case, or a numeral. *)
Definition unsigned (sg : bool) (body : string) : result f8 :=
  let low := Py.lower body in
  if (String.eqb low "inf" || String.eqb low "infinity")%bool then Ok (S754_infinity sg)
  else if String.eqb low "nan" then Ok S754_nan
  else numeral sg body.

(** [float(text)] for the decimal grammar of Python 3.5 (no digit
    separators): surrounding white space is dropped, then come an
    optional sign and the unsigned part. *)
Definition parse (text : string) : result f8 :=
  let '(sg, body) := sign (Py.strip text) in
  unsigned sg body.

End F8.

Abbreviation f8 := spec_float (only parsing).

(** ** The numeric pass: [np.loadtxt] as called at source lines 68-70

    The call reads rows of two [=]-separated fields, treating [%] and
    [string_name] as comment markers. Per row: everything from the first
    comment marker on is dropped, then the end of the line; a row with
    nothing left is skipped, and any other row (one of white space only
    too) must have exactly two fields, the first kept as at most 25
    bytes ([S25]) and the second converted with [float]. With
    [unpack=True] the two columns are returned separately, each squeezed:
    a file with exactly one row gives zero-dimensional arrays. *)

Definition loadtxt_comments : list string := ["%"; "string_name"].

Fixpoint cut_comments (markers : list string) (s : string) : string :=
  if existsb (fun m => Py.startswith m s) markers then EmptyString
  else match s with
       | EmptyString => EmptyString
       | String c s' => String c (cut_comments markers s')
       end.

(** The characters of a line end, as in [line.strip('\r\n')]. *)
Definition line_end : string := String "013" (String "010" "").

Definition loadtxt_row (line : string) : result (option (string * f8)) :=
  let data := Py.strip_chars line_end (cut_comments loadtxt_comments line) in
  if String.eqb data "" then Ok None
  else match Py.split_on "=" data with
       | [name; value] =>
           v ← F8.parse value;
           Ok (Some (String.substring 0 25 name, v))
       | _ => Raise ValueError
       end.

(** The rows of the file, column by column. *)
Fixpoint loadtxt_rows (lines : list string) : result (list string * list f8) :=
  match lines with
  | [] => Ok ([], [])
  | line :: rest =>
      row ← loadtxt_row line;
      '(names, params) ← loadtxt_rows rest;
      Ok (match row with
          | Some (n, v) => (n :: names, v :: params)
          | None => (names, params)
          end)
  end.

(** A column as NumPy returns it: one-dimensional, or zero-dimensional
    when there is exactly one row. A zero-dimensional array holds one
    value and cannot be indexed. *)
Inductive ndarray (A : Type) : Type :=
  | Array1 (values : list A)
  | Array0 (value : A).
Arguments Array1 {A} values.
Arguments Array0 {A} value.

Definition squeeze {A} (values : list A) : ndarray A :=
  match values with
  | [x] => Array0 x
  | _ => Array1 values
  end.

Definition array_values {A} (a : ndarray A) : list A :=
  match a with
  | Array1 values => values
  | Array0 value => [value]
  end.

Definition loadtxt (lines : list string) : result (ndarray string * ndarray f8) :=
  '(names, params) ← loadtxt_rows lines;
  Ok (squeeze names, squeeze params).

(** ** [give_Me_input2d_Parameters] *)

(** The files that exist, by path, each with its content. *)
Definition filesystem := string -> option string.

(** The lines that iterating over a file opened in text mode yields:
    each line keeps its end, and an end written [\r\n] or [\r] is read
    as [\n]. [cur] is the line being read. *)
Fixpoint readlines_from (s cur : string) : list string :=
  match s with
  | EmptyString => if String.eqb cur "" then [] else [cur]
  | String "010" s' => (cur ++ String "010" "") :: readlines_from s' ""
  | String "013" (String "010" s') => (cur ++ String "010" "") :: readlines_from s' ""
  | String "013" s' => (cur ++ String "010" "") :: readlines_from s' ""
  | String c s' => readlines_from s' (cur ++ String c "")
  end.

Definition readlines (content : string) : list string := readlines_from content "".

Definition open (fs : filesystem) (filename : string) : result (list string) :=
  match fs filename with
  | Some content => Ok (readlines content)
  | None => Raise FileNotFoundError
  end.

Definition give_Me_input2d_Parameters (fs : filesystem) (fpath : string * string)
  : result (ndarray f8 * string) :=
  let filename := posixpath.join fpath.1 fpath.2 in
  '(names, params) ← open fs filename ≫= loadtxt;
  f ← open fs filename;
  struct_name ← string_reference_pass fpath.1 f;
  Ok (params, struct_name).

(** ** [main2d] *)

(** The values stored in [grid_Info] and [model_Info]. *)
Inductive pyval : Type :=
  | PyInt (n : Z)
  | PyFloat (x : f8).

(** [bool(v)]: the truth value an [if] gives to a stored value. *)
Definition truthy (v : pyval) : bool :=
  match v with
  | PyInt n => negb (n =? 0)
  | PyFloat (S754_zero _) => false
  | PyFloat _ => true
  end.

(** The arguments [main2d] hands to [Driver.main] (source line 163). *)
Record driver_args : Type := Driver_main {
  arg_struct_name : string;
  arg_mu : f8;
  arg_rho : f8;
  arg_grid_Info : gmap string pyval;
  arg_dt : f8;
  arg_T_final : f8;
  arg_model_Info : gmap string pyval
}.

(** [params[i]] for a literal index [i]. *)
Definition getitem (params : list f8) (i : nat) : result f8 :=
  match params !! i with
  | Some x => Ok x
  | None => Raise IndexError
  end.

(** [int(params[i])] *)
Definition int_at (params : list f8) (i : nat) : result pyval :=
  x ← getitem params i; n ← F8.to_int x; Ok (PyInt n).

(** [params[i]] stored as it is *)
Definition raw_at (params : list f8) (i : nat) : result pyval :=
  x ← getitem params i; Ok (PyFloat x).

(** [params[i]/params[j]] *)
Definition quot_at (params : list f8) (i j : nat) : result pyval :=
  x ← getitem params i; y ← getitem params j; Ok (PyFloat (F8.div x y)).

(** Source lines 100-163 on a one-dimensional array, statement by
    statement, up to the call of [Driver.main]. *)
Definition main2d_build (params : list f8) (struct_name : string) : result driver_args :=
  mu ← getitem params 0;
  rho ← getitem params 1;
  T_final ← getitem params 2;
  dt ← getitem params 3;
  let grid_Info : gmap string pyval := ∅ in
  v ← int_at params 4;       let grid_Info := <["Nx" := v]> grid_Info in
  v ← int_at params 5;       let grid_Info := <["Ny" := v]> grid_Info in
  v ← raw_at params 6;       let grid_Info := <["Lx" := v]> grid_Info in
  v ← raw_at params 7;       let grid_Info := <["Ly" := v]> grid_Info in
  v ← quot_at params 6 4;    let grid_Info := <["dx" := v]> grid_Info in
  v ← quot_at params 7 5;    let grid_Info := <["dy" := v]> grid_Info in
  v ← raw_at params 8;       let grid_Info := <["supp" := v]> grid_Info in
  v ← raw_at params 28;      let grid_Info := <["pDump" := v]> grid_Info in
  v ← int_at params 29;      let grid_Info := <["pMatplotlib" := v]> grid_Info in
  v ← int_at params 30;      let grid_Info := <["lagPlot" := v]> grid_Info in
  v ← int_at params 31;      let grid_Info := <["velPlot" := v]> grid_Info in
  v ← int_at params 32;      let grid_Info := <["vortPlot" := v]> grid_Info in
  v ← int_at params 33;      let grid_Info := <["uMagPlot" := v]> grid_Info in
  v ← int_at params 34;      let grid_Info := <["pressPlot" := v]> grid_Info in
  let model_Info : gmap string pyval := ∅ in
  v ← int_at params 9;       let model_Info := <["springs" := v]> model_Info in
  v ← int_at params 10;      let model_Info := <["update_springs" := v]> model_Info in
  v ← int_at params 11;      let model_Info := <["target_pts" := v]> model_Info in
  v ← int_at params 12;      let model_Info := <["update_target_pts" := v]> model_Info in
  v ← int_at params 13;      let model_Info := <["beams" := v]> model_Info in
  v ← int_at params 14;      let model_Info := <["update_beams" := v]> model_Info in
  v ← int_at params 15;      let model_Info := <["muscles" := v]> model_Info in
  v ← int_at params 16;      let model_Info := <["hill_3_muscles" := v]> model_Info in
  v ← int_at params 17;      let model_Info := <["arb_ext_force" := v]> model_Info in
  v ← int_at params 18;      let model_Info := <["tracers" := v]> model_Info in
  v ← int_at params 19;      let model_Info := <["mass" := v]> model_Info in
  v ← int_at params 20;      let model_Info := <["gravity" := v]> model_Info in
  v ← raw_at params 21;      let model_Info := <["xG" := v]> model_Info in
  v ← raw_at params 22;      let model_Info := <["yG" := v]> model_Info in
  v ← int_at params 23;      let model_Info := <["porous" := v]> model_Info in
  v ← int_at params 24;      let model_Info := <["concentration" := v]> model_Info in
  v ← int_at params 25;      let model_Info := <["electrophysiology" := v]> model_Info in
  v ← int_at params 26;      let model_Info := <["damped_springs" := v]> model_Info in
  v ← int_at params 27;      let model_Info := <["update_D_Springs" := v]> model_Info in
  Ok (Driver_main struct_name mu rho grid_Info dt T_final model_Info).

(** [main2d] up to the call of [Driver.main]: what it hands to the
    solver. On a zero-dimensional array the first read, [params[0]] at
    source line 100, raises [IndexError]. *)
Definition main2d (fs : filesystem) (fpath : string * string) : result driver_args :=
  '(params, struct_name) ← give_Me_input2d_Parameters fs fpath;
  match params with
  | Array1 values => main2d_build values struct_name
  | Array0 _ => Raise IndexError
  end.

(** ** The script body (source lines 166-181) *)

(** What [parser.parse_args()] returns. *)
Record namespace : Type := Namespace {
  args_fdiag : bool;
  args_path : option string
}.

(** How [parser.parse_args()] ends (source line 172): it returns the
    namespace, or [argparse] writes its help ([-h]) and exits with
    status 0, or it writes a usage error (an unknown flag, [-p] without
    a value) and exits with status 2. *)
Inductive parse_end : Type :=
  | Parsed (args : namespace)
  | Help_shown
  | Usage_error.

(** How the call of [Driver.main] at source line 163 ends. The solver
    is not part of this file and nothing around the call handles an
    exception: the call returns, raises, or leaves the interpreter. *)
Inductive call_end : Type :=
  | Returns
  | Raises (e : exn)
  | Exits (code : option Z).

(** What the process does that can be observed from outside. *)
Inductive event : Type :=
  | Parser_message                   (* the help or the usage error of argparse *)
  | Print (text : string)            (* a line written to standard output *)
  | Askopenfilename                  (* the file-selection dialog is shown *)
  | Call_main2d (fpath : string * string)   (* [main2d] is entered *)
  | Call_Driver_main (a : driver_args).     (* [Driver.main] is called *)

(** How the interpreter is left. *)
Inductive termination : Type :=
  | Finished                         (* the end of the script is reached *)
  | SystemExit (code : option Z)     (* [sys.exit(code)] *)
  | Uncaught (e : exn).

(** The exit status of the process: [sys.exit()] without an argument
    stands for [None], which is status zero. *)
Definition exit_status (t : termination) : Z :=
  match t with
  | Finished => 0
  | SystemExit None => 0
  | SystemExit (Some c) => c
  | Uncaught _ => 1
  end.

(** The run ends as the call of the solver ends: [main2d] returns what
    the call returned and the script has nothing left to do. *)
Definition after_call (c : call_end) : termination :=
  match c with
  | Returns => Finished
  | Raises e => Uncaught e
  | Exits code => SystemExit code
  end.

Definition usage_message : string :=
  "Invalid use of flags. Use the -h option for help.".

(** [if args.path]: [None] and the empty string are false. *)
Definition path_given (p : option string) : option string :=
  match p with
  | Some EmptyString | None => None
  | Some s => Some s
  end.

(** Source lines 180-181; [driver] tells how the solver ends on the
    arguments it is called with. *)
Definition run_main2d (driver : driver_args -> call_end) (fs : filesystem)
    (inname : string) : list event * termination :=
  let fpath := posixpath.split inname in
  match main2d fs fpath with
  | Ok a => ([Call_main2d fpath; Call_Driver_main a], after_call (driver a))
  | Raise e => ([Call_main2d fpath], Uncaught e)
  end.

(** Source lines 173-181, once [parse_args] has returned [args];
    [dialog] is the path the user picks when the dialog is shown. *)
Definition script (driver : driver_args -> call_end) (fs : filesystem)
    (dialog : string) (args : namespace) : list event * termination :=
  match path_given (args_path args) with
  | Some inname => run_main2d driver fs inname
  | None =>
      if args_fdiag args then
        let '(evs, t) := run_main2d driver fs dialog in (Askopenfilename :: evs, t)
      else ([Print usage_message], SystemExit None)
  end.

(** Source lines 167-181: the parser, then the script. *)
Definition main_block (driver : driver_args -> call_end) (fs : filesystem)
    (dialog : string) (parsed : parse_end) : list event * termination :=
  match parsed with
  | Parsed args => script driver fs dialog args
  | Help_shown => ([Parser_message], SystemExit (Some 0))
  | Usage_error => ([Parser_message], SystemExit (Some 2))
  end.

(** ** The positional schema *)

(** One more than the highest index [main2d] reads. *)
Definition schema_length : nat := 35.

Inductive dict_name : Type := Grid | Model.

Definition dict_of (a : driver_args) (d : dict_name) : gmap string pyval :=
  match d with
  | Grid => arg_grid_Info a
  | Model => arg_model_Info a
  end.

(** The feature flags of [model_Info]: slot and key. *)
Definition model_flags : list (nat * string) :=
  [ (9, "springs"); (10, "update_springs"); (11, "target_pts");
    (12, "update_target_pts"); (13, "beams"); (14, "update_beams");
    (15, "muscles"); (16, "hill_3_muscles"); (17, "arb_ext_force");
    (18, "tracers"); (19, "mass"); (20, "gravity"); (23, "porous");
    (24, "concentration"); (25, "electrophysiology");
    (26, "damped_springs"); (27, "update_D_Springs") ]%nat.

(** The plot switches of [grid_Info]: slot and key. *)
Definition plot_flags : list (nat * string) :=
  [ (29, "pMatplotlib"); (30, "lagPlot"); (31, "velPlot");
    (32, "vortPlot"); (33, "uMagPlot"); (34, "pressPlot") ]%nat.

(** Every boolean-like slot, with the dictionary that receives it. *)
Definition flag_slots : list (dict_name * nat * string) :=
  map (fun '(i, k) => (Model, i, k)) model_flags ++
  map (fun '(i, k) => (Grid, i, k)) plot_flags.

(** Every slot converted with [int]: the two grid counts and the flags. *)
Definition int_fields : list (dict_name * nat * string) :=
  [ (Grid, 4, "Nx"); (Grid, 5, "Ny") ]%nat ++ flag_slots.

(** Every slot stored unconverted in a dictionary. *)
Definition float_fields : list (dict_name * nat * string) :=
  [ (Grid, 6, "Lx"); (Grid, 7, "Ly"); (Grid, 8, "supp"); (Grid, 28, "pDump");
    (Model, 21, "xG"); (Model, 22, "yG") ]%nat.

(** The two axes: count slot, length slot, and the keys of the stored
    count, length and step. *)
Definition axes : list (nat * nat * string * string * string) :=
  [ (4, 6, "Nx", "Lx", "dx"); (5, 7, "Ny", "Ly", "dy") ]%nat.

Definition int_slots : list nat := map (fun '(_, i, _) => i) int_fields.

(** The integer-typed slots that are present hold finite values. *)
Definition ints_finite (params : list f8) : bool :=
  forallb (fun i =>
             match params !! i with
             | Some x => F8.is_finite x
             | None => true
             end)
          int_slots.

(** ** Writing a configuration back *)

(** Structural equality of binary64 values. *)
Definition f8_same (x y : f8) : bool :=
  match x, y with
  | S754_zero s, S754_zero t => Bool.eqb s t
  | S754_infinity s, S754_infinity t => Bool.eqb s t
  | S754_nan, S754_nan => true
  | S754_finite s m e, S754_finite t n f =>
      Bool.eqb s t && Pos.eqb m n && Z.eqb e f
  | _, _ => false
  end.

(** Every integer-typed slot holds an integer: [float(int(x))] is [x]. *)
Definition ints_exact (params : list f8) : bool :=
  forallb (fun i =>
             match params !! i with
             | Some x =>
                 match F8.to_int x with
                 | Ok n => f8_same (F8.of_Z n) x
                 | Raise _ => false
                 end
             | None => true
             end)
          int_slots.

(** Where the value of a slot is kept once [main2d] has run. *)
Inductive field : Type :=
  | Scalar (get : driver_args -> f8)
  | IntField (d : dict_name) (key : string)
  | FloatField (d : dict_name) (key : string).

(** The fixed positional schema: entry [i] is the field that [main2d]
    fills from [params[i]], under the name the slot has in [input2d]. *)
Definition schema : list (string * field) :=
  [ ("mu", Scalar arg_mu); ("rho", Scalar arg_rho);
    ("T_final", Scalar arg_T_final); ("dt", Scalar arg_dt);
    ("Nx", IntField Grid "Nx"); ("Ny", IntField Grid "Ny");
    ("Lx", FloatField Grid "Lx"); ("Ly", FloatField Grid "Ly");
    ("supp", FloatField Grid "supp");
    ("springs", IntField Model "springs");
    ("update_springs", IntField Model "update_springs");
    ("target_pts", IntField Model "target_pts");
    ("update_target_pts", IntField Model "update_target_pts");
    ("beams", IntField Model "beams");
    ("update_beams", IntField Model "update_beams");
    ("muscles", IntField Model "muscles");
    ("hill_3_muscles", IntField Model "hill_3_muscles");
    ("arb_ext_force", IntField Model "arb_ext_force");
    ("tracers", IntField Model "tracers");
    ("mass", IntField Model "mass");
    ("gravity", IntField Model "gravity");
    ("xG", FloatField Model "xG"); ("yG", FloatField Model "yG");
    ("porous", IntField Model "porous");
    ("concentration", IntField Model "concentration");
    ("electrophysiology", IntField Model "electrophysiology");
    ("damped_springs", IntField Model "damped_springs");
    ("update_D_Springs", IntField Model "update_D_Springs");
    ("pDump", FloatField Grid "pDump");
    ("pMatplotlib", IntField Grid "pMatplotlib");
    ("lagPlot", IntField Grid "lagPlot");
    ("velPlot", IntField Grid "velPlot");
    ("vortPlot", IntField Grid "vortPlot");
    ("uMagPlot", IntField Grid "uMagPlot");
    ("pressPlot", IntField Grid "pressPlot") ].

(** Modelled from the spec: the source has no code that writes a
    configuration back; this is the flat sequence the spec's round trip
    speaks of. The numeric value of a field: an integer is written as
    [float] of it; the derived steps [dx] and [dy] belong to no slot. *)
Definition field_value (a : driver_args) (f : field) : option f8 :=
  match f with
  | Scalar get => Some (get a)
  | IntField d key =>
      match dict_of a d !! key with
      | Some (PyInt n) => Some (F8.of_Z n)
      | _ => None
      end
  | FloatField d key =>
      match dict_of a d !! key with
      | Some (PyFloat x) => Some x
      | _ => None
      end
  end.

(** Modelled from the spec: the numeric fields in schema order. *)
Definition serialize (a : driver_args) : option (list f8) :=
  mapM (fun '(_, f) => field_value a f) schema.

(** [str(n)] for a non-negative integer, last digit first into [acc]. *)
Fixpoint dec_from (fuel : nat) (n : Z) (acc : string) : string :=
  let acc' := String (ascii_of_nat (48 + Z.to_nat (n mod 10))) acc in
  match fuel with
  | O => acc'
  | S fuel' => if n <? 10 then acc' else dec_from fuel' (n / 10) acc'
  end.

(** [str(n)] *)
Definition str_of_Z (n : Z) : string :=
  (if n <? 0 then "-" else "") ++
  dec_from (Z.to_nat (Z.log2 (Z.abs n))) (Z.abs n) "".

(** Modelled from the spec: a writer of binary64 values in exact decimal
    notation: an integer mantissa, and a power of ten when the value has
    a fraction. *)
Definition exact_decimal (x : f8) : string :=
  match x with
  | S754_nan => "nan"
  | S754_infinity s => (if s then "-" else "") ++ "inf"
  | S754_zero s => (if s then "-" else "") ++ "0.0"
  | S754_finite s m e =>
      (if s then "-" else "") ++
      (if 0 <=? e then str_of_Z (Z.pos m * 2 ^ e)
       else str_of_Z (Z.pos m * 5 ^ (- e)) ++ "e" ++ str_of_Z e)
  end.

(** Every character of [s] passes [P]. *)
Fixpoint all_chars (P : ascii -> bool) (s : string) : bool :=
  match s with
  | EmptyString => true
  | String c s' => P c && all_chars P s'
  end.

Definition is_digit (c : ascii) : bool :=
  match F8.digit_val c with Some _ => true | None => false end.

(** A character that is no white space, no [=], and starts no comment
    marker. *)
Definition value_char (c : ascii) : bool :=
  negb (Py.isspace c) && negb (Ascii.eqb c "=") &&
  negb (Ascii.eqb c "%") && negb (Ascii.eqb c "s").

(** A slot name the numeric pass reads over: not empty, without white
    space or [=], and with no comment marker in it. *)
Definition name_ok (name : string) : bool :=
  negb (String.eqb name "") &&
  all_chars (fun c => negb (Py.isspace c) && negb (Ascii.eqb c "=")) name &&
  String.eqb (cut_comments loadtxt_comments (name ++ " ")) (name ++ " ").

Section Writer.

(** The text a writer produces for one value. *)
Variable write_value : f8 -> string.

(** Modelled from the spec: one [name = value] line per slot. *)
Definition write_line (name : string) (x : f8) : string :=
  name ++ " = " ++ write_value x ++ String "010" "".

Definition write_lines (flat : list f8) : list string :=
  zip_with write_line (map fst schema) flat.

(** The numeric pass reads each written line back as the value written. *)
Definition reads_back (flat : list f8) : bool :=
  forallb (fun '(name, x) =>
             match loadtxt_row (write_line name x) with
             | Ok (Some (_, y)) => f8_same y x
             | _ => false
             end)
          (zip (map fst schema) flat).

End Writer.

(** ** Example data *)

(** The value of a Python float literal. *)
Definition f8_lit (text : string) : f8 :=
  match F8.parse text with
  | Ok x => x
  | Raise _ => S754_nan
  end.

(** A file system holding one file. *)
Definition one_file (path content : string) : filesystem :=
  fun p => if String.eqb p path then Some content else None.

(** The four-line input of the end-to-end example. *)
Definition example_text : string :=
"mu = 0.01
rho = 1.0
% comment string_name = ignored.vertex
string_name = beam.vertex
".

(** A complete [input2d]: the same first lines, all 35 slots, and a
    reference line that ends in a comment. *)
Definition input2d_text : string :=
"% fluid
mu = 0.01
rho = 1.0
% comment string_name = ignored.vertex
T_final = 0.5            % final time
dt = 0.001
Nx = 5                   % grid counts
Ny = 4
Lx = 10.0
Ly = 1.0
supp = 4
springs = 2.0
update_springs = 0.0
target_pts = 1.0
update_target_pts = 0.5
beams = 1
update_beams = 0
muscles = 0
hill_3_muscles = 0
arb_ext_force = 0
tracers = 0
mass = 0
gravity = 1
xG = 0
yG = -1.0
porous = 0
concentration = 0
electrophysiology = 0
damped_springs = 0
update_D_Springs = 0
pDump = 50
pMatplotlib = 1
lagPlot = 1
velPlot = 0
vortPlot = 0
uMagPlot = 0
pressPlot = 0
string_name = beam.vertex   % structure
".

(** A complete [input2d] in which every count and flag is an integer. *)
Definition rubberband_text : string :=
"%  input2d of a rubber band in a square domain
mu = 0.01                 % viscosity
rho = 1                   % density
T_final = 0.05            % final time
dt = 1e-4                 % time step
Nx = 64
Ny = 64
Lx = 1.0
Ly = 1.0
supp = 4
springs = 1               % 0 (for no) or 1 (for yes)
update_springs = 0
target_pts = 0
update_target_pts = 0
beams = 1
update_beams = 0
muscles = 0
hill_3_muscles = 0
arb_ext_force = 0
tracers = 0
mass = 0
gravity = 0
xG = 0
yG = -9.81
porous = 0
concentration = 0
electrophysiology = 0
damped_springs = 0
update_D_Springs = 0
pDump = 50
pMatplotlib = 0
lagPlot = 1
velPlot = 0
vortPlot = 1
uMagPlot = 0
pressPlot = 0

string_name = rubberband  % the vertex, spring and beam files
".

(** Ten numeric lines, the fifth holding a NaN. *)
Definition ten_text : string :=
"mu = 0.01
rho = 1.0
T_final = 0.5
dt = 0.001
Nx = nan
Ny = 4
Lx = 10.0
Ly = 1.0
supp = 4
springs = 1
".

(** A malformed value, and the keyword only inside a comment. *)
Definition malformed_text : string :=
"mu = abc
% string_name = beam.vertex
".

(** The values of a file's numeric pass; empty if the pass fails. *)
Definition params_of (text : string) : list f8 :=
  match loadtxt (readlines text) with
  | Ok (_, params) => array_values params
  | Raise _ => []
  end.

(** What [main2d_build] hands over; a placeholder if it fails. *)
Definition args_of (params : list f8) (struct_name : string) : driver_args :=
  match main2d_build params struct_name with
  | Ok a => a
  | Raise _ => Driver_main "" S754_nan S754_nan ∅ S754_nan S754_nan ∅
  end.

(** In every line where the keyword occurs, the comment marker occurs
    too, and before the keyword. *)
Definition keyword_only_in_comments (lines : list string) : bool :=
  forallb (fun line =>
             implb (Py.str_in keyword line)
                   ((0 <=? Py.find comment_marker line) &&
                    (Py.find comment_marker line <? Py.find keyword line)))
          lines.


(** ** Further example data and tables *)

(** A reference line whose [=] is glued to its neighbours, before one
    that is well formed. *)
Definition glued_text : string :=
"mu = 0.01
string_name=beam.vertex % glued
string_name = beam.vertex % spaced
".

(** A numeric line written with a colon, among well-formed lines. *)
Definition colon_text : string :=
"mu = 0.01
rho: 1.0   % a colon for the equals sign
string_name = beam.vertex % structure
".

(** The keys [main2d] assigns in [grid_Info] (source lines 109-127) and
    in [model_Info] (source lines 133-156), in the order of the
    assignments. *)
Definition grid_keys : list string :=
  [ "Nx"; "Ny"; "Lx"; "Ly"; "dx"; "dy"; "supp"; "pDump"; "pMatplotlib";
    "lagPlot"; "velPlot"; "vortPlot"; "uMagPlot"; "pressPlot" ].

Definition model_keys : list string :=
  [ "springs"; "update_springs"; "target_pts"; "update_target_pts"; "beams";
    "update_beams"; "muscles"; "hill_3_muscles"; "arb_ext_force"; "tracers";
    "mass"; "gravity"; "xG"; "yG"; "porous"; "concentration";
    "electrophysiology"; "damped_springs"; "update_D_Springs" ].

(** The same text with Windows line ends: a carriage return before
    every line feed. *)
Fixpoint crlf (s : string) : string :=
  match s with
  | EmptyString => EmptyString
  | String c s' =>
      if Ascii.eqb c "010" then String "013" (String "010" (crlf s'))
      else String c (crlf s')
  end.

(** The slots [main2d] converts with [int] while it fills [grid_Info]
    (source lines 109-127), before any flag of [model_Info] is read. *)
Definition grid_int_slots : list nat := [4; 5; 29; 30; 31; 32; 33; 34]%nat.


(** A reference line written with two blanks before the keyword. *)
Definition indented_text : string :=
"mu = 0.01
rho = 1.0
  string_name = beam.vertex % structure
".


(** * Properties *)

(** ** The error monad *)

Lemma bind_Ok {A B} (f : A -> result B) (a : A) : Ok a ≫= f = f a.
Proof. reflexivity. Qed.

Lemma bind_Raise {A B} (f : A -> result B) (e : exn) : Raise e ≫= f = Raise e.
Proof. reflexivity. Qed.

Lemma bind_Ok_inv {A B} (f : A -> result B) (m : result A) (b : B) :
  m ≫= f = Ok b -> exists a, m = Ok a /\ f a = Ok b.
Proof. destruct m as [a|e]; [eauto | discriminate]. Qed.

(** ** [find] and [in] *)

Lemma find_from_found sub s i :
  Py.str_in sub s = true -> i <= Py.find_from sub s i.
Proof.
  revert i. induction s as [|c s IH]; intros i; simpl.
  - destruct (Py.startswith sub ""); [lia | discriminate].
  - destruct (Py.startswith sub (String c s)); simpl; [lia |].
    intros H. specialize (IH (i + 1) H). lia.
Qed.

Lemma find_from_absent sub s i :
  Py.str_in sub s = false -> Py.find_from sub s i = -1.
Proof.
  revert i. induction s as [|c s IH]; intros i; simpl.
  - destruct (Py.startswith sub ""); [discriminate | reflexivity].
  - destruct (Py.startswith sub (String c s)); simpl; [discriminate | auto].
Qed.

Lemma find_nonneg_iff sub s : Py.str_in sub s = true <-> 0 <= Py.find sub s.
Proof.
  unfold Py.find. split.
  - apply find_from_found.
  - destruct (Py.str_in sub s) eqn:E; [reflexivity |].
    rewrite (find_from_absent _ _ _ E). lia.
Qed.

(** The source's test, spelled out: the keyword occurs, and at a lower
    index than the first comment marker. *)
Lemma qualifies_iff line :
  qualifies line = true <->
  0 <= Py.find keyword line < Py.find comment_marker line.
Proof.
  unfold qualifies. rewrite andb_true_iff, find_nonneg_iff, Z.ltb_lt. tauto.
Qed.

(** A line without any comment marker never passes the source's test:
    [find] answers [-1] for the marker, and no index is below that. *)
Lemma qualifies_without_marker line :
  Py.str_in comment_marker line = false -> qualifies line = false.
Proof.
  intros H. destruct (qualifies line) eqn:E; [|reflexivity].
  apply qualifies_iff in E.
  unfold Py.find in E. rewrite (find_from_absent _ _ 0 H) in E. lia.
Qed.

Lemma for_lines_none_qualify dir lines :
  forallb (fun l => negb (qualifies l)) lines = true ->
  for_lines dir lines = Ok None.
Proof.
  induction lines as [|l ls IH]; simpl; [reflexivity |].
  rewrite andb_true_iff, negb_true_iff. intros [-> H]. auto.
Qed.

Lemma keyword_only_in_comments_none_qualify lines :
  keyword_only_in_comments lines = true ->
  forallb (fun l => negb (qualifies l)) lines = true.
Proof.
  unfold keyword_only_in_comments. rewrite !forallb_forall.
  intros H l Hl. specialize (H l Hl). rewrite negb_true_iff.
  destruct (qualifies l) eqn:E; [|reflexivity].
  apply qualifies_iff in E.
  assert (Hin : Py.str_in keyword l = true) by (apply find_nonneg_iff; lia).
  rewrite Hin in H. simpl in H.
  apply andb_true_iff in H as [_ H]. apply Z.ltb_lt in H. lia.
Qed.

(** ** Comment lines in the numeric pass *)

Lemma loadtxt_rows_skip pre line post :
  loadtxt_row line = Ok None ->
  loadtxt_rows (pre ++ line :: post) = loadtxt_rows (pre ++ post).
Proof.
  intros H. induction pre as [|l pre IH]; simpl.
  - rewrite H. simpl. destruct (loadtxt_rows post) as [[ns ps]|e]; reflexivity.
  - rewrite IH. reflexivity.
Qed.

Lemma loadtxt_skip pre line post :
  loadtxt_row line = Ok None ->
  loadtxt (pre ++ line :: post) = loadtxt (pre ++ post).
Proof.
  intros H. unfold loadtxt. rewrite (loadtxt_rows_skip pre line post H). reflexivity.
Qed.

(** ** Squeezed columns *)

Lemma squeeze_Array1 {A} (values : list A) :
  length values <> 1%nat -> squeeze values = Array1 values.
Proof. destruct values as [|x [|y l]]; simpl; intros H; [| lia |]; reflexivity. Qed.

Lemma squeeze_Array1_inv {A} (values xs : list A) :
  squeeze values = Array1 xs -> values = xs /\ length xs <> 1%nat.
Proof.
  destruct values as [|x [|y l]]; simpl; intros H; try discriminate;
    injection H as <-; split; try reflexivity; simpl; lia.
Qed.

Lemma array_values_squeeze {A} (values : list A) :
  array_values (squeeze values) = values.
Proof. destruct values as [|x [|y l]]; reflexivity. Qed.

Lemma loadtxt_Ok_inv lines names params :
  loadtxt lines = Ok (names, params) ->
  exists ns ps,
    loadtxt_rows lines = Ok (ns, ps) /\ names = squeeze ns /\ params = squeeze ps.
Proof.
  unfold loadtxt. destruct (loadtxt_rows lines) as [[ns ps]|e]; simpl;
    [| discriminate].
  intros H. injection H as <- <-. eauto.
Qed.

Lemma loadtxt_is_Ok_rows lines : is_Ok (loadtxt lines) = is_Ok (loadtxt_rows lines).
Proof.
  unfold loadtxt. destruct (loadtxt_rows lines) as [[ns ps]|e]; reflexivity.
Qed.

(** ** The positional mapping *)

Lemma to_int_finite x : F8.is_finite x = true -> exists n, F8.to_int x = Ok n.
Proof. destruct x; simpl; intros H; try discriminate; eauto. Qed.

Lemma to_int_Ok_finite x n : F8.to_int x = Ok n -> F8.is_finite x = true.
Proof. destruct x; simpl; intros H; try discriminate; reflexivity. Qed.

Lemma getitem_Ok_inv params i x :
  getitem params i = Ok x -> params !! i = Some x.
Proof. unfold getitem. destruct (params !! i); intros H; inversion H; auto. Qed.

Lemma int_at_Ok_inv params i v :
  int_at params i = Ok v ->
  exists x n, params !! i = Some x /\ F8.to_int x = Ok n /\ v = PyInt n.
Proof.
  unfold int_at. intros H.
  apply bind_Ok_inv in H as (x & Hx & H). apply getitem_Ok_inv in Hx.
  apply bind_Ok_inv in H as (n & Hn & H). inversion H. eauto.
Qed.

Lemma raw_at_Ok_inv params i v :
  raw_at params i = Ok v -> exists x, params !! i = Some x /\ v = PyFloat x.
Proof.
  unfold raw_at. intros H.
  apply bind_Ok_inv in H as (x & Hx & H). apply getitem_Ok_inv in Hx.
  inversion H. eauto.
Qed.

Lemma quot_at_Ok_inv params i j v :
  quot_at params i j = Ok v ->
  exists x y, params !! i = Some x /\ params !! j = Some y /\
              v = PyFloat (F8.div x y).
Proof.
  unfold quot_at. intros H.
  apply bind_Ok_inv in H as (x & Hx & H). apply getitem_Ok_inv in Hx.
  apply bind_Ok_inv in H as (y & Hy & H). apply getitem_Ok_inv in Hy.
  inversion H. eauto.
Qed.

(** Takes the first statement of a successful run apart. *)
Ltac invert_statement H :=
  let v := fresh "v" in
  let Hv := fresh "Hv" in
  apply bind_Ok_inv in H as (v & Hv & H); cbv beta zeta in H;
  first
    [ apply int_at_Ok_inv in Hv as (? & ? & ? & ? & ->)
    | apply raw_at_Ok_inv in Hv as (? & ? & ->)
    | apply quot_at_Ok_inv in Hv as (? & ? & ? & ? & ->)
    | apply getitem_Ok_inv in Hv ].

Ltac same_lookups :=
  repeat match goal with
    | H1 : ?l !! ?i = Some ?x, H2 : ?l !! ?i = Some ?y |- _ =>
        assert (y = x) by congruence; subst y; clear H2
    end.

Ltac split_membership H :=
  repeat (apply elem_of_cons in H as [H | H];
          [inversion H; clear H; subst |]);
  try (apply elem_of_nil in H; destruct H).

(** Everything a successful run read and stored. *)
Lemma main2d_build_inv params s a :
  main2d_build params s = Ok a ->
  (schema_length <= length params)%nat /\
  arg_struct_name a = s /\
  params !! 0%nat = Some (arg_mu a) /\
  params !! 1%nat = Some (arg_rho a) /\
  params !! 2%nat = Some (arg_T_final a) /\
  params !! 3%nat = Some (arg_dt a) /\
  (forall d i key, (d, i, key) ∈ int_fields ->
     exists x n, params !! i = Some x /\ F8.to_int x = Ok n /\
                 dict_of a d !! key = Some (PyInt n)) /\
  (forall d i key, (d, i, key) ∈ float_fields ->
     exists x, params !! i = Some x /\ dict_of a d !! key = Some (PyFloat x)) /\
  (forall c l kn kl kd, (c, l, kn, kl, kd) ∈ axes ->
     exists count len, params !! c = Some count /\ params !! l = Some len /\
       arg_grid_Info a !! kd = Some (PyFloat (F8.div len count))).
Proof.
  intros H. unfold main2d_build in H. cbv beta zeta in H.
  repeat invert_statement H.
  inversion H; subst a; clear H. same_lookups. simpl.
  split; [| repeat split; try assumption].
  - match goal with
    | H : params !! 34%nat = Some _ |- _ => apply lookup_lt_Some in H
    end.
    unfold schema_length. lia.
  - intros d i key Hin.
    unfold int_fields, flag_slots, model_flags, plot_flags in Hin; simpl in Hin.
    split_membership Hin; do 2 eexists; (split; [eassumption |]);
      (split; [eassumption | reflexivity]).
  - intros d i key Hin. unfold float_fields in Hin.
    split_membership Hin; eexists; (split; [eassumption | reflexivity]).
  - intros c l kn kl kd Hin. unfold axes in Hin.
    split_membership Hin; do 2 eexists; (split; [eassumption |]);
      (split; [eassumption | reflexivity]).
Qed.

(** The reads of [main2d] never reach past the schema. *)
Lemma main2d_build_take params s :
  main2d_build (take schema_length params) s = main2d_build params s.
Proof.
  unfold main2d_build, int_at, raw_at, quot_at, getitem, schema_length.
  rewrite !lookup_take_lt by lia. reflexivity.
Qed.

Lemma getitem_cases params i :
  (exists x, (i < length params)%nat /\ getitem params i = Ok x) \/
  ((length params <= i)%nat /\ getitem params i = Raise IndexError).
Proof.
  unfold getitem. destruct (params !! i) as [x|] eqn:E.
  - left. exists x. split; [eapply lookup_lt_Some; eauto | reflexivity].
  - right. split; [apply lookup_ge_None_1; auto | reflexivity].
Qed.

Lemma raw_at_cases params i :
  (exists v, (i < length params)%nat /\ raw_at params i = Ok v) \/
  ((length params <= i)%nat /\ raw_at params i = Raise IndexError).
Proof.
  unfold raw_at.
  destruct (getitem_cases params i) as [(x & Hlt & ->) | (Hge & ->)];
    [left; eauto | right; auto].
Qed.

Lemma quot_at_cases params i j :
  (exists v, (i < length params)%nat /\ (j < length params)%nat /\
             quot_at params i j = Ok v) \/
  ((length params <= Nat.max i j)%nat /\ quot_at params i j = Raise IndexError).
Proof.
  unfold quot_at.
  destruct (getitem_cases params i) as [(x & Hi & ->) | (Hi & ->)];
    [| right; split; [lia | reflexivity]].
  destruct (getitem_cases params j) as [(y & Hj & ->) | (Hj & ->)];
    [left; eauto | right; split; [lia | reflexivity]].
Qed.

Lemma int_at_cases params i :
  ints_finite params = true -> In i int_slots ->
  (exists v, (i < length params)%nat /\ int_at params i = Ok v) \/
  ((length params <= i)%nat /\ int_at params i = Raise IndexError).
Proof.
  intros Hfin Hin. unfold int_at, getitem.
  destruct (params !! i) as [x|] eqn:E.
  - left. unfold ints_finite in Hfin. rewrite forallb_forall in Hfin.
    specialize (Hfin i Hin). rewrite E in Hfin.
    destruct (to_int_finite x Hfin) as [n Hn].
    exists (PyInt n). split; [eapply lookup_lt_Some; eauto |].
    simpl. rewrite Hn. reflexivity.
  - right. split; [apply lookup_ge_None_1; auto | reflexivity].
Qed.

Ltac in_int_slots := simpl; repeat first [left; reflexivity | right].

(** Runs the first statement: either it raises [IndexError], or the
    run goes on with what it stored. *)
Ltac run_statement Hfin :=
  lazymatch goal with
  | |- match ?m ≫= _ with _ => _ end =>
      lazymatch m with
      | getitem ?p ?i =>
          destruct (getitem_cases p i) as [(? & ? & ->) | (? & ->)]
      | raw_at ?p ?i =>
          destruct (raw_at_cases p i) as [(? & ? & ->) | (? & ->)]
      | quot_at ?p ?i ?j =>
          destruct (quot_at_cases p i j) as [(? & ? & ? & ->) | (? & ->)]
      | int_at ?p ?i =>
          destruct (int_at_cases p i Hfin ltac:(in_int_slots))
            as [(? & ? & ->) | (? & ->)]
      end;
      [ rewrite bind_Ok; cbv beta zeta
      | rewrite bind_Raise; split; [reflexivity | unfold schema_length; lia] ]
  end.

(** With finite integer-typed slots, a run fails exactly when the vector
    is shorter than the schema, and then with [IndexError]. *)
Lemma main2d_build_outcome params s :
  ints_finite params = true ->
  match main2d_build params s with
  | Ok _ => (schema_length <= length params)%nat
  | Raise e => e = IndexError /\ (length params < schema_length)%nat
  end.
Proof.
  intros Hfin. unfold main2d_build. cbv beta zeta.
  repeat run_statement Hfin.
  unfold schema_length. lia.
Qed.


(** ** Binary64 facts *)

Lemma f8_lit_zero : f8_lit "0.0" = S754_zero false.
Proof. vm_compute. reflexivity. Qed.

Lemma f8_lit_one : f8_lit "1.0" = S754_finite false 4503599627370496 (-52).
Proof. vm_compute. reflexivity. Qed.

Lemma digits2_pos_bound m : Z.pos m < 2 ^ Z.pos (digits2_pos m).
Proof.
  induction m as [m IH | m IH |]; simpl digits2_pos;
    rewrite ?Pos2Z.inj_succ, ?Z.pow_succ_r by lia; lia.
Qed.

Lemma bounded_digits m e :
  bounded F8.prec F8.emax m e = true -> Z.pos (digits2_pos m) <= F8.prec.
Proof.
  unfold bounded, canonical_mantissa, fexp, F8.prec.
  rewrite andb_true_iff, Z.eqb_eq. lia.
Qed.

(** [int] of a value strictly between 0 and 1 is 0. *)
Lemma to_int_fraction x :
  valid_binary F8.prec F8.emax x = true ->
  SFltb (f8_lit "0.0") x = true ->
  SFltb x (f8_lit "1.0") = true ->
  F8.to_int x = Ok 0.
Proof.
  rewrite f8_lit_zero, f8_lit_one. intros Hb H0 H1.
  destruct x as [sx | sx | | sx m e]; try (destruct sx; discriminate);
    try discriminate.
  destruct sx; [discriminate |].
  unfold SFltb, SFcompare in H1. unfold valid_binary in Hb.
  apply bounded_digits in Hb. pose proof (digits2_pos_bound m) as Hm.
  unfold F8.prec in Hb.
  assert (Hlt : e < 0 /\ Z.pos m < 2 ^ (- e)).
  { destruct (Z.compare_spec e (-52)) as [-> | He | He]; try discriminate.
    - split; [lia |]. destruct (Pos.compare_cont Eq m 4503599627370496) eqn:Hc;
        try discriminate.
      change (- -52) with 52. change (2 ^ 52) with (Z.pos 4503599627370496).
      apply Pos2Z.pos_lt_pos. exact Hc.
    - split; [lia |].
      assert (2 ^ Z.pos (digits2_pos m) <= 2 ^ (- e))
        by (apply Z.pow_le_mono_r; lia).
      lia. }
  destruct Hlt as [He Hm'].
  unfold F8.to_int, cond_Zopp.
  destruct (Z.leb_spec 0 e); [lia |].
  rewrite Z.div_small by lia. reflexivity.
Qed.


(** ** Exact values through the rounding of binary64 *)

Lemma digits2_pos_lower m : 2 ^ (Z.pos (digits2_pos m) - 1) <= Z.pos m.
Proof.
  induction m as [m IH | m IH |]; simpl digits2_pos;
    rewrite ?Pos2Z.inj_succ.
  - replace (Z.succ (Z.pos (digits2_pos m)) - 1)
      with (Z.succ (Z.pos (digits2_pos m) - 1)) by lia.
    rewrite Z.pow_succ_r by lia. lia.
  - replace (Z.succ (Z.pos (digits2_pos m)) - 1)
      with (Z.succ (Z.pos (digits2_pos m) - 1)) by lia.
    rewrite Z.pow_succ_r by lia. lia.
  - simpl. lia.
Qed.

(** The number of binary digits is fixed by the two powers around. *)
Lemma digits2_pos_unique m d :
  2 ^ (d - 1) <= Z.pos m < 2 ^ d -> Z.pos (digits2_pos m) = d.
Proof.
  intros [Hlo Hhi].
  pose proof (digits2_pos_bound m) as Hb. pose proof (digits2_pos_lower m) as Hl.
  assert (0 < d).
  { destruct (Z.ltb_spec 0 d) as [|Hd]; [assumption |].
    destruct (Z.eq_dec d 0) as [-> | Hne]; [simpl in Hhi; lia |].
    rewrite Z.pow_neg_r in Hhi by lia. lia. }
  assert (d - 1 < Z.pos (digits2_pos m)).
  { apply (Z.pow_lt_mono_r_iff 2); lia. }
  assert (Z.pos (digits2_pos m) - 1 < d).
  { apply (Z.pow_lt_mono_r_iff 2); lia. }
  lia.
Qed.

Lemma Zdigits2_shift m j :
  0 <= j -> Zdigits2 (Z.pos m * 2 ^ j) = Z.pos (digits2_pos m) + j.
Proof.
  intros Hj.
  assert (Hpos : 0 < Z.pos m * 2 ^ j) by (apply Z.mul_pos_pos; [lia | apply Z.pow_pos_nonneg; lia]).
  destruct (Z.pos m * 2 ^ j) as [|p|p] eqn:E; try lia.
  simpl. apply digits2_pos_unique. rewrite <- E.
  pose proof (digits2_pos_bound m) as Hb. pose proof (digits2_pos_lower m) as Hl.
  replace (Z.pos (digits2_pos m) + j - 1) with ((Z.pos (digits2_pos m) - 1) + j) by lia.
  rewrite !Z.pow_add_r by lia.
  assert (0 < 2 ^ j) by (apply Z.pow_pos_nonneg; lia).
  split; [apply Z.mul_le_mono_nonneg_r; lia | apply Z.mul_lt_mono_pos_r; lia].
Qed.

Lemma iter_pos_nat {A} (f : A -> A) p x :
  SpecFloat.iter_pos f p x = Nat.iter (Pos.to_nat p) f x.
Proof.
  revert x. induction p as [p IH | p IH |]; intros x; simpl SpecFloat.iter_pos.
  - rewrite !IH, Pos2Nat.inj_xI.
    replace (S (2 * Pos.to_nat p)) with (Pos.to_nat p + (Pos.to_nat p + 1))%nat by lia.
    rewrite !Nat.iter_add. reflexivity.
  - rewrite !IH, Pos2Nat.inj_xO.
    replace (2 * Pos.to_nat p)%nat with (Pos.to_nat p + Pos.to_nat p)%nat by lia.
    rewrite Nat.iter_add. reflexivity.
  - reflexivity.
Qed.

Lemma shr_1_even m :
  shr_1 (Build_shr_record (Z.pos m * 2) false false)
    = Build_shr_record (Z.pos m) false false.
Proof. rewrite Z.mul_comm. reflexivity. Qed.

Lemma shr_exact_nat m n :
  Nat.iter n shr_1 (Build_shr_record (Z.pos m * 2 ^ Z.of_nat n) false false)
    = Build_shr_record (Z.pos m) false false.
Proof.
  revert m. induction n as [|n IH]; intros m.
  - simpl. rewrite Z.mul_1_r. reflexivity.
  - rewrite Nat.iter_succ_r, Nat2Z.inj_succ, Z.pow_succ_r by lia.
    replace (Z.pos m * (2 * 2 ^ Z.of_nat n)) with (Z.pos (m * Z.to_pos (2 ^ Z.of_nat n)) * 2).
    + rewrite shr_1_even. rewrite Pos2Z.inj_mul, Z2Pos.id by (apply Z.pow_pos_nonneg; lia).
      apply IH.
    + rewrite Pos2Z.inj_mul, Z2Pos.id by (apply Z.pow_pos_nonneg; lia). lia.
Qed.

Lemma fexp_canonical m e :
  bounded F8.prec F8.emax m e = true ->
  fexp F8.prec F8.emax (Z.pos (digits2_pos m) + e) = e /\ e <= F8.emax - F8.prec.
Proof.
  unfold bounded, canonical_mantissa. rewrite andb_true_iff, Z.eqb_eq, Z.leb_le. tauto.
Qed.

(** A value that binary64 holds exactly, given with [j] more low zero
    bits in its mantissa, comes out of the rounding as it is. *)
Lemma binary_round_aux_exact s m e j :
  bounded F8.prec F8.emax m e = true -> 0 <= j ->
  binary_round_aux F8.prec F8.emax s (Z.pos m * 2 ^ j) (e - j) loc_Exact
    = S754_finite s m e.
Proof.
  intros Hb Hj. destruct (fexp_canonical m e Hb) as [Hc He].
  unfold binary_round_aux, shr_fexp.
  rewrite Zdigits2_shift by assumption.
  replace (Z.pos (digits2_pos m) + j + (e - j)) with (Z.pos (digits2_pos m) + e) by lia.
  rewrite Hc. replace (e - (e - j)) with j by lia.
  assert (Hshr : shr (shr_record_of_loc (Z.pos m * 2 ^ j) loc_Exact) (e - j) j
                 = (Build_shr_record (Z.pos m) false false, e)).
  { unfold shr, shr_record_of_loc. destruct j as [|p|p]; try lia.
    - rewrite Z.mul_1_r. f_equal. lia.
    - rewrite iter_pos_nat. rewrite <- (positive_nat_Z p) at 1.
      rewrite shr_exact_nat. f_equal. lia. }
  rewrite Hshr. simpl shr_m. simpl loc_of_shr_record. simpl round_nearest_even.
  simpl Zdigits2. rewrite Hc, Z.sub_diag. simpl shr. simpl shr_m.
  cbv beta iota zeta. simpl shr_m. apply Z.leb_le in He. rewrite He. reflexivity.
Qed.

Lemma Zdigits2_bounds n :
  0 < n -> 2 ^ (Zdigits2 n - 1) <= n < 2 ^ Zdigits2 n.
Proof.
  destruct n as [|p|p]; try lia. intros _. simpl.
  split; [apply digits2_pos_lower | apply digits2_pos_bound].
Qed.

Lemma fexp_mono a b :
  a <= b -> fexp F8.prec F8.emax a <= fexp F8.prec F8.emax b.
Proof. unfold fexp. lia. Qed.

Lemma pow10_split k : 0 <= k -> 10 ^ k = 2 ^ k * 5 ^ k.
Proof. intros Hk. rewrite <- Z.pow_mul_l. reflexivity. Qed.

Lemma of_decimal_pos_0 s p :
  F8.of_decimal s (Z.pos p) 0 = binary_round F8.prec F8.emax s p 0.
Proof.
  unfold F8.of_decimal. change (0 <=? 0) with true. cbv iota.
  change (Z.to_pos (10 ^ 0)) with 1%positive. rewrite Pos.mul_1_r. reflexivity.
Qed.

(** The text of an integer value. *)
Lemma of_decimal_integer s m e :
  bounded F8.prec F8.emax m e = true -> 0 <= e ->
  F8.of_decimal s (Z.pos m * 2 ^ e) 0 = S754_finite s m e.
Proof.
  intros Hb He. destruct (fexp_canonical m e Hb) as [Hc _].
  assert (Hpos : 0 < Z.pos m * 2 ^ e)
    by (apply Z.mul_pos_pos; [lia | apply Z.pow_pos_nonneg; lia]).
  pose proof (Zdigits2_shift m e He) as Hd.
  destruct (Z.pos m * 2 ^ e) as [|p|p] eqn:E; try lia.
  rewrite of_decimal_pos_0.
  unfold binary_round. simpl in Hd. rewrite Z.add_0_r, Hd, Hc.
  unfold shl_align. rewrite Z.sub_0_r.
  assert (Hal : match e with Z.neg d => (Pos.iter xO p d, e) | _ => (p, 0) end = (p, 0))
    by (destruct e; try lia; reflexivity).
  rewrite Hal. rewrite <- E.
  replace 0 with (e - e) at 1 by lia.
  apply binary_round_aux_exact; assumption.
Qed.

(** The text of a value with a fraction: the mantissa times a power of
    five, over the same power of ten. *)
Lemma of_decimal_fraction s m e :
  bounded F8.prec F8.emax m e = true -> e < 0 ->
  F8.of_decimal s (Z.pos m * 5 ^ (- e)) e = S754_finite s m e.
Proof.
  intros Hb He. destruct (fexp_canonical m e Hb) as [Hc _].
  remember (- e) as k eqn:Hke. assert (Hk : 0 < k) by lia.
  assert (H5 : 0 < 5 ^ k) by (apply Z.pow_pos_nonneg; lia).
  assert (H2 : 0 < 2 ^ k) by (apply Z.pow_pos_nonneg; lia).
  assert (H10 : 0 < 10 ^ k) by (apply Z.pow_pos_nonneg; lia).
  assert (Hpos : 0 < Z.pos m * 5 ^ k) by (apply Z.mul_pos_pos; lia).
  pose proof (Zdigits2_bounds _ Hpos) as [Hlo1 _].
  pose proof (Zdigits2_bounds _ H10) as [_ Hhi2].
  pose proof (digits2_pos_bound m) as Hm.
  (* the quotient has no more digits than the value *)
  assert (Hdig : Zdigits2 (Z.pos m * 5 ^ k) - Zdigits2 (10 ^ k)
                 <= Z.pos (digits2_pos m) - k).
  { pose proof (pow10_split k ltac:(lia)) as H10s.
    remember (Zdigits2 (10 ^ k)) as D eqn:HD.
    remember (Zdigits2 (Z.pos m * 5 ^ k)) as D1 eqn:HD1.
    assert (Hk2 : k <= D).
    { apply Z.lt_le_incl. apply (Z.pow_lt_mono_r_iff 2); try lia.
      - subst D. destruct (10 ^ k); simpl; lia.
      - nia. }
    assert (H5' : 5 ^ k < 2 ^ (D - k)).
    { replace D with (k + (D - k)) in Hhi2 by lia.
      rewrite Z.pow_add_r in Hhi2 by lia.
      apply (Z.mul_lt_mono_pos_l (2 ^ k)); lia. }
    assert (Hlt : 2 ^ (D1 - 1) < 2 ^ (Z.pos (digits2_pos m) + (D - k))).
    { rewrite (Z.pow_add_r 2 (Z.pos (digits2_pos m))) by lia.
      assert (0 < 2 ^ (D - k)) by (apply Z.pow_pos_nonneg; lia).
      nia. }
    apply Z.pow_lt_mono_r_iff in Hlt; lia. }
  unfold F8.of_decimal. rewrite <- Hke.
  destruct (Z.pos m * 5 ^ k) as [|p|p] eqn:E; try lia.
  destruct (Z.leb_spec 0 e) as [|_]; [lia |].
  rewrite <- (Z2Pos.id (10 ^ k)) in Hdig by assumption.
  unfold SFdiv, SFdiv_core_binary.
  rewrite !Z.add_0_r, Z.sub_0_r.
  remember (Z.min (fexp F8.prec F8.emax
                      (Zdigits2 (Z.pos p) - Zdigits2 (Z.pos (Z.to_pos (10 ^ k))))) 0)
    as e' eqn:He'def.
  assert (He' : e' <= e).
  { subst e'. etransitivity; [apply Z.le_min_l |].
    rewrite <- Hc. apply fexp_mono. simpl Zdigits2 in *. lia. }
  remember (- e' - k) as j eqn:Hje. assert (Hj : 0 <= j) by lia.
  assert (Hs : 0 - e' = Z.pos (Z.to_pos (- e'))) by (rewrite Z2Pos.id; lia).
  rewrite Hs. rewrite <- Hs. rewrite Z.shiftl_mul_pow2 by lia.
  assert (Hq : Z.pos p * 2 ^ (0 - e') = (Z.pos m * 2 ^ j) * Z.pos (Z.to_pos (10 ^ k))).
  { rewrite Z2Pos.id by assumption. rewrite <- E.
    replace (0 - e') with (k + j) by lia.
    rewrite Z.pow_add_r, (pow10_split k) by lia. ring. }
  rewrite Hq.
  destruct (Z.div_eucl (Z.pos m * 2 ^ j * Z.pos (Z.to_pos (10 ^ k)))
                       (Z.pos (Z.to_pos (10 ^ k)))) as [q r] eqn:Ediv.
  assert (q = Z.pos m * 2 ^ j).
  { transitivity ((Z.pos m * 2 ^ j * Z.pos (Z.to_pos (10 ^ k))) / Z.pos (Z.to_pos (10 ^ k))).
    - unfold Z.div. rewrite Ediv. reflexivity.
    - apply Z.div_mul. lia. }
  assert (r = 0).
  { transitivity ((Z.pos m * 2 ^ j * Z.pos (Z.to_pos (10 ^ k))) mod Z.pos (Z.to_pos (10 ^ k))).
    - unfold Z.modulo. rewrite Ediv. reflexivity.
    - apply Z.mod_mul. lia. }
  subst q r.
  assert (Hloc : new_location (Z.pos (Z.to_pos (10 ^ k))) 0 = loc_Exact).
  { unfold new_location, new_location_even, new_location_odd.
    destruct (Z.even _); reflexivity. }
  rewrite Hloc. rewrite Bool.xorb_false_r.
  replace e' with (e - j) by lia.
  apply binary_round_aux_exact; assumption.
Qed.

(** ** Decimal numerals *)

Lemma is_digit_cases c :
  is_digit c = true ->
  c = "0"%char \/ c = "1"%char \/ c = "2"%char \/ c = "3"%char \/ c = "4"%char \/
  c = "5"%char \/ c = "6"%char \/ c = "7"%char \/ c = "8"%char \/ c = "9"%char.
Proof.
  destruct c as [[] [] [] [] [] [] [] []]; intros H;
    try discriminate H; tauto.
Qed.

Lemma digit_val_of_char d :
  0 <= d < 10 -> F8.digit_val (ascii_of_nat (48 + Z.to_nat d)) = Some d.
Proof.
  intros H.
  assert (Hd : d = 0 \/ d = 1 \/ d = 2 \/ d = 3 \/ d = 4 \/
               d = 5 \/ d = 6 \/ d = 7 \/ d = 8 \/ d = 9) by lia.
  repeat (destruct Hd as [-> | Hd]; [reflexivity |]). rewrite Hd. reflexivity.
Qed.

Lemma digit_char_val n :
  0 <= n ->
  F8.digit_val (ascii_of_nat (48 + Z.to_nat (n mod 10))) = Some (n mod 10).
Proof. intros Hn. apply digit_val_of_char. apply Z.mod_pos_bound. lia. Qed.

Lemma digit_char_is_digit n :
  0 <= n -> is_digit (ascii_of_nat (48 + Z.to_nat (n mod 10))) = true.
Proof. intros Hn. unfold is_digit. rewrite digit_char_val by assumption. reflexivity. Qed.

Lemma digits_cons c s acc k :
  F8.digits (String c s) acc k =
  match F8.digit_val c with
  | Some d => F8.digits s (10 * acc + d) (k + 1)
  | None => (acc, k, String c s)
  end.
Proof. reflexivity. Qed.

Lemma dec_from_0 n acc :
  dec_from 0 n acc = String (ascii_of_nat (48 + Z.to_nat (n mod 10))) acc.
Proof. reflexivity. Qed.

Lemma dec_from_S fuel n acc :
  dec_from (S fuel) n acc =
  if n <? 10 then String (ascii_of_nat (48 + Z.to_nat (n mod 10))) acc
  else dec_from fuel (n / 10) (String (ascii_of_nat (48 + Z.to_nat (n mod 10))) acc).
Proof. reflexivity. Qed.

Lemma all_chars_cons P c s : all_chars P (String c s) = P c && all_chars P s.
Proof. reflexivity. Qed.

(** Reading a numeral written by [dec_from]: the digits read so far are
    shifted and the number added. *)
Lemma digits_dec_from fuel n acc a k :
  0 <= n < 2 ^ (Z.of_nat fuel + 1) ->
  exists L, 0 < L /\
    F8.digits (dec_from fuel n acc) a k = F8.digits acc (a * 10 ^ L + n) (k + L).
Proof.
  revert n acc a k. induction fuel as [|fuel IH]; intros n acc a k Hn.
  - exists 1. split; [lia |]. rewrite dec_from_0, digits_cons.
    rewrite digit_char_val by lia.
    change (2 ^ (Z.of_nat 0 + 1)) with 2 in Hn.
    rewrite Z.mod_small by lia. rewrite Z.pow_1_r.
    f_equal; lia.
  - rewrite dec_from_S. destruct (Z.ltb_spec n 10) as [Hlt | Hge].
    + exists 1. split; [lia |]. rewrite digits_cons.
      rewrite digit_char_val by lia. rewrite Z.mod_small by lia. rewrite Z.pow_1_r.
      f_equal; lia.
    + assert (Hq : 0 <= n / 10 < 2 ^ (Z.of_nat fuel + 1)).
      { split; [apply Z.div_pos; lia |].
        apply Z.div_lt_upper_bound; [lia |].
        rewrite Nat2Z.inj_succ in Hn.
        replace (Z.succ (Z.of_nat fuel) + 1) with (Z.succ (Z.of_nat fuel + 1)) in Hn by lia.
        rewrite Z.pow_succ_r in Hn by lia.
        assert (0 < 2 ^ (Z.of_nat fuel + 1)) by (apply Z.pow_pos_nonneg; lia). lia. }
      destruct (IH (n / 10) (String (ascii_of_nat (48 + Z.to_nat (n mod 10))) acc) a k Hq)
        as (L & HL & Heq).
      exists (L + 1). split; [lia |]. rewrite Heq, digits_cons.
      rewrite digit_char_val by lia.
      rewrite Z.pow_add_r, Z.pow_1_r by lia.
      pose proof (Z.div_mod n 10 ltac:(lia)) as Hdm.
      f_equal; lia.
Qed.

Lemma dec_from_app fuel n acc rest :
  dec_from fuel n acc ++ rest = dec_from fuel n (acc ++ rest).
Proof.
  revert n acc. induction fuel as [|fuel IH]; intros n acc.
  - reflexivity.
  - rewrite !dec_from_S. destruct (n <? 10); [reflexivity |]. rewrite IH. reflexivity.
Qed.

Lemma dec_from_all_chars P fuel n acc :
  (forall c, is_digit c = true -> P c = true) -> 0 <= n ->
  all_chars P acc = true -> all_chars P (dec_from fuel n acc) = true.
Proof.
  intros HP. revert n acc. induction fuel as [|fuel IH]; intros n acc Hn Hacc.
  - rewrite dec_from_0, all_chars_cons.
    rewrite HP by (apply digit_char_is_digit; lia). exact Hacc.
  - assert (Hstep : all_chars P (String (ascii_of_nat (48 + Z.to_nat (n mod 10))) acc) = true).
    { rewrite all_chars_cons. rewrite HP by (apply digit_char_is_digit; lia). exact Hacc. }
    rewrite dec_from_S. destruct (n <? 10); [exact Hstep |].
    apply IH; [apply Z.div_pos; lia | exact Hstep].
Qed.

(** A numeral starts with a digit. *)
Lemma dec_from_head fuel n acc :
  0 <= n -> exists c t, dec_from fuel n acc = String c t /\ is_digit c = true.
Proof.
  revert n acc. induction fuel as [|fuel IH]; intros n acc Hn.
  - rewrite dec_from_0.
    eexists _, _. split; [reflexivity | apply digit_char_is_digit; lia].
  - rewrite dec_from_S. destruct (n <? 10).
    + eexists _, _. split; [reflexivity | apply digit_char_is_digit; lia].
    + apply IH. apply Z.div_pos; lia.
Qed.

Lemma log2_fuel n :
  0 <= n -> 0 <= n < 2 ^ (Z.of_nat (Z.to_nat (Z.log2 n)) + 1).
Proof.
  intros Hn. split; [assumption |].
  rewrite Z2Nat.id by apply Z.log2_nonneg.
  destruct (Z.eq_dec n 0) as [-> | Hne]; [simpl; lia |].
  replace (Z.log2 n + 1) with (Z.succ (Z.log2 n)) by lia.
  apply Z.log2_spec. lia.
Qed.

(** Reading the numeral of a non-negative integer, followed by [rest]. *)
Lemma digits_str_of_Z n rest :
  0 <= n ->
  exists L, 0 < L /\ F8.digits (str_of_Z n ++ rest) 0 0 = F8.digits rest n L.
Proof.
  intros Hn. unfold str_of_Z.
  destruct (Z.ltb_spec n 0) as [|_]; [lia |].
  rewrite Z.abs_eq by assumption.
  change ("" ++ dec_from (Z.to_nat (Z.log2 n)) n "")
    with (dec_from (Z.to_nat (Z.log2 n)) n "").
  rewrite dec_from_app. change ("" ++ rest) with rest.
  destruct (digits_dec_from (Z.to_nat (Z.log2 n)) n rest 0 0 (log2_fuel n Hn))
    as (L & HL & Heq).
  exists L. split; [assumption |]. rewrite Heq. f_equal; lia.
Qed.

Lemma str_of_Z_head n :
  0 <= n -> exists c t, str_of_Z n = String c t /\ is_digit c = true.
Proof.
  intros Hn. unfold str_of_Z.
  destruct (Z.ltb_spec n 0) as [|_]; [lia |].
  rewrite Z.abs_eq by assumption. apply dec_from_head. assumption.
Qed.

Lemma str_of_Z_neg n :
  n < 0 -> str_of_Z n = String "-" (str_of_Z (- n)).
Proof.
  intros Hn. unfold str_of_Z.
  destruct (Z.ltb_spec n 0) as [_|]; [| lia].
  destruct (Z.ltb_spec (- n) 0) as [|_]; [lia |].
  rewrite Z.abs_neq, Z.abs_eq by lia. reflexivity.
Qed.

Lemma str_of_Z_all_chars P n :
  (forall c, is_digit c = true -> P c = true) -> 0 <= n ->
  all_chars P (str_of_Z n) = true.
Proof.
  intros HP Hn. unfold str_of_Z.
  destruct (Z.ltb_spec n 0) as [|_]; [lia |].
  rewrite Z.abs_eq by assumption. apply dec_from_all_chars; auto.
Qed.

(** ** Text without white space, separators and comment markers *)

Lemma append_nil_r s : s ++ "" = s.
Proof.
  induction s as [|c s IH]; [reflexivity |].
  change (String c s ++ "") with (String c (s ++ "")). rewrite IH. reflexivity.
Qed.

Lemma append_assoc a b c : (a ++ b) ++ c = a ++ (b ++ c).
Proof.
  induction a as [|x a IH]; [reflexivity |].
  change ((String x a ++ b) ++ c) with (String x ((a ++ b) ++ c)).
  rewrite IH. reflexivity.
Qed.

Lemma all_chars_app P a b :
  all_chars P (a ++ b) = all_chars P a && all_chars P b.
Proof.
  induction a as [|c a IH]; [reflexivity |].
  change (String c a ++ b) with (String c (a ++ b)).
  rewrite !all_chars_cons, IH, andb_assoc. reflexivity.
Qed.

Lemma all_chars_impl (P Q : ascii -> bool) s :
  (forall c, P c = true -> Q c = true) ->
  all_chars P s = true -> all_chars Q s = true.
Proof.
  intros HPQ. induction s as [|c s IH]; [reflexivity |].
  rewrite !all_chars_cons, !andb_true_iff. intros [Hc Hs]. auto.
Qed.

Lemma rstrip_cons c s :
  Py.rstrip (String c s) =
  match Py.rstrip s with
  | EmptyString => if Py.isspace c then EmptyString else String c EmptyString
  | r => String c r
  end.
Proof. reflexivity. Qed.

Lemma rstrip_no_space s :
  all_chars (fun c => negb (Py.isspace c)) s = true -> Py.rstrip s = s.
Proof.
  induction s as [|c s IH]; [reflexivity |].
  rewrite all_chars_cons, andb_true_iff, negb_true_iff. intros [Hc Hs].
  rewrite rstrip_cons, (IH Hs), Hc. destruct s; reflexivity.
Qed.

Lemma rstrip_newline s :
  all_chars (fun c => negb (Py.isspace c)) s = true -> s <> "" ->
  Py.rstrip (s ++ String "010" "") = s.
Proof.
  induction s as [|c s IH]; [congruence |].
  rewrite all_chars_cons, andb_true_iff, negb_true_iff. intros [Hc Hs] _.
  change (String c s ++ String "010" "") with (String c (s ++ String "010" "")).
  rewrite rstrip_cons. destruct s as [|d s].
  - simpl. rewrite Hc. reflexivity.
  - rewrite (IH Hs) by discriminate. reflexivity.
Qed.

Lemma rstrip_app a b :
  Py.rstrip b <> "" -> Py.rstrip (a ++ b) = a ++ Py.rstrip b.
Proof.
  intros Hb. induction a as [|c a IH]; [reflexivity |].
  change (String c a ++ b) with (String c (a ++ b)).
  rewrite rstrip_cons, IH.
  change (String c a ++ Py.rstrip b) with (String c (a ++ Py.rstrip b)).
  destruct (a ++ Py.rstrip b) eqn:E; [| reflexivity].
  destruct a; [| discriminate].
  change ("" ++ Py.rstrip b) with (Py.rstrip b) in E. contradiction.
Qed.

Lemma split_on_cons d c s :
  Py.split_on d (String c s) =
  if Ascii.eqb c d then EmptyString :: Py.split_on d s
  else match Py.split_on d s with
       | w :: ws => String c w :: ws
       | [] => [String c EmptyString]
       end.
Proof. reflexivity. Qed.

Lemma split_on_absent d s :
  all_chars (fun c => negb (Ascii.eqb c d)) s = true -> Py.split_on d s = [s].
Proof.
  induction s as [|c s IH]; [reflexivity |].
  rewrite all_chars_cons, andb_true_iff, negb_true_iff. intros [Hc Hs].
  rewrite split_on_cons, Hc, (IH Hs). reflexivity.
Qed.

Lemma split_on_first d a b :
  all_chars (fun c => negb (Ascii.eqb c d)) a = true ->
  Py.split_on d (a ++ String d b) = a :: Py.split_on d b.
Proof.
  induction a as [|c a IH].
  - intros _. change ("" ++ String d b) with (String d b).
    rewrite split_on_cons, Ascii.eqb_refl. reflexivity.
  - rewrite all_chars_cons, andb_true_iff, negb_true_iff. intros [Hc Ha].
    change (String c a ++ String d b) with (String c (a ++ String d b)).
    rewrite split_on_cons, Hc, (IH Ha). reflexivity.
Qed.

Lemma cut_comments_cons c s :
  cut_comments loadtxt_comments (String c s) =
  if (Py.startswith "%" (String c s) || (Py.startswith "string_name" (String c s) || false))%bool
  then EmptyString
  else String c (cut_comments loadtxt_comments s).
Proof. reflexivity. Qed.

Lemma startswith_cons a p b s :
  Py.startswith (String a p) (String b s) = Ascii.eqb a b && Py.startswith p s.
Proof. reflexivity. Qed.

Lemma cut_comments_char c s :
  Ascii.eqb c "%" = false -> Ascii.eqb c "s" = false ->
  cut_comments loadtxt_comments (String c s)
    = String c (cut_comments loadtxt_comments s).
Proof.
  intros H1 H2. rewrite cut_comments_cons.
  assert (Hp : Py.startswith "%" (String c s) = false).
  { change "%" with (String "%" ""). rewrite startswith_cons, Ascii.eqb_sym, H1. reflexivity. }
  assert (Hs : Py.startswith "string_name" (String c s) = false).
  { change "string_name" with (String "s" "tring_name").
    rewrite startswith_cons, Ascii.eqb_sym, H2. reflexivity. }
  rewrite Hp, Hs. reflexivity.
Qed.

Lemma cut_comments_chars t r :
  all_chars (fun c => negb (Ascii.eqb c "%") && negb (Ascii.eqb c "s")) t = true ->
  cut_comments loadtxt_comments (t ++ r) = t ++ cut_comments loadtxt_comments r.
Proof.
  induction t as [|c t IH]; [reflexivity |].
  rewrite all_chars_cons, !andb_true_iff, !negb_true_iff. intros [[H1 H2] Ht].
  change (String c t ++ r) with (String c (t ++ r)).
  rewrite cut_comments_char by assumption. rewrite (IH Ht). reflexivity.
Qed.

(** A marker has no space in it, so whether it starts somewhere in a
    name is settled by the name and the space after it. *)
Lemma startswith_before_space m t rest :
  all_chars (fun c => negb (Ascii.eqb c " ")) m = true ->
  Py.startswith m (t ++ String " " rest) = Py.startswith m (t ++ " ").
Proof.
  revert t. induction m as [|a m IH]; intros t Hm; [destruct t; reflexivity |].
  rewrite all_chars_cons, andb_true_iff, negb_true_iff in Hm. destruct Hm as [Ha Hm].
  destruct t as [|b t].
  - change ("" ++ String " " rest) with (String " " rest).
    change ("" ++ " ") with (String " " "").
    rewrite !startswith_cons, Ha. reflexivity.
  - change (String b t ++ String " " rest) with (String b (t ++ String " " rest)).
    change (String b t ++ " ") with (String b (t ++ " ")).
    rewrite !startswith_cons, (IH t Hm). reflexivity.
Qed.

Lemma cut_comments_name name rest :
  cut_comments loadtxt_comments (name ++ " ") = name ++ " " ->
  cut_comments loadtxt_comments (name ++ String " " rest)
    = name ++ cut_comments loadtxt_comments (String " " rest).
Proof.
  induction name as [|c name IH]; [reflexivity |].
  change (String c name ++ " ") with (String c (name ++ " ")).
  change (String c name ++ String " " rest) with (String c (name ++ String " " rest)).
  rewrite (cut_comments_cons c (name ++ " ")).
  rewrite (cut_comments_cons c (name ++ String " " rest)).
  change (String c (name ++ String " " rest)) with (String c name ++ String " " rest).
  rewrite !(startswith_before_space _ (String c name) rest) by reflexivity.
  change (String c name ++ " ") with (String c (name ++ " ")).
  destruct (Py.startswith "%" (String c (name ++ " "))
            || (Py.startswith "string_name" (String c (name ++ " ")) || false))%bool;
    [discriminate |].
  intros H. injection H as H. rewrite (IH H). reflexivity.
Qed.

(** ** Reading back what the exact writer wrote *)

Lemma is_digit_value_char c : is_digit c = true -> value_char c = true.
Proof.
  intros H. destruct (is_digit_cases c H) as [-> | [-> | [-> | [-> | [-> |
    [-> | [-> | [-> | [-> | ->]]]]]]]]]; reflexivity.
Qed.

Lemma value_char_no_space c : value_char c = true -> negb (Py.isspace c) = true.
Proof. unfold value_char. rewrite !andb_true_iff. tauto. Qed.

Lemma value_char_no_equals c : value_char c = true -> negb (Ascii.eqb c "=") = true.
Proof. unfold value_char. rewrite !andb_true_iff. tauto. Qed.

Lemma value_char_no_marker c :
  value_char c = true -> negb (Ascii.eqb c "%") && negb (Ascii.eqb c "s") = true.
Proof. unfold value_char. rewrite !andb_true_iff. tauto. Qed.

Lemma lstrip_cons c s :
  Py.lstrip (String c s) = if Py.isspace c then Py.lstrip s else String c s.
Proof. reflexivity. Qed.

Lemma lstrip_value text :
  all_chars value_char text = true -> Py.lstrip text = text.
Proof.
  destruct text as [|c t]; [reflexivity |].
  rewrite all_chars_cons, andb_true_iff. intros [Hc _].
  apply value_char_no_space, negb_true_iff in Hc.
  rewrite lstrip_cons, Hc. reflexivity.
Qed.

Lemma strip_value text :
  all_chars value_char text = true -> Py.strip text = text.
Proof.
  intros H. unfold Py.strip. rewrite (lstrip_value text H).
  apply rstrip_no_space. eapply all_chars_impl; [apply value_char_no_space | exact H].
Qed.

Lemma strip_space_value text :
  all_chars value_char text = true -> Py.strip (String " " text) = text.
Proof.
  intros H. unfold Py.strip. rewrite lstrip_cons.
  change (Py.isspace " ") with true. cbv iota.
  apply (strip_value text H).
Qed.

Lemma parse_strip a b : Py.strip a = Py.strip b -> F8.parse a = F8.parse b.
Proof. unfold F8.parse. intros ->. reflexivity. Qed.

Lemma sign_digit c t : is_digit c = true -> F8.sign (String c t) = (false, String c t).
Proof.
  intros H. destruct (is_digit_cases c H) as [-> | [-> | [-> | [-> | [-> |
    [-> | [-> | [-> | [-> | ->]]]]]]]]]; reflexivity.
Qed.

Lemma unsigned_digit sg c t :
  is_digit c = true -> F8.unsigned sg (String c t) = F8.numeral sg (String c t).
Proof.
  intros H. destruct (is_digit_cases c H) as [-> | [-> | [-> | [-> | [-> |
    [-> | [-> | [-> | [-> | ->]]]]]]]]]; reflexivity.
Qed.

(** A sign and a body that starts with a digit. *)
Lemma parse_signed (sg : bool) body :
  all_chars value_char body = true ->
  (exists c t, body = String c t /\ is_digit c = true) ->
  F8.parse ((if sg then "-" else "") ++ body) = F8.numeral sg body.
Proof.
  intros Hchars (c & t & Hbody & Hc).
  unfold F8.parse. rewrite strip_value.
  - destruct sg.
    + change ("-" ++ body) with (String "-" body).
      change (F8.sign (String "-" body)) with (true, body). cbv beta iota.
      rewrite Hbody. apply unsigned_digit. exact Hc.
    + change ("" ++ body) with body. rewrite Hbody, (sign_digit c t Hc).
      cbv beta iota. apply unsigned_digit. exact Hc.
  - destruct sg.
    + change ("-" ++ body) with (String "-" body). rewrite all_chars_cons, Hchars.
      reflexivity.
    + exact Hchars.
Qed.

Lemma numeral_unfold sg body :
  F8.numeral sg body =
  let '(ip, ki, r1) := F8.digits body 0 0 in
  let '(m, kf, r2) :=
    match r1 with
    | String "." r => F8.digits r ip 0
    | _ => (ip, 0, r1)
    end in
  if ki + kf =? 0 then Raise ValueError
  else match F8.exponent r2 with
       | Some e => Ok (F8.of_decimal sg m (e - kf))
       | None => Raise ValueError
       end.
Proof. reflexivity. Qed.

Lemma exponent_negative num :
  F8.exponent (String "e" (String "-" num)) =
  let '(v, k, rest) := F8.digits num 0 0 in
  if ((0 <? k) && String.eqb rest "")%bool then Some (- v) else None.
Proof. reflexivity. Qed.

(** The numeral of an integer. *)
Lemma numeral_integer sg n :
  0 <= n -> F8.numeral sg (str_of_Z n) = Ok (F8.of_decimal sg n 0).
Proof.
  intros Hn. rewrite numeral_unfold.
  destruct (digits_str_of_Z n "" Hn) as (L & HL & Heq).
  rewrite append_nil_r in Heq. rewrite Heq.
  change (F8.digits EmptyString n L) with (n, L, EmptyString). cbv beta iota.
  assert (HL0 : (L + 0 =? 0) = false) by (apply Z.eqb_neq; lia).
  rewrite HL0. change (F8.exponent EmptyString) with (Some 0). cbv beta iota.
  reflexivity.
Qed.

(** The numeral of an integer times a negative power of ten. *)
Lemma numeral_power sg n k :
  0 <= n -> 0 < k ->
  F8.numeral sg (str_of_Z n ++ "e" ++ str_of_Z (- k)) = Ok (F8.of_decimal sg n (- k)).
Proof.
  intros Hn Hk. rewrite numeral_unfold.
  destruct (digits_str_of_Z n ("e" ++ str_of_Z (- k)) Hn) as (L & HL & Heq).
  rewrite Heq. change ("e" ++ str_of_Z (- k)) with (String "e" (str_of_Z (- k))).
  rewrite digits_cons. change (F8.digit_val "e") with (@None Z). cbv beta iota.
  assert (HL0 : (L + 0 =? 0) = false) by (apply Z.eqb_neq; lia).
  rewrite HL0. rewrite str_of_Z_neg by lia. rewrite Z.opp_involutive.
  rewrite exponent_negative.
  destruct (digits_str_of_Z k "" ltac:(lia)) as (L' & HL' & Heq').
  rewrite append_nil_r in Heq'. rewrite Heq'.
  change (F8.digits EmptyString k L') with (k, L', EmptyString). cbv beta iota.
  assert (HL1 : (0 <? L') = true) by (apply Z.ltb_lt; lia).
  rewrite HL1. change (String.eqb EmptyString EmptyString) with true.
  change (true && true) with true. cbv beta iota.
  rewrite Z.sub_0_r. reflexivity.
Qed.

Lemma str_of_Z_value n : 0 <= n -> all_chars value_char (str_of_Z n) = true.
Proof. intros Hn. apply str_of_Z_all_chars; [apply is_digit_value_char | exact Hn]. Qed.

(** The exact writer is read back by [float]: every binary64 value comes
    back from its text. *)
Lemma parse_exact_decimal x :
  valid_binary F8.prec F8.emax x = true -> F8.parse (exact_decimal x) = Ok x.
Proof.
  destruct x as [s | s | | s m e]; intros Hv.
  - destruct s; reflexivity.
  - destruct s; reflexivity.
  - reflexivity.
  - simpl in Hv. unfold exact_decimal.
    destruct (Z.leb_spec 0 e) as [He | He].
    + assert (Hpos : 0 <= Z.pos m * 2 ^ e)
        by (apply Z.mul_nonneg_nonneg; [lia | apply Z.pow_nonneg; lia]).
      rewrite parse_signed.
      * rewrite numeral_integer by assumption. f_equal.
        apply of_decimal_integer; assumption.
      * apply str_of_Z_value; assumption.
      * apply str_of_Z_head; assumption.
    + assert (Hpos : 0 <= Z.pos m * 5 ^ (- e))
        by (apply Z.mul_nonneg_nonneg; [lia | apply Z.pow_nonneg; lia]).
      rewrite parse_signed.
      * replace e with (- (- e)) at 2 by lia.
        rewrite numeral_power by lia. rewrite Z.opp_involutive. f_equal.
        apply of_decimal_fraction; assumption.
      * rewrite all_chars_app, str_of_Z_value by assumption.
        change ("e" ++ str_of_Z e) with (String "e" (str_of_Z e)).
        rewrite all_chars_cons. rewrite str_of_Z_neg by lia.
        rewrite all_chars_cons, str_of_Z_value by lia. reflexivity.
      * destruct (str_of_Z_head _ Hpos) as (c & t & Hct & Hc).
        exists c, (t ++ "e" ++ str_of_Z e). rewrite Hct. split; [reflexivity | exact Hc].
Qed.

Lemma exact_decimal_value x :
  valid_binary F8.prec F8.emax x = true ->
  all_chars value_char (exact_decimal x) = true /\ exact_decimal x <> "".
Proof.
  destruct x as [s | s | | s m e]; intros Hv.
  - destruct s; split; [reflexivity | discriminate | reflexivity | discriminate].
  - destruct s; split; [reflexivity | discriminate | reflexivity | discriminate].
  - split; [reflexivity | discriminate].
  - unfold exact_decimal.
    assert (Hbody : forall body,
              all_chars value_char body = true -> body <> "" ->
              all_chars value_char ((if s then "-" else "") ++ body) = true /\
              (if s then "-" else "") ++ body <> "").
    { intros body Hb Hne. destruct s.
      - change ("-" ++ body) with (String "-" body). rewrite all_chars_cons, Hb.
        split; [reflexivity | discriminate].
      - split; assumption. }
    apply Hbody; destruct (Z.leb_spec 0 e) as [He | He].
    + apply str_of_Z_value.
      apply Z.mul_nonneg_nonneg; [lia | apply Z.pow_nonneg; lia].
    + rewrite all_chars_app, str_of_Z_value
        by (apply Z.mul_nonneg_nonneg; [lia | apply Z.pow_nonneg; lia]).
      change ("e" ++ str_of_Z e) with (String "e" (str_of_Z e)).
      rewrite all_chars_cons. rewrite str_of_Z_neg by lia.
      rewrite all_chars_cons, str_of_Z_value by lia. reflexivity.
    + destruct (str_of_Z_head (Z.pos m * 2 ^ e)) as (c & t & -> & _);
        [apply Z.mul_nonneg_nonneg; [lia | apply Z.pow_nonneg; lia] | discriminate].
    + destruct (str_of_Z_head (Z.pos m * 5 ^ (- e))) as (c & t & -> & _);
        [apply Z.mul_nonneg_nonneg; [lia | apply Z.pow_nonneg; lia] | discriminate].
Qed.

(** ** The end of a line *)

Lemma lstrip_chars_cons chars c s :
  Py.lstrip_chars chars (String c s)
    = if Py.char_in c chars then Py.lstrip_chars chars s else String c s.
Proof. reflexivity. Qed.

Lemma rstrip_chars_cons chars c s :
  Py.rstrip_chars chars (String c s) =
  match Py.rstrip_chars chars s with
  | EmptyString => if Py.char_in c chars then EmptyString else String c EmptyString
  | r => String c r
  end.
Proof. reflexivity. Qed.

Lemma line_end_is_space c : Py.char_in c line_end = true -> Py.isspace c = true.
Proof.
  unfold line_end. simpl. rewrite orb_false_r, orb_true_iff.
  intros [H | H]; apply Ascii.eqb_eq in H; subst c; reflexivity.
Qed.

Lemma no_space_no_line_end c :
  negb (Py.isspace c) = true -> Py.char_in c line_end = false.
Proof.
  intros H. destruct (Py.char_in c line_end) eqn:E; [| reflexivity].
  apply line_end_is_space in E. rewrite E in H. discriminate.
Qed.

Lemma rstrip_chars_no_line_end s :
  all_chars (fun c => negb (Py.char_in c line_end)) s = true ->
  Py.rstrip_chars line_end s = s.
Proof.
  induction s as [|c s IH]; [reflexivity |].
  rewrite all_chars_cons, andb_true_iff, negb_true_iff. intros [Hc Hs].
  rewrite rstrip_chars_cons, (IH Hs), Hc.
  destruct s; reflexivity.
Qed.

Lemma rstrip_chars_line s :
  all_chars (fun c => negb (Py.char_in c line_end)) s = true -> s <> "" ->
  Py.rstrip_chars line_end (s ++ String "010" "") = s.
Proof.
  induction s as [|c s IH]; [congruence |].
  rewrite all_chars_cons, andb_true_iff, negb_true_iff. intros [Hc Hs] _.
  change (String c s ++ String "010" "") with (String c (s ++ String "010" "")).
  rewrite rstrip_chars_cons. destruct s as [|d s].
  - change (Py.rstrip_chars line_end ("" ++ String "010" "")) with "".
    cbv iota. rewrite Hc. reflexivity.
  - rewrite IH by (assumption || discriminate). reflexivity.
Qed.

Lemma no_space_no_line_end_chars s :
  all_chars (fun c => negb (Py.isspace c)) s = true ->
  all_chars (fun c => negb (Py.char_in c line_end)) s = true.
Proof.
  apply all_chars_impl. intros c Hc. rewrite (no_space_no_line_end c Hc). reflexivity.
Qed.

Lemma rstrip_chars_newline s :
  all_chars (fun c => negb (Py.isspace c)) s = true -> s <> "" ->
  Py.rstrip_chars line_end (s ++ String "010" "") = s.
Proof.
  intros Hs. apply rstrip_chars_line. apply no_space_no_line_end_chars. exact Hs.
Qed.

Lemma rstrip_chars_app chars a b :
  Py.rstrip_chars chars b <> "" ->
  Py.rstrip_chars chars (a ++ b) = a ++ Py.rstrip_chars chars b.
Proof.
  intros Hb. induction a as [|c a IH]; [reflexivity |].
  change (String c a ++ b) with (String c (a ++ b)).
  rewrite rstrip_chars_cons, IH.
  change (String c a ++ Py.rstrip_chars chars b)
    with (String c (a ++ Py.rstrip_chars chars b)).
  destruct (a ++ Py.rstrip_chars chars b) eqn:E; [| reflexivity].
  destruct a; [| discriminate].
  change ("" ++ Py.rstrip_chars chars b) with (Py.rstrip_chars chars b) in E.
  congruence.
Qed.

(** A written line, seen by the numeric pass: the name is read over and
    the text of the value goes to [float]. *)
Lemma loadtxt_row_written name text :
  name_ok name = true ->
  all_chars value_char text = true -> text <> "" ->
  loadtxt_row (name ++ " = " ++ text ++ String "010" "")
    = (v ← F8.parse text; Ok (Some (String.substring 0 25 (name ++ " "), v))).
Proof.
  unfold name_ok. rewrite !andb_true_iff, negb_true_iff.
  intros [[Hne Hname] Hcut] Htext Hnonempty.
  apply String.eqb_neq in Hne. apply String.eqb_eq in Hcut.
  assert (Hspace : all_chars (fun c => negb (Py.isspace c)) text = true)
    by (eapply all_chars_impl; [apply value_char_no_space | exact Htext]).
  (* nothing is cut as a comment *)
  assert (H1 : cut_comments loadtxt_comments (name ++ " = " ++ text ++ String "010" "")
               = name ++ " = " ++ text ++ String "010" "").
  { change (" = " ++ text ++ String "010" "")
      with (String " " (String "=" (String " " (text ++ String "010" "")))).
    rewrite (cut_comments_name name _ Hcut).
    rewrite !cut_comments_char by reflexivity.
    rewrite cut_comments_chars
      by (eapply all_chars_impl; [apply value_char_no_marker | exact Htext]).
    reflexivity. }
  (* only the end of the line is stripped *)
  assert (H2 : Py.strip_chars line_end (name ++ " = " ++ text ++ String "010" "")
               = name ++ " = " ++ text).
  { unfold Py.strip_chars. destruct name as [|c name]; [congruence |].
    rewrite all_chars_cons, andb_true_iff in Hname. destruct Hname as [Hc _].
    apply andb_true_iff in Hc as [Hc _].
    change (String c name ++ " = " ++ text ++ String "010" "")
      with (String c (name ++ " = " ++ text ++ String "010" "")).
    rewrite lstrip_chars_cons, (no_space_no_line_end c Hc).
    change (String c (name ++ " = " ++ text ++ String "010" ""))
      with (String c name ++ " = " ++ text ++ String "010" "").
    rewrite <- (append_assoc (String c name) " = " (text ++ String "010" "")).
    rewrite rstrip_chars_app; rewrite rstrip_chars_newline by assumption;
      [| assumption].
    apply append_assoc. }
  (* the two fields *)
  assert (H3 : Py.split_on "=" (name ++ " = " ++ text)
               = [name ++ " "; String " " text]).
  { change (" = " ++ text) with (" " ++ String "=" (String " " text)).
    rewrite <- (append_assoc name " " (String "=" (String " " text))).
    rewrite split_on_first.
    - rewrite split_on_absent; [reflexivity |].
      rewrite all_chars_cons.
      change (negb (Ascii.eqb " " "=")) with true.
      eapply all_chars_impl; [apply value_char_no_equals | exact Htext].
    - rewrite all_chars_app. change (all_chars _ " ") with true.
      rewrite andb_true_r.
      eapply all_chars_impl; [| exact Hname].
      intros c Hc. apply andb_true_iff in Hc. tauto. }
  unfold loadtxt_row. rewrite H1, H2.
  assert (H4 : String.eqb (name ++ " = " ++ text) "" = false).
  { apply String.eqb_neq. destruct name; [congruence | discriminate]. }
  rewrite H4, H3.
  rewrite (parse_strip (String " " text) text)
    by (rewrite strip_space_value, strip_value by assumption; reflexivity).
  reflexivity.
Qed.

Lemma schema_names_ok : forallb name_ok (map fst schema) = true.
Proof. vm_compute. reflexivity. Qed.

(** Whatever binary64 values are written, the numeric pass reads the
    lines of the exact writer back as those values. *)
Lemma exact_decimal_reads_back flat :
  forallb (valid_binary F8.prec F8.emax) flat = true ->
  reads_back exact_decimal flat = true.
Proof.
  unfold reads_back. pose proof schema_names_ok as Hnames. revert Hnames.
  generalize (map fst schema) as names. intros names. revert flat.
  induction names as [|name names IH]; intros [|x flat] Hnames Hvalid;
    try reflexivity.
  simpl in Hnames, Hvalid.
  apply andb_true_iff in Hnames as [Hname Hnames].
  apply andb_true_iff in Hvalid as [Hx Hvalid].
  change (zip (name :: names) (x :: flat)) with ((name, x) :: zip names flat).
  change (forallb ?f ((name, x) :: ?l)) with (f (name, x) && forallb f l).
  rewrite (IH flat Hnames Hvalid), andb_true_r. cbv beta iota.
  destruct (exact_decimal_value x Hx) as [Hchars Hne].
  unfold write_line. rewrite (loadtxt_row_written name _ Hname Hchars Hne).
  rewrite (parse_exact_decimal x Hx). rewrite bind_Ok.
  destruct x as [s | s | | s m e]; simpl;
    rewrite ?Bool.eqb_reflx, ?Pos.eqb_refl, ?Z.eqb_refl; reflexivity.
Qed.

(** ** Every rounded value is a binary64 value *)

Lemma shr_1_half r :
  0 <= shr_m r -> shr_m (shr_1 r) = shr_m r / 2.
Proof.
  destruct r as [m b t]. simpl shr_m. intros Hm.
  destruct m as [|p|p]; [reflexivity | | lia].
  destruct p as [p|p|]; unfold shr_1, shr_m.
  - apply (Z.div_unique _ _ _ 1); lia.
  - apply (Z.div_unique _ _ _ 0); lia.
  - reflexivity.
Qed.

Lemma shr_iter_half n r :
  0 <= shr_m r -> shr_m (Nat.iter n shr_1 r) = shr_m r / 2 ^ Z.of_nat n.
Proof.
  intros Hm. induction n as [|n IH].
  - simpl. rewrite Z.div_1_r. reflexivity.
  - change (Nat.iter (S n) shr_1 r) with (shr_1 (Nat.iter n shr_1 r)).
    rewrite shr_1_half.
    + rewrite IH, Nat2Z.inj_succ, Z.pow_succ_r by lia.
      rewrite Z.div_div by (try apply Z.pow_pos_nonneg; lia).
      f_equal. lia.
    + rewrite IH. apply Z.div_pos; [lia | apply Z.pow_pos_nonneg; lia].
Qed.

Lemma shr_record_of_loc_m m l : shr_m (shr_record_of_loc m l) = m.
Proof. destruct l as [|[]]; reflexivity. Qed.

(** What [shr_fexp] returns when no digit is missing: the mantissa
    divided by a power of two, at the exponent of the format. *)
Lemma shr_fexp_spec m e l :
  0 <= m -> e <= fexp F8.prec F8.emax (Zdigits2 m + e) ->
  exists r,
    shr_fexp F8.prec F8.emax m e l = (r, fexp F8.prec F8.emax (Zdigits2 m + e)) /\
    shr_m r = m / 2 ^ (fexp F8.prec F8.emax (Zdigits2 m + e) - e).
Proof.
  intros Hm Hpre. unfold shr_fexp.
  remember (fexp F8.prec F8.emax (Zdigits2 m + e)) as e' eqn:He'.
  destruct (e' - e) as [|p|p] eqn:Hn; try lia.
  - exists (shr_record_of_loc m l). unfold shr. split; [f_equal; lia |].
    rewrite shr_record_of_loc_m, Z.div_1_r. reflexivity.
  - exists (SpecFloat.iter_pos shr_1 p (shr_record_of_loc m l)). unfold shr.
    split; [f_equal; lia |].
    rewrite iter_pos_nat, shr_iter_half by (rewrite shr_record_of_loc_m; lia).
    rewrite shr_record_of_loc_m, positive_nat_Z. reflexivity.
Qed.

Lemma Zdigits2_nonneg m : 0 <= Zdigits2 m.
Proof. destruct m; simpl; lia. Qed.

Lemma Zdigits2_unique m d :
  2 ^ (d - 1) <= m < 2 ^ d -> 0 < m -> Zdigits2 m = d.
Proof.
  intros H Hm. destruct m as [|p|p]; try lia. simpl.
  apply digits2_pos_unique. exact H.
Qed.

Lemma Zdigits2_mono a b : 0 < a -> a <= b -> Zdigits2 a <= Zdigits2 b.
Proof.
  intros Ha Hab.
  pose proof (Zdigits2_bounds a Ha) as [Hlo _].
  pose proof (Zdigits2_bounds b ltac:(lia)) as [_ Hhi].
  assert (Hlt : 2 ^ (Zdigits2 a - 1) < 2 ^ Zdigits2 b) by lia.
  apply Z.pow_lt_mono_r_iff in Hlt; [lia | lia | apply Zdigits2_nonneg].
Qed.

(** The digits of a quotient by a power of two. *)
Lemma Zdigits2_div_pow2 m n :
  0 <= n -> 0 < m / 2 ^ n -> Zdigits2 (m / 2 ^ n) = Zdigits2 m - n.
Proof.
  intros Hn Hq.
  assert (H2n : 0 < 2 ^ n) by (apply Z.pow_pos_nonneg; lia).
  assert (Hm : 0 < m).
  { destruct (Z.ltb_spec 0 m) as [|Hle]; [assumption |].
    assert (m / 2 ^ n <= 0) by (apply Z.div_le_upper_bound; lia). lia. }
  pose proof (Zdigits2_bounds m Hm) as [Hlo Hhi].
  assert (Hge : 2 ^ n <= m).
  { destruct (Z.leb_spec (2 ^ n) m) as [|Hlt]; [assumption |].
    rewrite Z.div_small in Hq by lia. lia. }
  assert (Hdn : n < Zdigits2 m).
  { apply (Z.pow_lt_mono_r_iff 2); [lia | apply Zdigits2_nonneg | lia]. }
  apply Zdigits2_unique; [| assumption]. split.
  - apply Z.div_le_lower_bound; [lia |].
    rewrite <- Z.pow_add_r by lia.
    replace (n + (Zdigits2 m - n - 1)) with (Zdigits2 m - 1) by lia. exact Hlo.
  - apply Z.div_lt_upper_bound; [lia |].
    rewrite <- Z.pow_add_r by lia.
    replace (n + (Zdigits2 m - n)) with (Zdigits2 m) by lia. exact Hhi.
Qed.

Lemma round_nearest_even_bounds m l :
  m <= round_nearest_even m l <= m + 1.
Proof. destruct l as [|[]]; simpl; try destruct (Z.even m); lia. Qed.

(** After [shr_fexp], the mantissa rounded up or down still has no digit
    missing at the new exponent. *)
Lemma shr_fexp_next m e l r e' m1 :
  0 <= m -> e <= fexp F8.prec F8.emax (Zdigits2 m + e) ->
  shr_fexp F8.prec F8.emax m e l = (r, e') ->
  shr_m r <= m1 <= shr_m r + 1 ->
  0 <= m1 /\ e' <= fexp F8.prec F8.emax (Zdigits2 m1 + e').
Proof.
  intros Hm Hpre Hshr Hm1.
  destruct (shr_fexp_spec m e l Hm Hpre) as (r0 & Hr0 & Hq).
  rewrite Hshr in Hr0. injection Hr0 as <- He'.
  assert (Hn : 0 <= e' - e) by lia.
  assert (H2n : 0 < 2 ^ (e' - e)) by (apply Z.pow_pos_nonneg; lia).
  rewrite <- He' in Hq.
  assert (Hq0 : 0 <= shr_m r) by (rewrite Hq; apply Z.div_pos; lia).
  split; [lia |].
  destruct (Z.eq_dec (shr_m r) 0) as [Hz | Hnz].
  - (* everything was shifted out: the exponent is the least one *)
    assert (Hsmall : Zdigits2 m + e <= e').
    { destruct (Z.eq_dec m 0) as [-> | Hm0]; [simpl; lia |].
      pose proof (Zdigits2_bounds m ltac:(lia)) as [Hlo _].
      assert (Hlt : m < 2 ^ (e' - e)).
      { destruct (Z.ltb_spec m (2 ^ (e' - e))) as [|Hge]; [assumption |].
        assert (1 <= m / 2 ^ (e' - e))
          by (apply Z.div_le_lower_bound; lia).
        lia. }
      assert (Hpow : 2 ^ (Zdigits2 m - 1) < 2 ^ (e' - e)) by lia.
      apply Z.pow_lt_mono_r_iff in Hpow; lia. }
    revert He' Hsmall. unfold fexp, emin, F8.prec, F8.emax. lia.
  - assert (Hd : Zdigits2 (shr_m r) = Zdigits2 m - (e' - e))
      by (rewrite Hq; apply Zdigits2_div_pow2; lia).
    pose proof (Zdigits2_mono (shr_m r) m1 ltac:(lia) ltac:(lia)) as Hmono.
    rewrite He'. apply fexp_mono. lia.
Qed.

(** The rounding of binary64 returns binary64 values. *)
Lemma binary_round_aux_valid s m e l :
  0 <= m -> e <= fexp F8.prec F8.emax (Zdigits2 m + e) ->
  valid_binary F8.prec F8.emax (binary_round_aux F8.prec F8.emax s m e l) = true.
Proof.
  intros Hm Hpre. unfold binary_round_aux.
  destruct (shr_fexp F8.prec F8.emax m e l) as [r e'] eqn:E1.
  remember (round_nearest_even (shr_m r) (loc_of_shr_record r)) as m1 eqn:Hm1.
  assert (Hb : shr_m r <= m1 <= shr_m r + 1)
    by (subst m1; apply round_nearest_even_bounds).
  destruct (shr_fexp_next m e l r e' m1 Hm Hpre E1 Hb) as [Hm1pos Hpre1].
  destruct (shr_fexp_spec m1 e' loc_Exact Hm1pos Hpre1) as (r2 & E2 & Hq).
  rewrite E2.
  remember (fexp F8.prec F8.emax (Zdigits2 m1 + e')) as e2 eqn:He2.
  destruct (shr_m r2) as [|p|p] eqn:Hp; try reflexivity.
  destruct (e2 <=? F8.emax - F8.prec) eqn:Hle; [| reflexivity].
  unfold valid_binary, bounded. rewrite Hle, andb_true_r.
  unfold canonical_mantissa. apply Z.eqb_eq.
  assert (Hd : Zdigits2 (Z.pos p) = Zdigits2 m1 - (e2 - e'))
    by (rewrite Hq; apply Zdigits2_div_pow2; lia).
  simpl Zdigits2 in Hd. rewrite Hd.
  replace (Zdigits2 m1 - (e2 - e') + e2) with (Zdigits2 m1 + e') by lia.
  symmetry. exact He2.
Qed.

Lemma pos_iter_xO m d : Z.pos (Pos.iter xO m d) = Z.pos m * 2 ^ Z.pos d.
Proof.
  induction d as [|d IH] using Pos.peano_ind.
  - simpl. lia.
  - rewrite Pos.iter_succ, Pos2Z.inj_succ, Z.pow_succ_r by lia.
    rewrite Pos2Z.inj_xO, IH. lia.
Qed.

Lemma binary_round_valid s m e :
  valid_binary F8.prec F8.emax (binary_round F8.prec F8.emax s m e) = true.
Proof.
  unfold binary_round, shl_align.
  remember (fexp F8.prec F8.emax (Z.pos (digits2_pos m) + e)) as e' eqn:He'.
  destruct (e' - e) as [|p|p] eqn:Hn.
  - apply binary_round_aux_valid; [lia |]. simpl Zdigits2. lia.
  - apply binary_round_aux_valid; [lia |]. simpl Zdigits2. lia.
  - apply binary_round_aux_valid; [lia |].
    rewrite pos_iter_xO, Zdigits2_shift by lia.
    replace (Z.pos (digits2_pos m) + Z.pos p + e') with (Z.pos (digits2_pos m) + e) by lia.
    lia.
Qed.

(** The quotient that [SFdiv] hands to the rounding has no digit missing. *)
Lemma div_core_ready p1 p2 q e' l :
  SFdiv_core_binary F8.prec F8.emax (Z.pos p1) 0 (Z.pos p2) 0 = (q, e', l) ->
  0 <= q /\ e' <= fexp F8.prec F8.emax (Zdigits2 q + e').
Proof.
  unfold SFdiv_core_binary. rewrite !Z.add_0_r, Z.sub_0_r.
  remember (Zdigits2 (Z.pos p1)) as d1 eqn:Hd1.
  remember (Zdigits2 (Z.pos p2)) as d2 eqn:Hd2.
  remember (Z.min (fexp F8.prec F8.emax (d1 - d2)) 0) as e0 eqn:He0.
  assert (Hs : 0 <= 0 - e0) by lia.
  assert (Hm' : match 0 - e0 with
                | 0 => Z.pos p1
                | Z.pos _ => Z.shiftl (Z.pos p1) (0 - e0)
                | Z.neg _ => 0
                end = Z.pos p1 * 2 ^ (0 - e0)).
  { destruct (0 - e0) as [|t|t] eqn:Ht; try lia.
    apply Z.shiftl_mul_pow2. lia. }
  rewrite Hm'.
  destruct (Z.div_eucl (Z.pos p1 * 2 ^ (0 - e0)) (Z.pos p2)) as [q0 r0] eqn:Ediv.
  intros H. injection H as <- <- _.
  assert (Hq : q0 = (Z.pos p1 * 2 ^ (0 - e0)) / Z.pos p2)
    by (unfold Z.div; rewrite Ediv; reflexivity).
  assert (H2s : 0 < 2 ^ (0 - e0)) by (apply Z.pow_pos_nonneg; lia).
  assert (Hnum : 0 < Z.pos p1 * 2 ^ (0 - e0)) by lia.
  assert (Hq0 : 0 <= q0) by (rewrite Hq; apply Z.div_pos; lia).
  split; [assumption |].
  pose proof (Zdigits2_bounds (Z.pos p1) ltac:(lia)) as [Hlo1 _].
  pose proof (Zdigits2_bounds (Z.pos p2) ltac:(lia)) as [_ Hhi2].
  rewrite <- Hd1 in Hlo1. rewrite <- Hd2 in Hhi2.
  assert (Hd2pos : 0 < d2) by (subst d2; simpl; lia).
  assert (Hd1pos : 0 < d1) by (subst d1; simpl; lia).
  (* the digits of the quotient: at least d1 - d2 - e0 *)
  assert (Hdq : d1 - d2 - e0 <= Zdigits2 q0 \/ d1 - d2 <= e0).
  { destruct (Z.leb_spec (d1 - d2) e0) as [|Hlt]; [right; assumption | left].
    (* t = d1 - 1 - e0 - d2 is not negative *)
    assert (Hqt : 2 ^ (d1 - 1 - e0 - d2) <= q0).
    { rewrite Hq. apply Z.div_le_lower_bound; [lia |].
      apply Z.le_trans with (2 ^ d2 * 2 ^ (d1 - 1 - e0 - d2)).
      - apply Z.mul_le_mono_nonneg_r; [apply Z.pow_nonneg; lia | lia].
      - rewrite <- Z.pow_add_r by lia.
        replace (d2 + (d1 - 1 - e0 - d2)) with ((d1 - 1) + (0 - e0)) by lia.
        rewrite Z.pow_add_r by lia.
        apply Z.mul_le_mono_nonneg_r; lia. }
    assert (Hqpos : 0 < q0).
    { assert (0 < 2 ^ (d1 - 1 - e0 - d2)) by (apply Z.pow_pos_nonneg; lia). lia. }
    pose proof (Zdigits2_bounds q0 Hqpos) as [_ Hhiq].
    assert (Hpow : 2 ^ (d1 - 1 - e0 - d2) < 2 ^ Zdigits2 q0) by lia.
    apply Z.pow_lt_mono_r_iff in Hpow; [lia | lia | apply Zdigits2_nonneg]. }
  pose proof (Zdigits2_nonneg q0) as Hdq0.
  destruct Hdq as [Hdq | Hdq].
  - apply Z.le_trans with (fexp F8.prec F8.emax (d1 - d2)); [lia |].
    apply fexp_mono. lia.
  - revert He0 Hdq Hdq0. unfold fexp, emin, F8.prec, F8.emax. lia.
Qed.

Lemma of_decimal_valid s m e :
  valid_binary F8.prec F8.emax (F8.of_decimal s m e) = true.
Proof.
  unfold F8.of_decimal. destruct m as [|p|p]; try reflexivity.
  destruct (0 <=? e); [apply binary_round_valid |].
  unfold SFdiv.
  destruct (SFdiv_core_binary F8.prec F8.emax (Z.pos p) 0
              (Z.pos (Z.to_pos (10 ^ (- e)))) 0) as [[q e'] l] eqn:E.
  destruct (div_core_ready _ _ _ _ _ E) as [Hq Hpre].
  apply binary_round_aux_valid; assumption.
Qed.

Lemma numeral_valid sg body x :
  F8.numeral sg body = Ok x -> valid_binary F8.prec F8.emax x = true.
Proof.
  rewrite numeral_unfold.
  destruct (F8.digits body 0 0) as [[ip ki] r1].
  destruct (match r1 with String "." r => F8.digits r ip 0 | _ => (ip, 0, r1) end)
    as [[m kf] r2].
  destruct (ki + kf =? 0); [discriminate |].
  destruct (F8.exponent r2) as [e|]; [| discriminate].
  intros H. injection H as <-. apply of_decimal_valid.
Qed.

(** [float] returns binary64 values. *)
Lemma parse_valid text x :
  F8.parse text = Ok x -> valid_binary F8.prec F8.emax x = true.
Proof.
  unfold F8.parse. destruct (F8.sign (Py.strip text)) as [sg body].
  unfold F8.unsigned.
  destruct (String.eqb (Py.lower body) "inf" || String.eqb (Py.lower body) "infinity")%bool.
  - intros H. injection H as <-. reflexivity.
  - destruct (String.eqb (Py.lower body) "nan").
    + intros H. injection H as <-. reflexivity.
    + apply numeral_valid.
Qed.

Lemma loadtxt_row_valid line name x :
  loadtxt_row line = Ok (Some (name, x)) -> valid_binary F8.prec F8.emax x = true.
Proof.
  unfold loadtxt_row.
  destruct (String.eqb _ ""); [discriminate |].
  destruct (Py.split_on "=" _) as [|n [|v [|w ws]]]; try discriminate.
  destruct (F8.parse v) as [y|err] eqn:E; [| discriminate].
  rewrite bind_Ok. intros H. injection H as _ <-. eapply parse_valid; eauto.
Qed.

(** The numeric pass returns binary64 values. *)
Lemma loadtxt_rows_valid lines names params :
  loadtxt_rows lines = Ok (names, params) ->
  forallb (valid_binary F8.prec F8.emax) params = true.
Proof.
  revert names params. induction lines as [|line lines IH]; intros names params.
  - intros H. injection H as <- <-. reflexivity.
  - change (loadtxt_rows (line :: lines))
      with (row ← loadtxt_row line;
            '(names, params) ← loadtxt_rows lines;
            Ok (match row with
                | Some (n, v) => (n :: names, v :: params)
                | None => (names, params)
                end)).
    destruct (loadtxt_row line) as [row|err] eqn:Erow; [| discriminate].
    rewrite bind_Ok.
    destruct (loadtxt_rows lines) as [[ns ps]|err]; [| discriminate].
    rewrite bind_Ok. specialize (IH ns ps eq_refl).
    destruct row as [[n v]|]; intros H; injection H as <- <-.
    + simpl. rewrite IH, (loadtxt_row_valid _ _ _ Erow). reflexivity.
    + exact IH.
Qed.

Lemma loadtxt_valid lines names params :
  loadtxt lines = Ok (names, params) ->
  forallb (valid_binary F8.prec F8.emax) (array_values params) = true.
Proof.
  intros H. apply loadtxt_Ok_inv in H as (ns & ps & Hrows & _ & ->).
  rewrite array_values_squeeze. eapply loadtxt_rows_valid; eauto.
Qed.

(** The extractor returns binary64 values. *)
Lemma give_Me_input2d_Parameters_valid fs fpath params struct_name :
  give_Me_input2d_Parameters fs fpath = Ok (params, struct_name) ->
  forallb (valid_binary F8.prec F8.emax) (array_values params) = true.
Proof.
  unfold give_Me_input2d_Parameters. intros H.
  apply bind_Ok_inv in H as ([names ps] & Hload & H).
  apply bind_Ok_inv in Hload as (lines & _ & Hload).
  apply bind_Ok_inv in H as (f & _ & H).
  apply bind_Ok_inv in H as (s & _ & H).
  injection H as <- _. eapply loadtxt_valid; eauto.
Qed.


(** ** Flags, fractions and the round trip *)

(** A line with the keyword before a comment marker that is there passes
    the test of the string-reference pass. *)
Lemma qualifies_keyword_before_marker line :
  Py.str_in keyword line = true ->
  Py.str_in comment_marker line = true ->
  Py.find keyword line < Py.find comment_marker line ->
  qualifies line = true.
Proof.
  intros Hk _ Hlt. apply qualifies_iff. apply find_nonneg_iff in Hk. lia.
Qed.

Lemma flag_slots_int_fields d i key :
  (d, i, key) ∈ flag_slots -> (d, i, key) ∈ int_fields.
Proof. intros H. unfold int_fields. apply elem_of_app. right. exact H. Qed.

(** A boolean-like slot with a binary64 value strictly between 0 and 1. *)
Lemma fraction_flag_is_zero params struct_name a d i key x :
  main2d_build params struct_name = Ok a ->
  (d, i, key) ∈ flag_slots ->
  params !! i = Some x ->
  valid_binary F8.prec F8.emax x = true ->
  SFltb (f8_lit "0.0") x = true ->
  SFltb x (f8_lit "1.0") = true ->
  F8.to_int x = Ok 0 /\ dict_of a d !! key = Some (PyInt 0).
Proof.
  intros Hrun Hin Hx Hvalid H0 H1.
  pose proof (to_int_fraction x Hvalid H0 H1) as Hz.
  apply main2d_build_inv in Hrun as (_ & _ & _ & _ & _ & _ & Hint & _).
  destruct (Hint _ _ _ (flag_slots_int_fields _ _ _ Hin)) as (y & n & Hy & Hn & Hk).
  assert (y = x) by congruence. subst y.
  assert (n = 0) by congruence. subst n.
  split; assumption.
Qed.

Lemma f8_same_eq x y : f8_same x y = true -> x = y.
Proof.
  destruct x as [s | s | | s m e], y as [t | t | | t n f]; simpl;
    try discriminate; try reflexivity.
  - intros H. apply Bool.eqb_prop in H. congruence.
  - intros H. apply Bool.eqb_prop in H. congruence.
  - rewrite !andb_true_iff. intros [[Hs Hm] He].
    apply Bool.eqb_prop in Hs. apply Pos.eqb_eq in Hm. apply Z.eqb_eq in He.
    congruence.
Qed.

Lemma ints_exact_at params i x n :
  ints_exact params = true -> In i int_slots ->
  params !! i = Some x -> F8.to_int x = Ok n -> F8.of_Z n = x.
Proof.
  unfold ints_exact. rewrite forallb_forall. intros H Hin Hx Hn.
  specialize (H i Hin). rewrite Hx, Hn in H. apply f8_same_eq. exact H.
Qed.

Lemma ints_exact_finite params : ints_exact params = true -> ints_finite params = true.
Proof.
  unfold ints_exact, ints_finite. rewrite !forallb_forall.
  intros H i Hin. specialize (H i Hin).
  destruct (params !! i) as [x|]; [| reflexivity].
  destruct (F8.to_int x) as [n|e] eqn:E; [| discriminate].
  eapply to_int_Ok_finite; eauto.
Qed.

Ltac member := apply list_elem_of_In; simpl; repeat first [left; reflexivity | right].

(** Writing the fields of a constructed configuration in schema order
    gives back the vector it was built from, when the vector has the
    length of the schema and its integer-typed slots hold integers. *)
Lemma serialize_main2d_build params struct_name a :
  main2d_build params struct_name = Ok a ->
  length params = schema_length ->
  ints_exact params = true ->
  serialize a = Some params.
Proof.
  intros Hrun Hlen Hexact.
  apply main2d_build_inv in Hrun
    as (_ & _ & Hmu & Hrho & HT & Hdt & Hint & Hfloat & _).
  unfold serialize. apply mapM_Some. apply Forall2_same_length_lookup_2.
  { rewrite Hlen. reflexivity. }
  intros i [name f] y Hs Hy.
  do 35 (destruct i as [|i];
         [ simpl in Hs; inversion Hs; subst name f; clear Hs;
           lazymatch goal with
           | |- field_value _ (Scalar _) = _ => simpl; congruence
           | |- field_value _ (IntField ?d ?key) = _ =>
               destruct (Hint d _ key ltac:(member)) as (x & n & Hx & Hn & Hk);
               unfold field_value; rewrite Hk; f_equal;
               assert (x = y) by congruence; subst x;
               eapply ints_exact_at; eauto; unfold int_slots; simpl;
               repeat first [left; reflexivity | right]
           | |- field_value _ (FloatField ?d ?key) = _ =>
               destruct (Hfloat d _ key ltac:(member)) as (x & Hx & Hk);
               unfold field_value; rewrite Hk; congruence
           end
         | ]).
  simpl in Hs. discriminate.
Qed.

Lemma loadtxt_rows_written write_value names flat :
  length names = length flat ->
  forallb (fun '(name, x) =>
             match loadtxt_row (write_line write_value name x) with
             | Ok (Some (_, y)) => f8_same y x
             | _ => false
             end)
          (zip names flat) = true ->
  exists names',
    loadtxt_rows (zip_with (write_line write_value) names flat) = Ok (names', flat).
Proof.
  revert flat. induction names as [|name names IH]; intros [|x flat] Hlen Hall;
    try discriminate.
  - exists []. reflexivity.
  - simpl in Hall. apply andb_true_iff in Hall as [Hrow Hall].
    simpl in Hlen. injection Hlen as Hlen.
    destruct (IH flat Hlen Hall) as [names' Hrest].
    simpl. rewrite Hrest.
    destruct (loadtxt_row (write_line write_value name x)) as [[[n y]|]|e];
      try discriminate.
    apply f8_same_eq in Hrow. subst y. exists (n :: names'). reflexivity.
Qed.

(** The round trip for any writer whose text of each value of the vector
    is read back as the value. *)
Lemma round_trip_any_writer write_value params struct_name a :
  main2d_build params struct_name = Ok a ->
  length params = schema_length ->
  ints_exact params = true ->
  reads_back write_value params = true ->
  exists names,
    serialize a = Some params /\
    loadtxt (write_lines write_value params) = Ok (names, Array1 params).
Proof.
  intros Hbuild Hlen Hexact Hback.
  destruct (loadtxt_rows_written write_value (map fst schema) params) as [names Hread].
  { rewrite Hlen. reflexivity. }
  { exact Hback. }
  exists (squeeze names). split; [eapply serialize_main2d_build; eauto |].
  unfold loadtxt, write_lines. rewrite Hread. simpl.
  rewrite (squeeze_Array1 params) by (rewrite Hlen; unfold schema_length; lia).
  reflexivity.
Qed.

(** The two conditions of the round trip are needed: a flag of 0.5 is
    written back as 0.0, and a value after the last slot is not written
    back at all. *)
Lemma round_trip_loses_fractions_and_extras :
  serialize (args_of (params_of input2d_text) "beam.vertex")
    <> Some (params_of input2d_text) /\
  serialize (args_of (params_of rubberband_text ++ [f8_lit "7.5"]) "rubberband")
    = Some (params_of rubberband_text).
Proof.
  split; [| vm_compute; reflexivity].
  intros H. vm_compute in H. discriminate.
Qed.


(** ** How a run of [main2d] fails *)

Lemma getitem_Raise_inv params i e :
  getitem params i = Raise e -> e = IndexError /\ (length params <= i)%nat.
Proof.
  unfold getitem. destruct (params !! i) eqn:E; [discriminate |].
  intros H. injection H as <-. split; [reflexivity | apply lookup_ge_None_1; exact E].
Qed.

Lemma raw_at_Raise_inv params i e :
  raw_at params i = Raise e -> e = IndexError /\ (length params <= i)%nat.
Proof.
  unfold raw_at. destruct (getitem params i) eqn:E; [discriminate |].
  rewrite bind_Raise. intros H. injection H as <-. eapply getitem_Raise_inv; eauto.
Qed.

Lemma quot_at_Raise_inv params i j e :
  quot_at params i j = Raise e ->
  e = IndexError /\ (length params <= Nat.max i j)%nat.
Proof.
  unfold quot_at. destruct (getitem params i) eqn:Ei.
  - rewrite bind_Ok. destruct (getitem params j) eqn:Ej; [discriminate |].
    rewrite bind_Raise. intros H. injection H as <-.
    apply getitem_Raise_inv in Ej as [-> Hj]. split; [reflexivity | lia].
  - rewrite bind_Raise. intros H. injection H as <-.
    apply getitem_Raise_inv in Ei as [-> Hi]. split; [reflexivity | lia].
Qed.

Lemma to_int_Raise_inv x e :
  F8.to_int x = Raise e ->
  (x = S754_nan /\ e = ValueError) \/
  (exists sg, x = S754_infinity sg /\ e = OverflowError).
Proof.
  destruct x as [sg | sg | | sg m ex]; simpl; intros H; try discriminate;
    injection H as <-; [right; eauto | left; auto].
Qed.

Lemma int_at_Raise_inv params i e :
  int_at params i = Raise e ->
  (e = IndexError /\ (length params <= i)%nat) \/
  (exists x, params !! i = Some x /\ F8.to_int x = Raise e).
Proof.
  unfold int_at. destruct (getitem params i) as [x|e'] eqn:E.
  - rewrite bind_Ok. apply getitem_Ok_inv in E.
    destruct (F8.to_int x) as [n|e''] eqn:En; [discriminate |].
    rewrite bind_Raise. intros H. injection H as <-. right. eauto.
  - rewrite bind_Raise. intros H. injection H as <-.
    left. eapply getitem_Raise_inv; eauto.
Qed.

(** Runs the first statement of a failing run: either the failure is
    its own, or the run goes on. *)
Ltac fail_statement :=
  lazymatch goal with
  | |- ?m ≫= _ = Raise ?e -> _ =>
      let E := fresh "E" in
      let H := fresh "H" in
      destruct m eqn:E;
      [ rewrite bind_Ok; cbv beta zeta; clear E
      | rewrite bind_Raise; intros H; injection H as <-;
        first
          [ apply getitem_Raise_inv in E as [-> E];
            left; split; [reflexivity | unfold schema_length; lia]
          | apply raw_at_Raise_inv in E as [-> E];
            left; split; [reflexivity | unfold schema_length; lia]
          | apply quot_at_Raise_inv in E as [-> E];
            left; split; [reflexivity | unfold schema_length; lia]
          | apply int_at_Raise_inv in E as [[-> E] | (? & ? & ?)];
            [ left; split; [reflexivity | unfold schema_length; lia]
            | right; do 2 eexists; split; [| split; eassumption]; in_int_slots ] ] ]
  end.

(** A failing run either read past the end of the vector, or converted
    a value that [int] rejects. *)
Lemma main2d_build_Raise_inv params s e :
  main2d_build params s = Raise e ->
  (e = IndexError /\ (length params < schema_length)%nat) \/
  (exists i x, In i int_slots /\ params !! i = Some x /\ F8.to_int x = Raise e).
Proof.
  unfold main2d_build. cbv beta zeta.
  repeat fail_statement.
  discriminate.
Qed.

(** Every integer-typed slot of a successful run is finite. *)
Lemma main2d_build_ints_finite params s a :
  main2d_build params s = Ok a -> ints_finite params = true.
Proof.
  intros H. apply main2d_build_inv in H as (_ & _ & _ & _ & _ & _ & Hint & _).
  unfold ints_finite. apply forallb_forall. intros i Hi.
  unfold int_slots in Hi. apply in_map_iff in Hi as ([[d j] key] & <- & Hin).
  apply list_elem_of_In in Hin.
  destruct (Hint d j key Hin) as (x & n & Hx & Hn & _).
  rewrite Hx. eapply to_int_Ok_finite; eauto.
Qed.

Lemma int_slots_of_field d i key : (d, i, key) ∈ int_fields -> In i int_slots.
Proof.
  intros H. unfold int_slots. apply in_map_iff.
  exists (d, i, key). split; [reflexivity | apply list_elem_of_In; exact H].
Qed.


(** ** The order of the reads *)

Lemma int_at_cases_at params i :
  (forall x, params !! i = Some x -> F8.is_finite x = true) ->
  (exists v, (i < length params)%nat /\ int_at params i = Ok v) \/
  ((length params <= i)%nat /\ int_at params i = Raise IndexError).
Proof.
  intros Hfin. unfold int_at, getitem.
  destruct (params !! i) as [x|] eqn:E.
  - left. destruct (to_int_finite x (Hfin x eq_refl)) as [n Hn].
    exists (PyInt n). split; [eapply lookup_lt_Some; eauto |].
    simpl. rewrite Hn. reflexivity.
  - right. split; [apply lookup_ge_None_1; auto | reflexivity].
Qed.

(** Runs the first statement of a run over a short vector: either it
    raises [IndexError], or the run goes on. *)
Ltac run_grid_statement Hfin :=
  lazymatch goal with
  | |- ?m ≫= _ = Raise IndexError =>
      lazymatch m with
      | getitem ?p ?i =>
          destruct (getitem_cases p i) as [(? & ? & ->) | (? & ->)]
      | raw_at ?p ?i =>
          destruct (raw_at_cases p i) as [(? & ? & ->) | (? & ->)]
      | quot_at ?p ?i ?j =>
          destruct (quot_at_cases p i j) as [(? & ? & ? & ->) | (? & ->)]
      | int_at ?p ?i =>
          destruct (int_at_cases_at p i (Hfin i ltac:(in_int_slots)))
            as [(? & ? & ->) | (? & ->)]
      end;
      [ rewrite bind_Ok; cbv beta zeta
      | rewrite bind_Raise; reflexivity ]
  end.


(** A run that raises [IndexError] converted every grid count and plot
    switch it has: the reads of [grid_Info] go up the slots. *)
Lemma int_at_Ok_finite params i v x :
  int_at params i = Ok v -> params !! i = Some x -> F8.is_finite x = true.
Proof.
  intros H Hx. apply int_at_Ok_inv in H as (y & n & Hy & Hn & _).
  assert (y = x) by congruence. subst y. eapply to_int_Ok_finite; eauto.
Qed.

Lemma int_at_IndexError_inv params i :
  int_at params i = Raise IndexError -> (length params <= i)%nat.
Proof.
  intros H. apply int_at_Raise_inv in H as [[_ H] | (x & _ & H)]; [exact H |].
  apply to_int_Raise_inv in H as [[_ H] | (sg & _ & H)]; discriminate.
Qed.

Ltac grid_ints_done :=
  let i := fresh "i" in
  let x := fresh "x" in
  let Hin := fresh "Hin" in
  let Hx := fresh "Hx" in
  intros i x Hin Hx; unfold grid_int_slots in Hin; simpl in Hin;
  repeat (destruct Hin as [<- | Hin];
          [ first [ lazymatch goal with
                    | E : int_at ?p ?j = Ok _, Hj : ?p !! ?j = Some _ |- _ =>
                        exact (int_at_Ok_finite _ _ _ _ E Hj)
                    end
                  | exfalso; apply lookup_lt_Some in Hx; lia ] | ]);
  destruct Hin.

Ltac index_statement :=
  lazymatch goal with
  | |- ?m ≫= _ = Raise IndexError -> _ =>
      let E := fresh "E" in
      let H := fresh "H" in
      destruct m eqn:E;
      [ rewrite bind_Ok; cbv beta zeta
      | rewrite bind_Raise; intros H; injection H as ->;
        first [ apply getitem_Raise_inv in E as [_ E]
              | apply raw_at_Raise_inv in E as [_ E]
              | apply quot_at_Raise_inv in E as [_ E]
              | apply int_at_IndexError_inv in E ];
        grid_ints_done ]
  end.

Lemma main2d_build_IndexError_inv params s :
  main2d_build params s = Raise IndexError ->
  forall i x, In i grid_int_slots -> params !! i = Some x ->
              F8.is_finite x = true.
Proof.
  unfold main2d_build. cbv beta zeta.
  repeat index_statement.
  discriminate.
Qed.

(** A vector shorter than the schema with finite grid counts and plot
    switches. *)
Lemma main2d_build_short params s :
  (length params < schema_length)%nat ->
  (forall i x, In i grid_int_slots -> params !! i = Some x ->
               F8.is_finite x = true) ->
  main2d_build params s = Raise IndexError.
Proof.
  intros Hlen Hfin.
  assert (Hfin' : forall i, In i grid_int_slots ->
            forall x, params !! i = Some x -> F8.is_finite x = true)
    by (intros i Hi x Hx; eapply Hfin; eauto).
  unfold main2d_build. cbv beta zeta.
  do 18 run_grid_statement Hfin'.
  unfold schema_length in Hlen. lia.
Qed.

(** * The claims *)

(** C1 (the code departs from the claim). A line that has the keyword and
    no comment marker does not pass the test of the string-reference pass:
    on [string_name = beam.vertex] the keyword is found at index 0, the
    marker at index -1, and the extractor ends with [struct_name] unbound. *)
Theorem C1_unmarked_reference_line_rejected :
  Py.str_in keyword "string_name = beam.vertex" = true /\
  Py.find keyword "string_name = beam.vertex" = 0 /\
  Py.find comment_marker "string_name = beam.vertex" = -1 /\
  qualifies "string_name = beam.vertex" = false /\
  give_Me_input2d_Parameters (one_file "/sims/run1/input2d" example_text)
                             ("/sims/run1", "input2d")
    = Raise UnboundLocalError.
Proof.
  split; [vm_compute; reflexivity |].
  split; [vm_compute; reflexivity |].
  split; [vm_compute; reflexivity |].
  split; vm_compute; reflexivity.
Qed.

(** C2 as stated fails: on the four-line example the run raises, and the
    two values it read are too few for the construction. *)
Lemma C2_example_run_raises :
  main2d (one_file "/sims/run1/input2d" example_text) ("/sims/run1", "input2d")
    = Raise UnboundLocalError /\
  forall struct_name,
    main2d_build [f8_lit "0.01"; f8_lit "1.0"] struct_name = Raise IndexError.
Proof. split; [| intros struct_name]; vm_compute; reflexivity. Qed.

(** C2, amended. On the four-line example the numeric pass reads exactly
    0.01 and 1.0, the commented line is not the reference line, and two
    values are too few for the construction. On the complete file, whose
    reference line has the marker after the keyword, extraction and
    construction succeed with the reference [/sims/run1/beam.vertex],
    viscosity 0.01 and density 1.0. *)
Theorem C2_example_end_to_end :
  params_of example_text = [f8_lit "0.01"; f8_lit "1.0"] /\
  qualifies "% comment string_name = ignored.vertex" = false /\
  (forall struct_name,
     main2d_build (params_of example_text) struct_name = Raise IndexError) /\
  exists a,
    main2d (one_file "/sims/run1/input2d" input2d_text) ("/sims/run1", "input2d")
      = Ok a /\
    arg_struct_name a = "/sims/run1/beam.vertex" /\
    arg_mu a = f8_lit "0.01" /\
    arg_rho a = f8_lit "1.0".
Proof.
  split; [vm_compute; reflexivity |].
  split; [vm_compute; reflexivity |].
  split; [intros struct_name; vm_compute; reflexivity |].
  exists (args_of (params_of input2d_text) "/sims/run1/beam.vertex").
  split; [vm_compute; reflexivity |].
  split; [vm_compute; reflexivity |].
  split; vm_compute; reflexivity.
Qed.

(** C3 as stated fails: with the keyword only inside a comment, a
    malformed numeric line makes the extractor raise [ValueError]. *)
Lemma C3_numeric_error_comes_first :
  keyword_only_in_comments (readlines malformed_text) = true /\
  give_Me_input2d_Parameters (one_file "/sims/run1/input2d" malformed_text)
                             ("/sims/run1", "input2d")
    = Raise ValueError.
Proof. split; vm_compute; reflexivity. Qed.

(** C3, amended. If on every line where the keyword occurs the comment
    marker comes first, the extractor returns no structure reference; when
    the numeric pass succeeds it raises [UnboundLocalError], the error of a
    missing reference. *)
Theorem C3_reference_missing fs dir name lines :
  open fs (posixpath.join dir name) = Ok lines ->
  keyword_only_in_comments lines = true ->
  (forall r, give_Me_input2d_Parameters fs (dir, name) <> Ok r) /\
  string_reference_pass dir lines = Raise UnboundLocalError /\
  (is_Ok (loadtxt lines) = true ->
   give_Me_input2d_Parameters fs (dir, name) = Raise UnboundLocalError).
Proof.
  intros Hopen Hkw.
  assert (Hpass : string_reference_pass dir lines = Raise UnboundLocalError).
  { unfold string_reference_pass.
    rewrite for_lines_none_qualify
      by (apply keyword_only_in_comments_none_qualify; assumption).
    reflexivity. }
  unfold give_Me_input2d_Parameters. simpl fst. simpl snd.
  rewrite Hopen, bind_Ok.
  destruct (loadtxt lines) as [[names params]|e]; simpl.
  - rewrite Hpass. split; [discriminate |]. split; reflexivity.
  - split; [discriminate |]. split; [assumption | discriminate].
Qed.

Lemma C3_reference_missing_witness :
  give_Me_input2d_Parameters
    (one_file "/sims/run1/input2d"
       (String.append "mu = 0.01  % string_name = a.vertex" (String "010" "")))
    ("/sims/run1", "input2d")
  = Raise UnboundLocalError.
Proof.
  eapply (C3_reference_missing _ "/sims/run1" "input2d");
    vm_compute; reflexivity.
Defined.

(** C4. A line that begins with the comment marker adds nothing to the
    result of the numeric pass, whatever follows the marker: the pass
    over a file with such a line equals the pass over the file without
    it. A comment holding [name = 3.0] is such a line. *)
Theorem C4_comment_line_contributes_nothing pre rest post :
  loadtxt_row (String "%" rest) = Ok None /\
  loadtxt (pre ++ String "%" rest :: post) = loadtxt (pre ++ post) /\
  loadtxt (pre ++ "% name = 3.0" :: post) = loadtxt (pre ++ post).
Proof.
  split; [reflexivity |].
  split; apply loadtxt_skip; reflexivity.
Qed.

(** C5 as stated fails: ten values, the grid count of the first axis a
    NaN. The vector is shorter than the schema, yet the construction
    raises [ValueError], from [int], before any index is out of range. *)
Lemma C5_nan_count_raises_ValueError :
  length (params_of ten_text) = 10%nat /\
  params_of ten_text !! 4%nat = Some S754_nan /\
  main2d_build (params_of ten_text) "/sims/run1/beam.vertex" = Raise ValueError.
Proof.
  split; [vm_compute; reflexivity |].
  split; vm_compute; reflexivity.
Qed.

(** C5, amended. A vector shorter than the schema (35 values) never
    yields a configuration. It raises [IndexError] exactly when the grid
    counts and plot switches it has (slots 4, 5 and 29 to 34, which
    [int] converts before the first missing slot is read) hold finite
    values; any other failure is the one of [int] on a NaN
    ([ValueError]) or an infinity ([OverflowError]) the vector holds. A
    vector with at least 35 values is handled as its first 35 values
    alone, and the construction succeeds exactly when its integer-typed
    slots hold finite values. *)
Theorem C5_schema_length params struct_name :
  ((length params < schema_length)%nat ->
     (forall a, main2d_build params struct_name <> Ok a) /\
     (main2d_build params struct_name = Raise IndexError <->
      forall i x, In i grid_int_slots -> params !! i = Some x ->
                  F8.is_finite x = true) /\
     (forall e, main2d_build params struct_name = Raise e -> e <> IndexError ->
        exists i x, In i int_slots /\ params !! i = Some x /\
          ((x = S754_nan /\ e = ValueError) \/
           (exists sg, x = S754_infinity sg /\ e = OverflowError)))) /\
  ((schema_length <= length params)%nat ->
     main2d_build (take schema_length params) struct_name
       = main2d_build params struct_name /\
     ((exists a, main2d_build params struct_name = Ok a) <->
      ints_finite params = true)).
Proof.
  split; intros Hlen.
  - split; [| split].
    + intros a Ha. apply main2d_build_inv in Ha as [Hge _]. lia.
    + split.
      * apply main2d_build_IndexError_inv.
      * apply main2d_build_short; assumption.
    + intros e He Hne.
      apply main2d_build_Raise_inv in He as [[-> _] | (i & x & Hi & Hx & He)];
        [congruence |].
      exists i, x. split; [exact Hi |]. split; [exact Hx |].
      apply to_int_Raise_inv. exact He.
  - split; [apply main2d_build_take |]. split.
    + intros [a Ha]. eapply main2d_build_ints_finite; eauto.
    + intros Hfin.
      pose proof (main2d_build_outcome params struct_name Hfin) as H.
      destruct (main2d_build params struct_name) as [a | e]; [eauto |].
      destruct H as [_ H]. lia.
Qed.

Lemma C5_schema_length_witness :
  main2d_build (take 10 (params_of input2d_text)) "/sims/run1/beam.vertex"
    = Raise IndexError /\
  main2d_build (<[9%nat := S754_nan]> (take 20 (params_of rubberband_text)))
               "/sims/band/rubberband"
    = Raise IndexError /\
  exists a, main2d_build (params_of input2d_text ++ [f8_lit "7.5"])
                         "/sims/run1/beam.vertex" = Ok a.
Proof.
  split; [| split].
  - destruct (proj1 (C5_schema_length
                       (take 10 (params_of input2d_text)) "/sims/run1/beam.vertex"))
      as (_ & [_ Hshort] & _).
    + vm_compute. lia.
    + apply Hshort.
      intros i x Hi. unfold grid_int_slots in Hi. simpl in Hi.
      repeat (destruct Hi as [<- | Hi];
              [vm_compute; intros H;
               first [discriminate | injection H as <-; reflexivity] |]).
      destruct Hi.
  - destruct (proj1 (C5_schema_length
                       (<[9%nat := S754_nan]> (take 20 (params_of rubberband_text)))
                       "/sims/band/rubberband"))
      as (_ & [_ Hshort] & _).
    + vm_compute. lia.
    + apply Hshort.
      intros i x Hi. unfold grid_int_slots in Hi. simpl in Hi.
      repeat (destruct Hi as [<- | Hi];
              [vm_compute; intros H;
               first [discriminate | injection H as <-; reflexivity] |]).
      destruct Hi.
  - destruct (proj2 (C5_schema_length
                       (params_of input2d_text ++ [f8_lit "7.5"])
                       "/sims/run1/beam.vertex"))
      as (_ & [_ Hlong]).
    + vm_compute. lia.
    + apply Hlong. vm_compute. reflexivity.
Defined.




(** C7. In a constructed configuration every boolean-like slot is kept
    as [int] of its value (the flags of [model_Info], and the plot
    switches of [grid_Info] alike), and the truth value of the flag is the
    test for nonzero of that integer: false for the value 0.0, true for
    1.0 and true for 2.0. *)
Theorem C7_flag_truthiness params struct_name a d i key :
  main2d_build params struct_name = Ok a ->
  (d, i, key) ∈ flag_slots ->
  exists x n,
    params !! i = Some x /\ F8.to_int x = Ok n /\
    dict_of a d !! key = Some (PyInt n) /\
    truthy (PyInt n) = negb (n =? 0) /\
    (x = f8_lit "0.0" -> truthy (PyInt n) = false) /\
    (x = f8_lit "1.0" -> truthy (PyInt n) = true) /\
    (x = f8_lit "2.0" -> truthy (PyInt n) = true).
Proof.
  intros Hrun Hin.
  apply main2d_build_inv in Hrun as (_ & _ & _ & _ & _ & _ & Hint & _).
  destruct (Hint _ _ _ (flag_slots_int_fields _ _ _ Hin)) as (x & n & Hx & Hn & Hk).
  exists x, n.
  repeat (split; [first [assumption | reflexivity] |]).
  repeat split; intros ->; vm_compute in Hn; inversion Hn; reflexivity.
Qed.

Lemma C7_flag_truthiness_witness :
  exists x n,
    params_of input2d_text !! 9%nat = Some x /\ F8.to_int x = Ok n /\
    dict_of (args_of (params_of input2d_text) "beam.vertex") Model !! "springs"
      = Some (PyInt n) /\
    truthy (PyInt n) = negb (n =? 0) /\
    (x = f8_lit "0.0" -> truthy (PyInt n) = false) /\
    (x = f8_lit "1.0" -> truthy (PyInt n) = true) /\
    (x = f8_lit "2.0" -> truthy (PyInt n) = true).
Proof.
  apply (C7_flag_truthiness (params_of input2d_text) "beam.vertex").
  - vm_compute. reflexivity.
  - unfold flag_slots, model_flags, plot_flags. apply list_elem_of_In.
    simpl. tauto.
Defined.

(** C8. For a file whose numeric pass gives exactly the 35 values of the
    schema, each count and flag an integer, and whose reference line is
    found: the construction succeeds, the fields of the configuration
    written in schema order are the original vector, and the numeric pass
    over the lines written for them, one [name = value] line per slot
    with the value in exact decimal notation, gives that vector again. *)
Theorem C8_positional_round_trip fs fpath params struct_name :
  give_Me_input2d_Parameters fs fpath = Ok (Array1 params, struct_name) ->
  length params = schema_length ->
  ints_exact params = true ->
  exists a flat names,
    main2d fs fpath = Ok a /\
    serialize a = Some flat /\
    flat = params /\
    loadtxt (write_lines exact_decimal flat) = Ok (names, Array1 params).
Proof.
  intros Hextract Hlen Hexact.
  pose proof (main2d_build_outcome params struct_name (ints_exact_finite _ Hexact)) as Hrun.
  destruct (main2d_build params struct_name) as [a | e] eqn:Hbuild;
    [| destruct Hrun as [_ Hrun]; lia].
  pose proof (give_Me_input2d_Parameters_valid _ _ _ _ Hextract) as Hvalid.
  simpl in Hvalid.
  destruct (round_trip_any_writer exact_decimal params struct_name a Hbuild Hlen Hexact
              (exact_decimal_reads_back params Hvalid)) as (names & Hser & Hread).
  exists a, params, names.
  split; [unfold main2d; rewrite Hextract; exact Hbuild |].
  split; [exact Hser |].
  split; [reflexivity | exact Hread].
Qed.

Lemma C8_positional_round_trip_witness :
  exists a flat names,
    main2d (one_file "/sims/band/input2d" rubberband_text) ("/sims/band", "input2d")
      = Ok a /\
    serialize a = Some flat /\
    flat = params_of rubberband_text /\
    loadtxt (write_lines exact_decimal flat)
      = Ok (names, Array1 (params_of rubberband_text)).
Proof.
  apply (C8_positional_round_trip
           (one_file "/sims/band/input2d" rubberband_text) ("/sims/band", "input2d")
           (params_of rubberband_text) "/sims/band/rubberband");
    vm_compute; reflexivity.
Defined.

(** C9 as stated fails: with neither a path nor the dialog flag the
    process prints the message and exits with status zero. *)
Lemma C9_exit_status_is_zero :
  script (fun _ => Returns) (fun _ => None) "" (Namespace false None)
    = ([Print usage_message], SystemExit None) /\
  exit_status (script (fun _ => Returns) (fun _ => None) "" (Namespace false None)).2
    = 0.
Proof. split; reflexivity. Qed.

(** C9, amended. With no path given and the dialog flag not set, the
    process prints the usage message and nothing else, calls neither
    [main2d] nor [Driver.main], and exits through [sys.exit()] with
    status zero. *)
Theorem C9_no_flags_usage_exit driver fs dialog args :
  path_given (args_path args) = None ->
  args_fdiag args = false ->
  script driver fs dialog args = ([Print usage_message], SystemExit None) /\
  (forall fpath, Call_main2d fpath ∉ (script driver fs dialog args).1) /\
  (forall a, Call_Driver_main a ∉ (script driver fs dialog args).1) /\
  exit_status (script driver fs dialog args).2 = 0.
Proof.
  intros Hpath Hflag.
  assert (Hs : script driver fs dialog args = ([Print usage_message], SystemExit None)).
  { unfold script. rewrite Hpath, Hflag. reflexivity. }
  rewrite Hs. simpl.
  split; [reflexivity |].
  split; [| split; [| reflexivity]].
  - intros fpath Hin. apply list_elem_of_singleton in Hin. discriminate.
  - intros a Hin. apply list_elem_of_singleton in Hin. discriminate.
Qed.

Lemma C9_no_flags_usage_exit_witness :
  script (fun _ => Returns)
         (one_file "/sims/run1/input2d" input2d_text) "/sims/run1/input2d"
         (Namespace false None)
    = ([Print usage_message], SystemExit None).
Proof.
  apply (C9_no_flags_usage_exit (fun _ => Returns)
           (one_file "/sims/run1/input2d" input2d_text) "/sims/run1/input2d"
           (Namespace false None)); reflexivity.
Defined.

(** C10. For every input file that [main2d] accepts: a boolean-like slot
    whose value lies strictly between 0 and 1 is stored as [int] of it,
    the integer 0, which is false, in [model_Info] and in [grid_Info]
    alike. *)
Theorem C10_fraction_truncates_to_false fs fpath params struct_name a d i key x :
  give_Me_input2d_Parameters fs fpath = Ok (Array1 params, struct_name) ->
  main2d fs fpath = Ok a ->
  (d, i, key) ∈ flag_slots ->
  params !! i = Some x ->
  SFltb (f8_lit "0.0") x = true ->
  SFltb x (f8_lit "1.0") = true ->
  F8.to_int x = Ok 0 /\
  dict_of a d !! key = Some (PyInt 0) /\
  truthy (PyInt 0) = false.
Proof.
  intros Hextract Hrun Hin Hx H0 H1.
  unfold main2d in Hrun. rewrite Hextract in Hrun. rewrite bind_Ok in Hrun.
  pose proof (give_Me_input2d_Parameters_valid _ _ _ _ Hextract) as Hvalid.
  simpl in Hvalid. rewrite forallb_forall in Hvalid.
  assert (Hvx : valid_binary F8.prec F8.emax x = true).
  { apply Hvalid. apply list_elem_of_In. eapply list_elem_of_lookup_2. exact Hx. }
  destruct (fraction_flag_is_zero _ _ _ _ _ _ _ Hrun Hin Hx Hvx H0 H1) as [Hz Hk].
  split; [assumption |]. split; [assumption | reflexivity].
Qed.

Lemma C10_fraction_truncates_to_false_witness :
  F8.to_int (f8_lit "0.5") = Ok 0 /\
  dict_of (args_of (params_of input2d_text) "/sims/run1/beam.vertex") Model
    !! "update_target_pts" = Some (PyInt 0) /\
  truthy (PyInt 0) = false.
Proof.
  apply (C10_fraction_truncates_to_false
           (one_file "/sims/run1/input2d" input2d_text) ("/sims/run1", "input2d")
           (params_of input2d_text) "/sims/run1/beam.vertex"
           (args_of (params_of input2d_text) "/sims/run1/beam.vertex")
           Model 12%nat "update_target_pts" (f8_lit "0.5")).
  - vm_compute. reflexivity.
  - vm_compute. reflexivity.
  - unfold flag_slots, model_flags, plot_flags. apply list_elem_of_In. simpl. tauto.
  - vm_compute. reflexivity.
  - vm_compute. reflexivity.
  - vm_compute. reflexivity.
Defined.

(** * Further properties of the front end *)


(** ** The string-reference pass, line by line *)

Lemma for_lines_first dir pre line post :
  forallb (fun l => negb (qualifies l)) pre = true ->
  qualifies line = true ->
  for_lines dir (pre ++ line :: post)
    = for_words dir (Py.split line) (Py.split line) 0.
Proof.
  intros Hpre Hline. induction pre as [|l pre IH]; simpl.
  - rewrite Hline. reflexivity.
  - simpl in Hpre. apply andb_true_iff in Hpre as [Hl Hpre].
    apply negb_true_iff in Hl. rewrite Hl. auto.
Qed.

(** The inner loop over words none of which is [=]. *)
Lemma for_words_no_equals dir words ws n :
  Forall (fun w => w <> "=") ws -> for_words dir words ws n = Ok None.
Proof.
  intros H. revert n. induction H as [|w ws Hw _ IH]; intros n; simpl.
  - reflexivity.
  - apply String.eqb_neq in Hw. rewrite Hw. apply IH.
Qed.

(** The inner loop from word [length seen] on: it stops at the first
    [=] and reads the word after it. *)
Lemma for_words_at dir seen before rest :
  Forall (fun w => w <> "=") before ->
  for_words dir (seen ++ before ++ "=" :: rest) (before ++ "=" :: rest) (length seen)
    = match rest with
      | w :: _ => Ok (Some (posixpath.join dir w))
      | [] => Raise IndexError
      end.
Proof.
  intros H. revert seen. induction H as [|b before Hb _ IH]; intros seen.
  - simpl. replace (seen ++ "=" :: rest)%list with ((seen ++ ["="]) ++ rest)%list
      by (rewrite <- app_assoc; reflexivity).
    replace (length seen + 1)%nat with (length (seen ++ ["="])%list)
      by (rewrite length_app; reflexivity).
    rewrite lookup_app_r by lia. rewrite Nat.sub_diag.
    destruct rest; reflexivity.
  - simpl. apply String.eqb_neq in Hb. rewrite Hb.
    specialize (IH (seen ++ [b])%list).
    rewrite <- app_assoc in IH. simpl in IH.
    rewrite length_app in IH. simpl in IH.
    replace (S (length seen)) with (length seen + 1)%nat by lia.
    exact IH.
Qed.

Lemma for_words_first_equals dir before rest :
  Forall (fun w => w <> "=") before ->
  for_words dir (before ++ "=" :: rest) (before ++ "=" :: rest) 0
    = match rest with
      | w :: _ => Ok (Some (posixpath.join dir w))
      | [] => Raise IndexError
      end.
Proof. intros H. apply (for_words_at dir [] before rest H). Qed.

(** What the extractor returns once both passes are known. *)
Lemma give_Me_input2d_Parameters_passes fs dir name lines :
  open fs (posixpath.join dir name) = Ok lines ->
  give_Me_input2d_Parameters fs (dir, name)
    = ('(names, params) ← loadtxt lines;
       struct_name ← string_reference_pass dir lines;
       Ok (params, struct_name)).
Proof.
  intros Hopen. unfold give_Me_input2d_Parameters. simpl fst. simpl snd.
  rewrite Hopen, bind_Ok.
  destruct (loadtxt lines) as [[names params]|e]; reflexivity.
Qed.

(** ** The string-reference pass *)

(** X1. The loop over the lines is left at the first line that passes
    the test: the lines after it are never looked at, whether or not
    that line gave a name. *)
Theorem X1_first_qualifying_line_decides dir pre line post :
  forallb (fun l => negb (qualifies l)) pre = true ->
  qualifies line = true ->
  string_reference_pass dir (pre ++ line :: post)
    = string_reference_pass dir [line].
Proof.
  intros Hpre Hline. unfold string_reference_pass.
  rewrite (for_lines_first dir pre line post Hpre Hline).
  pose proof (for_lines_first dir [] line [] eq_refl Hline) as Hone.
  change ([] ++ [line])%list with [line] in Hone. rewrite Hone.
  reflexivity.
Qed.

Lemma X1_first_qualifying_line_decides_witness :
  string_reference_pass "/sims/run1"
    ([ "mu = 0.01  % no string_name here" ] ++
     "string_name = beam.vertex % first" ::
     [ "string_name = other.vertex % second" ])
  = string_reference_pass "/sims/run1" [ "string_name = beam.vertex % first" ].
Proof.
  apply (X1_first_qualifying_line_decides "/sims/run1"
           [ "mu = 0.01  % no string_name here" ]
           "string_name = beam.vertex % first"
           [ "string_name = other.vertex % second" ]);
    vm_compute; reflexivity.
Defined.

(** X2. When the first line that passes the test has a word [=] followed
    by another word, and the numeric pass succeeds, the extractor returns
    the values of the numeric pass and that word joined to the directory
    of the input file: the word itself if it is an absolute path, the
    directory, a slash and the word otherwise. *)
Theorem X2_reference_is_word_after_equals fs dir name (pre : list string) line post
    (before : list string) w after names params :
  open fs (posixpath.join dir name) = Ok (pre ++ line :: post)%list ->
  loadtxt (pre ++ line :: post) = Ok (names, params) ->
  forallb (fun l => negb (qualifies l)) pre = true ->
  qualifies line = true ->
  Py.split line = (before ++ "=" :: w :: after)%list ->
  Forall (fun v => v <> "=") before ->
  give_Me_input2d_Parameters fs (dir, name) = Ok (params, posixpath.join dir w) /\
  (Py.startswith "/" w = true -> posixpath.join dir w = w) /\
  (Py.startswith "/" w = false -> dir <> "" ->
   posixpath.endswith_slash dir = false ->
   posixpath.join dir w = dir ++ "/" ++ w).
Proof.
  intros Hopen Hload Hpre Hline Hsplit Hbefore.
  split; [| split].
  - rewrite (give_Me_input2d_Parameters_passes fs dir name _ Hopen), Hload.
    simpl. unfold string_reference_pass.
    rewrite (for_lines_first dir pre line post Hpre Hline), Hsplit.
    rewrite (for_words_first_equals dir before (w :: after) Hbefore).
    reflexivity.
  - intros Habs. unfold posixpath.join. rewrite Habs. reflexivity.
  - intros Hrel Hdir Hslash. unfold posixpath.join. rewrite Hrel, Hslash.
    apply String.eqb_neq in Hdir. rewrite Hdir. reflexivity.
Qed.

Lemma X2_reference_is_word_after_equals_witness :
  give_Me_input2d_Parameters
    (one_file "/sims/band/input2d" rubberband_text) ("/sims/band", "input2d")
  = Ok (Array1 (params_of rubberband_text), posixpath.join "/sims/band" "rubberband").
Proof.
  refine (proj1 (X2_reference_is_word_after_equals
           (one_file "/sims/band/input2d" rubberband_text) "/sims/band" "input2d"
           (take 37 (readlines rubberband_text))
           (String.append "string_name = rubberband  % the vertex, spring and beam files"
                          (String "010" ""))
           []
           [ "string_name" ] "rubberband"
           [ "%"; "the"; "vertex,"; "spring"; "and"; "beam"; "files" ]
           (match loadtxt (readlines rubberband_text) with
            | Ok (names, _) => names
            | Raise _ => Array1 []
            end)
           (Array1 (params_of rubberband_text)) _ _ _ _ _ _)).
  - vm_compute. reflexivity.
  - vm_compute. reflexivity.
  - vm_compute. reflexivity.
  - vm_compute. reflexivity.
  - vm_compute. reflexivity.
  - repeat constructor. discriminate.
Defined.

(** X3. When the first line that passes the test has no word [=] (the
    sign is glued to its neighbours, say), no name is bound and the lines
    after it are not tried: the pass raises [UnboundLocalError], and the
    extractor never returns. *)
Theorem X3_reference_without_equals_word fs dir name (pre : list string) line post :
  open fs (posixpath.join dir name) = Ok (pre ++ line :: post)%list ->
  forallb (fun l => negb (qualifies l)) pre = true ->
  qualifies line = true ->
  Forall (fun v => v <> "=") (Py.split line) ->
  string_reference_pass dir (pre ++ line :: post) = Raise UnboundLocalError /\
  (forall r, give_Me_input2d_Parameters fs (dir, name) <> Ok r) /\
  (is_Ok (loadtxt (pre ++ line :: post)) = true ->
   give_Me_input2d_Parameters fs (dir, name) = Raise UnboundLocalError).
Proof.
  intros Hopen Hpre Hline Hwords.
  assert (Hpass : string_reference_pass dir (pre ++ line :: post)
                  = Raise UnboundLocalError).
  { unfold string_reference_pass.
    rewrite (for_lines_first dir pre line post Hpre Hline).
    rewrite (for_words_no_equals dir _ _ 0%nat Hwords). reflexivity. }
  rewrite (give_Me_input2d_Parameters_passes fs dir name _ Hopen).
  split; [exact Hpass |].
  destruct (loadtxt (pre ++ line :: post)) as [[names params]|e]; simpl.
  - rewrite Hpass. split; [discriminate | reflexivity].
  - split; [discriminate | discriminate].
Qed.

Lemma X3_reference_without_equals_word_witness :
  string_reference_pass "/sims/run1" (readlines glued_text)
    = Raise UnboundLocalError /\
  give_Me_input2d_Parameters (one_file "/sims/run1/input2d" glued_text)
                             ("/sims/run1", "input2d")
    = Raise UnboundLocalError.
Proof.
  destruct (X3_reference_without_equals_word
              (one_file "/sims/run1/input2d" glued_text) "/sims/run1" "input2d"
              (take 1 (readlines glued_text))
              (String.append "string_name=beam.vertex % glued" (String "010" ""))
              (drop 2 (readlines glued_text)))
    as (Hpass & _ & Hrun).
  - vm_compute. reflexivity.
  - vm_compute. reflexivity.
  - vm_compute. reflexivity.
  - repeat constructor; discriminate.
  - split; [exact Hpass | apply Hrun; vm_compute; reflexivity].
Defined.

(** ** The numeric pass, row by row *)

Lemma loadtxt_rows_same_row pre l l' post :
  loadtxt_row l = loadtxt_row l' ->
  loadtxt_rows (pre ++ l :: post) = loadtxt_rows (pre ++ l' :: post).
Proof.
  intros H. induction pre as [|p pre IH]; simpl.
  - rewrite H. reflexivity.
  - rewrite IH. reflexivity.
Qed.

Lemma loadtxt_same_row pre l l' post :
  loadtxt_row l = loadtxt_row l' ->
  loadtxt (pre ++ l :: post) = loadtxt (pre ++ l' :: post).
Proof.
  intros H. unfold loadtxt. rewrite (loadtxt_rows_same_row pre l l' post H).
  reflexivity.
Qed.

(** A marker without [%] in it does not start where a [%] would have
    to be part of it. *)
Lemma startswith_before_percent k s r :
  all_chars (fun c => negb (Ascii.eqb c "%")) k = true ->
  Py.startswith k (s ++ String "%" r) = Py.startswith k s.
Proof.
  revert s. induction k as [|a k IH]; intros s Hk; [destruct s; reflexivity |].
  rewrite all_chars_cons, andb_true_iff, negb_true_iff in Hk. destruct Hk as [Ha Hk].
  destruct s as [|b s].
  - change ("" ++ String "%" r) with (String "%" r).
    rewrite startswith_cons, Ha. reflexivity.
  - change (String b s ++ String "%" r) with (String b (s ++ String "%" r)).
    rewrite !startswith_cons, (IH s Hk). reflexivity.
Qed.

Lemma cut_comments_before_percent data r :
  cut_comments loadtxt_comments (data ++ String "%" r)
    = cut_comments loadtxt_comments data.
Proof.
  induction data as [|c data IH]; [reflexivity |].
  change (String c data ++ String "%" r) with (String c (data ++ String "%" r)).
  rewrite (cut_comments_cons c (data ++ String "%" r)), (cut_comments_cons c data).
  change (Py.startswith "%" (String c (data ++ String "%" r)))
    with (Py.startswith "%" (String c data)).
  change (String c (data ++ String "%" r)) with (String c data ++ String "%" r) at 1.
  rewrite (startswith_before_percent "string_name" (String c data) r) by reflexivity.
  rewrite IH. reflexivity.
Qed.

Lemma isspace_no_marker c :
  Py.isspace c = true ->
  negb (Ascii.eqb c "%") && negb (Ascii.eqb c "s") = true.
Proof. destruct c as [[] [] [] [] [] [] [] []]; intros H; try discriminate; reflexivity. Qed.

Lemma lstrip_chars_none chars s :
  all_chars (fun c => negb (Py.char_in c chars)) s = true ->
  Py.lstrip_chars chars s = s.
Proof.
  destruct s as [|c s]; [reflexivity |].
  rewrite all_chars_cons, andb_true_iff, negb_true_iff. intros [Hc _].
  rewrite lstrip_chars_cons, Hc. reflexivity.
Qed.

Lemma lstrip_chars_head chars s t :
  s <> "" ->
  all_chars (fun c => negb (Py.char_in c chars)) s = true ->
  Py.lstrip_chars chars (s ++ t) = s ++ t.
Proof.
  destruct s as [|c s]; [congruence |]. intros _.
  rewrite all_chars_cons, andb_true_iff, negb_true_iff. intros [Hc _].
  change (String c s ++ t) with (String c (s ++ t)).
  rewrite lstrip_chars_cons, Hc. reflexivity.
Qed.

(** Blanks and tabs: white space that ends no line. *)
Lemma blank_chars ws :
  all_chars (fun c => Py.isspace c && negb (Py.char_in c line_end)) ws = true ->
  all_chars (fun c => negb (Ascii.eqb c "%") && negb (Ascii.eqb c "s")) ws = true /\
  all_chars (fun c => negb (Py.char_in c line_end)) ws = true /\
  all_chars (fun c => negb (Ascii.eqb c "=")) ws = true.
Proof.
  intros H. repeat split; (eapply all_chars_impl; [| exact H]); intros c Hc;
    apply andb_true_iff in Hc as [Hs He].
  - apply isspace_no_marker. exact Hs.
  - exact He.
  - destruct c as [[] [] [] [] [] [] [] []]; try discriminate; reflexivity.
Qed.

(** A row of blanks only, once the comment and the line end are cut. *)
Lemma loadtxt_row_blank ws rest :
  all_chars (fun c => Py.isspace c && negb (Py.char_in c line_end)) ws = true ->
  ws <> "" ->
  Py.strip_chars line_end (cut_comments loadtxt_comments (ws ++ rest)) = ws ->
  loadtxt_row (ws ++ rest) = Raise ValueError.
Proof.
  intros Hws Hne Hdata. destruct (blank_chars ws Hws) as (_ & _ & Hsep).
  unfold loadtxt_row. rewrite Hdata.
  apply String.eqb_neq in Hne. rewrite Hne.
  rewrite (split_on_absent _ _ Hsep). reflexivity.
Qed.

Lemma strip_chars_blank ws :
  all_chars (fun c => Py.isspace c && negb (Py.char_in c line_end)) ws = true ->
  Py.strip_chars line_end ws = ws.
Proof.
  intros Hws. destruct (blank_chars ws Hws) as (_ & Hend & _).
  unfold Py.strip_chars. rewrite (lstrip_chars_none _ _ Hend).
  apply rstrip_chars_no_line_end. exact Hend.
Qed.

Lemma loadtxt_row_blank_then_marker ws rest :
  all_chars (fun c => Py.isspace c && negb (Py.char_in c line_end)) ws = true ->
  ws <> "" ->
  cut_comments loadtxt_comments rest = "" ->
  loadtxt_row (ws ++ rest) = Raise ValueError.
Proof.
  intros Hws Hne Hrest. apply loadtxt_row_blank; [assumption | assumption |].
  destruct (blank_chars ws Hws) as (Hmark & _ & _).
  rewrite (cut_comments_chars ws rest Hmark), Hrest, append_nil_r.
  apply strip_chars_blank. exact Hws.
Qed.

Lemma loadtxt_row_blank_line ws :
  all_chars (fun c => Py.isspace c && negb (Py.char_in c line_end)) ws = true ->
  ws <> "" ->
  loadtxt_row (ws ++ String "010" "") = Raise ValueError.
Proof.
  intros Hws Hne. apply loadtxt_row_blank; [assumption | assumption |].
  destruct (blank_chars ws Hws) as (Hmark & Hend & _).
  rewrite (cut_comments_chars ws (String "010" "") Hmark).
  change (cut_comments loadtxt_comments (String "010" "")) with (String "010" "").
  unfold Py.strip_chars. rewrite (lstrip_chars_head _ ws _ Hne Hend).
  apply rstrip_chars_line; assumption.
Qed.

(** The numeric pass raises nothing but [ValueError]. *)
Lemma numeral_raises sg body e : F8.numeral sg body = Raise e -> e = ValueError.
Proof.
  rewrite numeral_unfold.
  destruct (F8.digits body 0 0) as [[ip ki] r1].
  destruct (match r1 with
            | String "." r => F8.digits r ip 0
            | _ => (ip, 0, r1)
            end) as [[m kf] r2].
  destruct (ki + kf =? 0); [congruence |].
  destruct (F8.exponent r2); congruence.
Qed.

Lemma parse_raises text e : F8.parse text = Raise e -> e = ValueError.
Proof.
  unfold F8.parse. destruct (F8.sign (Py.strip text)) as [sg body].
  unfold F8.unsigned.
  destruct (String.eqb (Py.lower body) "inf" || String.eqb (Py.lower body) "infinity")%bool;
    [discriminate |].
  destruct (String.eqb (Py.lower body) "nan"); [discriminate |].
  apply numeral_raises.
Qed.

Lemma loadtxt_row_raises line e : loadtxt_row line = Raise e -> e = ValueError.
Proof.
  unfold loadtxt_row.
  destruct (String.eqb (Py.strip_chars line_end (cut_comments loadtxt_comments line)) "");
    [discriminate |].
  destruct (Py.split_on "=" (Py.strip_chars line_end (cut_comments loadtxt_comments line)))
    as [|name [|value [|x l]]]; try congruence.
  destruct (F8.parse value) as [v|e'] eqn:E; simpl; [discriminate |].
  intros H. injection H as <-. eapply parse_raises; eauto.
Qed.

Lemma loadtxt_rows_raises lines e : loadtxt_rows lines = Raise e -> e = ValueError.
Proof.
  induction lines as [|l lines IH]; simpl; [discriminate |].
  destruct (loadtxt_row l) as [row|e'] eqn:E; simpl.
  - destruct (loadtxt_rows lines) as [[names params]|e'']; simpl; [discriminate |].
    intros H. injection H as <-. auto.
  - intros H. injection H as <-. eapply loadtxt_row_raises; eauto.
Qed.

Lemma loadtxt_raises lines e : loadtxt lines = Raise e -> e = ValueError.
Proof.
  unfold loadtxt. destruct (loadtxt_rows lines) as [[names params]|e'] eqn:E;
    simpl; [discriminate |].
  intros H. injection H as <-. eapply loadtxt_rows_raises; eauto.
Qed.

Lemma loadtxt_rows_is_Ok lines :
  is_Ok (loadtxt_rows lines) = forallb (fun l => is_Ok (loadtxt_row l)) lines.
Proof.
  induction lines as [|l lines IH]; simpl; [reflexivity |].
  destruct (loadtxt_row l) as [row|e]; simpl; [| reflexivity].
  rewrite <- IH. destruct (loadtxt_rows lines) as [[names params]|e]; reflexivity.
Qed.

(** One row that raises makes the extractor raise [ValueError]. *)
Lemma give_Me_input2d_Parameters_bad_row fs dir name lines line :
  open fs (posixpath.join dir name) = Ok lines ->
  In line lines ->
  loadtxt_row line = Raise ValueError ->
  give_Me_input2d_Parameters fs (dir, name) = Raise ValueError.
Proof.
  intros Hopen Hin Hrow.
  rewrite (give_Me_input2d_Parameters_passes fs dir name lines Hopen).
  destruct (loadtxt lines) as [[names params]|e] eqn:E.
  - assert (Hok : is_Ok (loadtxt lines) = true) by (rewrite E; reflexivity).
    rewrite loadtxt_is_Ok_rows, loadtxt_rows_is_Ok, forallb_forall in Hok.
    specialize (Hok line Hin). rewrite Hrow in Hok. discriminate.
  - rewrite (loadtxt_raises lines e E). reflexivity.
Qed.

(** The text of a line without its white space at both ends. *)
Lemma all_chars_rstrip P s :
  (forall c, Py.isspace c = true -> P c = true) ->
  all_chars P (Py.rstrip s) = true -> all_chars P s = true.
Proof.
  intros HP. induction s as [|c s IH]; [reflexivity |].
  rewrite rstrip_cons, all_chars_cons.
  destruct (Py.rstrip s) as [|d r] eqn:E.
  - destruct (Py.isspace c) eqn:Hc.
    + intros _. rewrite (HP c Hc), (IH eq_refl). reflexivity.
    + rewrite all_chars_cons, andb_true_iff. intros [-> _]. rewrite (IH eq_refl).
      reflexivity.
  - rewrite all_chars_cons, andb_true_iff. intros [-> Hr]. rewrite (IH Hr).
    reflexivity.
Qed.

Lemma all_chars_lstrip P s :
  (forall c, Py.isspace c = true -> P c = true) ->
  all_chars P (Py.lstrip s) = true -> all_chars P s = true.
Proof.
  intros HP. induction s as [|c s IH]; [reflexivity |].
  rewrite lstrip_cons, all_chars_cons.
  destruct (Py.isspace c) eqn:Hc.
  - intros H. rewrite (HP c Hc), (IH H). reflexivity.
  - rewrite all_chars_cons. auto.
Qed.

Lemma all_chars_strip P s :
  (forall c, Py.isspace c = true -> P c = true) ->
  all_chars P (Py.strip s) = true -> all_chars P s = true.
Proof.
  intros HP H. apply (all_chars_lstrip P s HP).
  apply (all_chars_rstrip P _ HP). exact H.
Qed.

Lemma all_chars_rstrip_chars P chars s :
  all_chars P s = true -> all_chars P (Py.rstrip_chars chars s) = true.
Proof.
  induction s as [|c s IH]; [reflexivity |].
  rewrite all_chars_cons, andb_true_iff. intros [Hc Hs].
  rewrite rstrip_chars_cons. specialize (IH Hs).
  destruct (Py.rstrip_chars chars s) as [|d r].
  - destruct (Py.char_in c chars); [reflexivity |].
    rewrite all_chars_cons, Hc. reflexivity.
  - rewrite all_chars_cons, Hc, IH. reflexivity.
Qed.

Lemma all_chars_lstrip_chars P chars s :
  all_chars P s = true -> all_chars P (Py.lstrip_chars chars s) = true.
Proof.
  induction s as [|c s IH]; [reflexivity |].
  intros H. rewrite lstrip_chars_cons.
  destruct (Py.char_in c chars); [| exact H].
  rewrite all_chars_cons, andb_true_iff in H. destruct H as [_ Hs]. auto.
Qed.

(** Text that is all line end is all white space. *)
Lemma rstrip_chars_empty s :
  Py.rstrip_chars line_end s = "" -> all_chars Py.isspace s = true.
Proof.
  induction s as [|c s IH]; [reflexivity |].
  rewrite rstrip_chars_cons.
  destruct (Py.rstrip_chars line_end s) as [|d r]; [| discriminate].
  destruct (Py.char_in c line_end) eqn:Hc; [| discriminate].
  intros _. rewrite all_chars_cons, (line_end_is_space c Hc), (IH eq_refl).
  reflexivity.
Qed.

Lemma lstrip_chars_spaces s :
  all_chars Py.isspace (Py.lstrip_chars line_end s) = true ->
  all_chars Py.isspace s = true.
Proof.
  induction s as [|c s IH]; [reflexivity |].
  rewrite lstrip_chars_cons. destruct (Py.char_in c line_end) eqn:Hc; [| auto].
  intros H. rewrite all_chars_cons, (line_end_is_space c Hc), (IH H). reflexivity.
Qed.

Lemma lstrip_spaces s : all_chars Py.isspace s = true -> Py.lstrip s = "".
Proof.
  induction s as [|c s IH]; [reflexivity |].
  rewrite all_chars_cons, andb_true_iff. intros [Hc Hs].
  rewrite lstrip_cons, Hc. auto.
Qed.

Lemma loadtxt_row_without_separator line :
  Py.strip (cut_comments loadtxt_comments line) <> "" ->
  all_chars (fun c => negb (Ascii.eqb c "="))
            (Py.strip (cut_comments loadtxt_comments line)) = true ->
  loadtxt_row line = Raise ValueError.
Proof.
  intros Hne Hsep. unfold loadtxt_row.
  set (cut := cut_comments loadtxt_comments line) in *.
  assert (Hdata : Py.strip_chars line_end cut <> "").
  { intros Hempty. apply Hne. unfold Py.strip.
    unfold Py.strip_chars in Hempty.
    apply rstrip_chars_empty, lstrip_chars_spaces in Hempty.
    rewrite (lstrip_spaces cut Hempty). reflexivity. }
  apply String.eqb_neq in Hdata. rewrite Hdata.
  rewrite split_on_absent; [reflexivity |].
  unfold Py.strip_chars.
  apply all_chars_rstrip_chars, all_chars_lstrip_chars.
  apply all_chars_strip; [| exact Hsep].
  intros c Hc. destruct c as [[] [] [] [] [] [] [] []]; try discriminate; reflexivity.
Qed.

(** X4. When [=] is the last word of the first line that passes the
    test, reading the word after it raises [IndexError]. *)
Theorem X4_reference_equals_last_word dir (pre : list string) line post
    (before : list string) :
  forallb (fun l => negb (qualifies l)) pre = true ->
  qualifies line = true ->
  Py.split line = (before ++ ["="])%list ->
  Forall (fun v => v <> "=") before ->
  string_reference_pass dir (pre ++ line :: post) = Raise IndexError.
Proof.
  intros Hpre Hline Hsplit Hbefore. unfold string_reference_pass.
  rewrite (for_lines_first dir pre line post Hpre Hline), Hsplit.
  rewrite (for_words_first_equals dir before [] Hbefore). reflexivity.
Qed.

Lemma X4_reference_equals_last_word_witness :
  string_reference_pass "/sims/run1"
    ([ "mu = 0.01" ] ++ "string_name % the name =" :: [ "rho = 1.0" ])
  = Raise IndexError.
Proof.
  apply (X4_reference_equals_last_word "/sims/run1" [ "mu = 0.01" ]
           "string_name % the name =" [ "rho = 1.0" ]
           [ "string_name"; "%"; "the"; "name" ]).
  - vm_compute. reflexivity.
  - vm_compute. reflexivity.
  - vm_compute. reflexivity.
  - repeat constructor; discriminate.
Defined.

(** ** The numeric pass *)

(** X5. Whatever follows a [%] on a line is lost to the numeric pass: a
    line with a trailing comment is read as the line without it, so the
    pass over a file is the pass over the file with that comment
    removed. *)
Theorem X5_trailing_comment_ignored data comment pre post :
  loadtxt_row (data ++ String "%" comment) = loadtxt_row data /\
  loadtxt (pre ++ (data ++ String "%" comment) :: post)
    = loadtxt (pre ++ data :: post).
Proof.
  assert (H : loadtxt_row (data ++ String "%" comment) = loadtxt_row data).
  { unfold loadtxt_row. rewrite cut_comments_before_percent. reflexivity. }
  split; [exact H | apply loadtxt_same_row; exact H].
Qed.

(** X6. An empty line and a line that starts with the keyword
    [string_name] give no row. A line of blanks only, and a line with
    blanks before a [%] comment or before the keyword, is a row of one
    field: the numeric pass raises [ValueError] on it, and so does the
    extractor on a file that has such a line. *)
Theorem X6_blank_and_indented_lines_rejected fs dir name lines ws rest :
  all_chars (fun c => Py.isspace c && negb (Py.char_in c line_end)) ws = true ->
  ws <> "" ->
  open fs (posixpath.join dir name) = Ok lines ->
  In (ws ++ String "010" "") lines \/ In (ws ++ String "%" rest) lines \/
    In (ws ++ keyword ++ rest) lines ->
  loadtxt_row (String "010" "") = Ok None /\
  loadtxt_row (keyword ++ rest) = Ok None /\
  loadtxt_row (ws ++ String "010" "") = Raise ValueError /\
  loadtxt_row (ws ++ String "%" rest) = Raise ValueError /\
  loadtxt_row (ws ++ keyword ++ rest) = Raise ValueError /\
  give_Me_input2d_Parameters fs (dir, name) = Raise ValueError.
Proof.
  intros Hws Hne Hopen Hin.
  assert (H1 : loadtxt_row (ws ++ String "010" "") = Raise ValueError)
    by (apply loadtxt_row_blank_line; assumption).
  assert (H2 : loadtxt_row (ws ++ String "%" rest) = Raise ValueError)
    by (apply loadtxt_row_blank_then_marker; [assumption | assumption | reflexivity]).
  assert (H3 : loadtxt_row (ws ++ keyword ++ rest) = Raise ValueError)
    by (apply loadtxt_row_blank_then_marker; [assumption | assumption | reflexivity]).
  split; [reflexivity |]. split; [reflexivity |].
  split; [exact H1 |]. split; [exact H2 |]. split; [exact H3 |].
  destruct Hin as [Hin | [Hin | Hin]];
    eapply give_Me_input2d_Parameters_bad_row; eauto.
Qed.

Lemma X6_blank_and_indented_lines_rejected_witness :
  loadtxt_row (String "010" "") = Ok None /\
  loadtxt_row (keyword ++ " = beam.vertex % structure" ++ String "010" "") = Ok None /\
  loadtxt_row ("  " ++ String "010" "") = Raise ValueError /\
  loadtxt_row ("  " ++ String "%" (" = beam.vertex % structure" ++ String "010" ""))
    = Raise ValueError /\
  loadtxt_row ("  " ++ keyword ++ " = beam.vertex % structure" ++ String "010" "")
    = Raise ValueError /\
  give_Me_input2d_Parameters (one_file "/sims/run1/input2d" indented_text)
                             ("/sims/run1", "input2d")
    = Raise ValueError.
Proof.
  apply (X6_blank_and_indented_lines_rejected
           (one_file "/sims/run1/input2d" indented_text) "/sims/run1" "input2d"
           (readlines indented_text) "  "
           (" = beam.vertex % structure" ++ String "010" "")).
  - reflexivity.
  - discriminate.
  - vm_compute. reflexivity.
  - right. right. vm_compute. tauto.
Defined.

(** X8. A file with a line that, comments dropped, has text but no [=]
    is rejected with [ValueError], wherever the line stands and whatever
    the other lines hold. *)
Theorem X8_row_without_separator_rejected fs dir name lines line :
  open fs (posixpath.join dir name) = Ok lines ->
  In line lines ->
  Py.strip (cut_comments loadtxt_comments line) <> "" ->
  all_chars (fun c => negb (Ascii.eqb c "="))
            (Py.strip (cut_comments loadtxt_comments line)) = true ->
  loadtxt_row line = Raise ValueError /\
  give_Me_input2d_Parameters fs (dir, name) = Raise ValueError.
Proof.
  intros Hopen Hin Hne Hsep.
  pose proof (loadtxt_row_without_separator line Hne Hsep) as Hrow.
  split; [exact Hrow |].
  eapply give_Me_input2d_Parameters_bad_row; eauto.
Qed.

Lemma X8_row_without_separator_rejected_witness :
  give_Me_input2d_Parameters (one_file "/sims/run1/input2d" colon_text)
                             ("/sims/run1", "input2d")
    = Raise ValueError.
Proof.
  refine (proj2 (X8_row_without_separator_rejected
           (one_file "/sims/run1/input2d" colon_text) "/sims/run1" "input2d"
           (readlines colon_text)
           (String.append "rho: 1.0   % a colon for the equals sign" (String "010" ""))
           _ _ _ _)).
  - vm_compute. reflexivity.
  - vm_compute. tauto.
  - vm_compute. discriminate.
  - vm_compute. reflexivity.
Defined.

(** The keys of a dictionary do not depend on the order of the
    assignments. *)
Lemma list_to_set_reverse (l : list string) :
  list_to_set (reverse l) =@{gset string} list_to_set l.
Proof.
  apply set_eq. intros k. rewrite !elem_of_list_to_set, elem_of_reverse. reflexivity.
Qed.

(** ** The construction *)

(** X9. With at least 35 values the construction fails only in a
    conversion with [int]: a failing run raises [ValueError] for a count
    or flag that is NaN, or [OverflowError] for one that is infinite, and
    never [IndexError]. Conversely a count or flag that is NaN or
    infinite makes every run fail. *)
Theorem X9_failure_is_int_conversion params struct_name :
  (schema_length <= length params)%nat ->
  (forall e, main2d_build params struct_name = Raise e ->
     exists i x, In i int_slots /\ params !! i = Some x /\
       ((x = S754_nan /\ e = ValueError) \/
        (exists sg, x = S754_infinity sg /\ e = OverflowError))) /\
  (forall i x, In i int_slots -> params !! i = Some x ->
     F8.is_finite x = false ->
     forall a, main2d_build params struct_name <> Ok a).
Proof.
  intros Hlen. split.
  - intros e H. apply main2d_build_Raise_inv in H as [[_ H] | (i & x & Hi & Hx & He)];
      [lia |].
    exists i, x. split; [exact Hi |]. split; [exact Hx |].
    apply to_int_Raise_inv. exact He.
  - intros i x Hi Hx Hfin a Ha.
    apply main2d_build_ints_finite in Ha.
    unfold ints_finite in Ha. rewrite forallb_forall in Ha.
    specialize (Ha i Hi). rewrite Hx in Ha. congruence.
Qed.

Lemma X9_failure_is_int_conversion_witness :
  exists i x, In i int_slots /\
    <[9%nat := S754_infinity false]> (params_of rubberband_text) !! i = Some x /\
    ((x = S754_nan /\ OverflowError = ValueError) \/
     (exists sg, x = S754_infinity sg /\ OverflowError = OverflowError)).
Proof.
  destruct (X9_failure_is_int_conversion
              (<[9%nat := S754_infinity false]> (params_of rubberband_text))
              "/sims/band/rubberband") as [Hfail _].
  - vm_compute. lia.
  - apply Hfail. vm_compute. reflexivity.
Defined.

(** X10. The construction checks no float-typed slot. If a run
    succeeds, so does the run on any vector of at least 35 values with
    the same counts and flags, whatever its other values (a NaN
    viscosity, a negative time step): the four scalars and the
    float-typed fields, [supp] and [pDump] among them, are handed on as
    they were read, and the integer-typed fields are the same. *)
Theorem X10_float_slots_unchecked params params' struct_name a :
  main2d_build params struct_name = Ok a ->
  (schema_length <= length params')%nat ->
  (forall i, In i int_slots -> params' !! i = params !! i) ->
  exists a',
    main2d_build params' struct_name = Ok a' /\
    params' !! 0%nat = Some (arg_mu a') /\
    params' !! 1%nat = Some (arg_rho a') /\
    params' !! 2%nat = Some (arg_T_final a') /\
    params' !! 3%nat = Some (arg_dt a') /\
    (forall d i key, (d, i, key) ∈ float_fields ->
       exists x, params' !! i = Some x /\ dict_of a' d !! key = Some (PyFloat x)) /\
    (forall d i key, (d, i, key) ∈ int_fields ->
       dict_of a' d !! key = dict_of a d !! key).
Proof.
  intros Hrun Hlen Hsame.
  pose proof (main2d_build_ints_finite _ _ _ Hrun) as Hfin.
  assert (Hfin' : ints_finite params' = true).
  { unfold ints_finite in *. rewrite forallb_forall in *.
    intros i Hi. rewrite (Hsame i Hi). auto. }
  pose proof (main2d_build_outcome params' struct_name Hfin') as Hout.
  destruct (main2d_build params' struct_name) as [a'|e] eqn:Hrun';
    [| destruct Hout as [_ Hout]; lia].
  exists a'. split; [reflexivity |].
  apply main2d_build_inv in Hrun
    as (_ & _ & _ & _ & _ & _ & Hint & _).
  apply main2d_build_inv in Hrun'
    as (_ & _ & Hmu & Hrho & HT & Hdt & Hint' & Hfloat' & _).
  repeat (split; [assumption |]).
  intros d i key Hin.
  destruct (Hint d i key Hin) as (x & n & Hx & Hn & ->).
  destruct (Hint' d i key Hin) as (x' & n' & Hx' & Hn' & ->).
  rewrite (Hsame i (int_slots_of_field d i key Hin)) in Hx'.
  congruence.
Qed.

Lemma X10_float_slots_unchecked_witness :
  exists a',
    main2d_build (<[0%nat := S754_nan]> (params_of rubberband_text))
                 "/sims/band/rubberband" = Ok a' /\
    arg_mu a' = S754_nan.
Proof.
  destruct (X10_float_slots_unchecked
              (params_of rubberband_text)
              (<[0%nat := S754_nan]> (params_of rubberband_text))
              "/sims/band/rubberband"
              (args_of (params_of rubberband_text) "/sims/band/rubberband"))
    as (a' & Hrun & Hmu & _).
  - vm_compute. reflexivity.
  - vm_compute. lia.
  - intros i Hi. unfold int_slots in Hi. simpl in Hi.
    repeat (destruct Hi as [<- | Hi]; [vm_compute; reflexivity |]).
    destruct Hi.
  - exists a'. split; [exact Hrun |].
    change (Some S754_nan = Some (arg_mu a')) in Hmu. congruence.
Defined.

(** X11. A grid count of zero raises nothing: the count is stored as
    the integer 0 and the step of the axis is the quotient of binary64
    arithmetic, an infinity for a length that is not zero and a NaN for
    a length of zero. *)
Theorem X11_zero_count_infinite_step params struct_name a c l kn kl kd sc :
  main2d_build params struct_name = Ok a ->
  (c, l, kn, kl, kd) ∈ axes ->
  params !! c = Some (S754_zero sc) ->
  exists len,
    params !! l = Some len /\
    arg_grid_Info a !! kn = Some (PyInt 0) /\
    arg_grid_Info a !! kd
      = Some (PyFloat match len with
                      | S754_finite sl _ _ | S754_infinity sl =>
                          S754_infinity (xorb sl sc)
                      | S754_zero _ | S754_nan => S754_nan
                      end).
Proof.
  intros Hrun Hin Hc.
  apply main2d_build_inv in Hrun
    as (_ & _ & _ & _ & _ & _ & Hint & _ & Hax).
  destruct (Hax _ _ _ _ _ Hin) as (count & len & Hc' & Hl & Hd).
  assert (Hn : (Grid, c, kn) ∈ int_fields).
  { unfold axes in Hin. split_membership Hin; apply list_elem_of_In; simpl; tauto. }
  destruct (Hint _ _ _ Hn) as (x & n & Hx & Hxn & Hkn).
  assert (count = S754_zero sc) by congruence.
  assert (x = S754_zero sc) by congruence. subst count x.
  simpl in Hxn. injection Hxn as <-.
  exists len. split; [exact Hl |]. split; [exact Hkn |].
  rewrite Hd. destruct len; reflexivity.
Qed.

Lemma X11_zero_count_infinite_step_witness :
  exists len,
    <[4%nat := S754_zero false]> (params_of rubberband_text) !! 6%nat = Some len /\
    arg_grid_Info (args_of (<[4%nat := S754_zero false]> (params_of rubberband_text))
                           "/sims/band/rubberband") !! "Nx" = Some (PyInt 0) /\
    arg_grid_Info (args_of (<[4%nat := S754_zero false]> (params_of rubberband_text))
                           "/sims/band/rubberband") !! "dx"
      = Some (PyFloat match len with
                      | S754_finite sl _ _ | S754_infinity sl =>
                          S754_infinity (xorb sl false)
                      | S754_zero _ | S754_nan => S754_nan
                      end).
Proof.
  apply (X11_zero_count_infinite_step
           (<[4%nat := S754_zero false]> (params_of rubberband_text))
           "/sims/band/rubberband" _ 4%nat 6%nat "Nx" "Lx" "dx" false).
  - vm_compute. reflexivity.
  - unfold axes. apply list_elem_of_In. simpl. tauto.
  - vm_compute. reflexivity.
Defined.

(** X12. A successful run fills [grid_Info] with exactly its fourteen
    keys and [model_Info] with exactly its nineteen, whatever the
    values. *)
Theorem X12_dictionary_keys params struct_name a :
  main2d_build params struct_name = Ok a ->
  dom (arg_grid_Info a) = list_to_set grid_keys /\
  dom (arg_model_Info a) = list_to_set model_keys.
Proof.
  intros H. unfold main2d_build in H. cbv beta zeta in H.
  repeat invert_statement H.
  injection H as <-. unfold arg_grid_Info, arg_model_Info.
  rewrite !dom_insert_L, !dom_empty_L.
  rewrite <- (list_to_set_reverse grid_keys), <- (list_to_set_reverse model_keys).
  split; reflexivity.
Qed.

Lemma X12_dictionary_keys_witness :
  dom (arg_grid_Info (args_of (params_of rubberband_text) "/sims/band/rubberband"))
    = list_to_set grid_keys /\
  dom (arg_model_Info (args_of (params_of rubberband_text) "/sims/band/rubberband"))
    = list_to_set model_keys.
Proof.
  apply (X12_dictionary_keys (params_of rubberband_text) "/sims/band/rubberband").
  vm_compute. reflexivity.
Defined.

(** ** Integers through [float] and [int] *)

Lemma bounded_intro m e :
  fexp F8.prec F8.emax (Z.pos (digits2_pos m) + e) = e ->
  e <= F8.emax - F8.prec ->
  bounded F8.prec F8.emax m e = true.
Proof.
  intros Hc He. unfold bounded, canonical_mantissa.
  rewrite andb_true_iff, Z.eqb_eq, Z.leb_le. auto.
Qed.

(** An integer below [2^53] is rounded to itself: the mantissa is the
    integer shifted left to 53 bits. *)
Lemma binary_round_integer s p :
  Z.pos p < 2 ^ 53 ->
  exists m e,
    binary_round F8.prec F8.emax s p 0 = S754_finite s m e /\
    e <= 0 /\ Z.pos m = Z.pos p * 2 ^ (- e).
Proof.
  intros Hp.
  pose proof (digits2_pos_lower p) as Hlo.
  assert (Hd : Z.pos (digits2_pos p) <= 53).
  { destruct (Z.le_gt_cases (Z.pos (digits2_pos p)) 53) as [|Hgt]; [assumption |].
    assert (2 ^ 53 <= 2 ^ (Z.pos (digits2_pos p) - 1))
      by (apply Z.pow_le_mono_r; lia).
    lia. }
  unfold binary_round, shl_align. rewrite Z.add_0_r, Z.sub_0_r.
  assert (He : fexp F8.prec F8.emax (Z.pos (digits2_pos p))
               = Z.pos (digits2_pos p) - 53).
  { unfold fexp, emin, F8.prec, F8.emax. lia. }
  rewrite He.
  destruct (Z.pos (digits2_pos p) - 53) as [|k|k] eqn:Hk; try lia.
  - exists p, 0. split; [| split; [lia | simpl; lia]].
    replace (Z.pos p) with (Z.pos p * 2 ^ 0) by (simpl; lia).
    replace 0 with (0 - 0) at 2 by lia.
    apply binary_round_aux_exact; [| lia].
    apply bounded_intro; [| unfold F8.emax, F8.prec; lia].
    rewrite Z.add_0_r. unfold fexp, emin, F8.prec, F8.emax. lia.
  - exists (Pos.iter xO p k), (Z.neg k).
    split; [| split; [lia | rewrite pos_iter_xO; reflexivity]].
    replace (Z.pos (Pos.iter xO p k)) with (Z.pos (Pos.iter xO p k) * 2 ^ 0)
      by (simpl; lia).
    replace (Z.neg k) with (Z.neg k - 0) at 1 by lia.
    apply binary_round_aux_exact; [| lia].
    apply bounded_intro; [| unfold F8.emax, F8.prec; lia].
    assert (Hdig : Z.pos (digits2_pos (Pos.iter xO p k))
                   = Z.pos (digits2_pos p) + Z.pos k).
    { pose proof (Zdigits2_shift p (Z.pos k) ltac:(lia)) as Hs.
      rewrite <- pos_iter_xO in Hs. exact Hs. }
    rewrite Hdig. unfold fexp, emin, F8.prec, F8.emax. lia.
Qed.

Lemma to_int_shifted s m e n :
  e <= 0 -> Z.pos m = n * 2 ^ (- e) ->
  F8.to_int (S754_finite s m e) = Ok (cond_Zopp s n).
Proof.
  intros He Hm. unfold F8.to_int.
  assert (H2 : 0 < 2 ^ (- e)) by (apply Z.pow_pos_nonneg; lia).
  destruct (Z.leb_spec 0 e) as [H0 | H0].
  - assert (e = 0) by lia. subst e. simpl in Hm. simpl. do 2 f_equal. lia.
  - rewrite Hm, Z.div_mul by lia. reflexivity.
Qed.

(** [int(float(text))] of the decimal text of a positive integer below
    [2^53], with or without a minus sign before it. *)
Lemma parse_integer_text (sg : bool) p :
  Z.pos p < 2 ^ 53 ->
  exists x,
    F8.parse ((if sg then "-" else "") ++ str_of_Z (Z.pos p)) = Ok x /\
    F8.to_int x = Ok (cond_Zopp sg (Z.pos p)).
Proof.
  intros Hp.
  destruct (binary_round_integer sg p Hp) as (m & e & Hround & He & Hm).
  exists (S754_finite sg m e). split.
  - rewrite parse_signed
      by (first [apply str_of_Z_value; lia | apply str_of_Z_head; lia]).
    rewrite numeral_integer by lia.
    rewrite of_decimal_pos_0, Hround. reflexivity.
  - apply to_int_shifted; assumption.
Qed.

Lemma str_of_Z_signed_value n : all_chars value_char (str_of_Z n) = true.
Proof.
  destruct (Z.lt_ge_cases n 0) as [Hn | Hn].
  - rewrite str_of_Z_neg by assumption. rewrite all_chars_cons.
    rewrite str_of_Z_value by lia. reflexivity.
  - apply str_of_Z_value. assumption.
Qed.

Lemma str_of_Z_not_empty n : str_of_Z n <> "".
Proof.
  destruct (Z.lt_ge_cases n 0) as [Hn | Hn].
  - rewrite str_of_Z_neg by assumption. discriminate.
  - destruct (str_of_Z_head n Hn) as (c & t & -> & _). discriminate.
Qed.

(** ** When [int] gives zero *)

Lemma cond_Zopp_zero s v : cond_Zopp s v = 0 <-> v = 0.
Proof. destruct s; simpl; lia. Qed.

(** For a binary64 value, [int] gives 0 exactly below 1 in magnitude. *)
Lemma to_int_zero_iff x :
  valid_binary F8.prec F8.emax x = true ->
  F8.is_finite x = true ->
  (F8.to_int x = Ok 0 <-> SFltb (SFabs x) (f8_lit "1.0") = true).
Proof.
  rewrite f8_lit_one. intros Hv Hfin.
  destruct x as [s | s | | s m e]; try discriminate.
  - split; reflexivity.
  - simpl in Hv. destruct (fexp_canonical m e Hv) as [Hc _].
    pose proof (bounded_digits m e Hv) as Hd.
    pose proof (digits2_pos_bound m) as Hhi.
    pose proof (digits2_pos_lower m) as Hlo.
    unfold fexp, emin, F8.prec, F8.emax in Hc, Hd.
    unfold F8.to_int, SFabs, SFltb, SFcompare.
    assert (Hinj : forall v, Ok (cond_Zopp s v) = Ok 0 <-> v = 0).
    { intros v. rewrite <- (cond_Zopp_zero s v). split; congruence. }
    rewrite Hinj.
    destruct (Z.compare_spec e (-52)) as [-> | He | He].
    + change (0 <=? -52) with false. cbv iota. change (- -52) with 52.
      change (2 ^ 52) with (Z.pos 4503599627370496).
      destruct (Pos.compare_cont Eq m 4503599627370496) eqn:Hcmp.
      * pose proof (Pos.compare_eq m _ Hcmp) as Hm. subst m.
        split; [| discriminate]. vm_compute. discriminate.
      * split; [reflexivity |]. intros _. apply Z.div_small.
        split; [lia | apply Pos2Z.pos_lt_pos; exact Hcmp].
      * pose proof (proj1 (Pos.compare_gt_iff m _) Hcmp) as Hgt.
        split; [| discriminate].
        intros H0. exfalso.
        assert (Hle : Z.pos 4503599627370496 <= Z.pos m)
          by (apply Pos2Z.pos_le_pos; apply Pos.lt_le_incl; exact Hgt).
        pose proof (Z.div_le_mono _ _ (Z.pos 4503599627370496) ltac:(reflexivity) Hle)
          as Hdiv.
        rewrite Z.div_same in Hdiv by discriminate. rewrite H0 in Hdiv.
        apply Hdiv. reflexivity.
    + split; [reflexivity |]. intros _.
      destruct (Z.leb_spec 0 e); [lia |].
      apply Z.div_small. split; [lia |].
      assert (2 ^ Z.pos (digits2_pos m) <= 2 ^ (- e))
        by (apply Z.pow_le_mono_r; lia).
      lia.
    + split; [| discriminate]. intros H0. exfalso.
      destruct (Z.leb_spec 0 e) as [Hpos | Hneg].
      * assert (0 < 2 ^ e) by (apply Z.pow_pos_nonneg; lia). nia.
      * assert (Hdig : Z.pos (digits2_pos m) = 53) by lia.
        rewrite Hdig in Hlo.
        assert (Hpow : 2 ^ (- e) <= 2 ^ (53 - 1))
          by (apply Z.pow_le_mono_r; lia).
        assert (H2 : 0 < 2 ^ (- e)) by (apply Z.pow_pos_nonneg; lia).
        assert (Hge : 2 ^ (- e) <= Z.pos m) by lia.
        pose proof (Z.div_le_mono _ _ (2 ^ (- e)) H2 Hge) as Hdiv.
        rewrite Z.div_same in Hdiv by lia. lia.
Qed.

(** X13. For every input file that [main2d] accepts, a boolean-like
    slot is on exactly when the magnitude of its value is at least 1:
    every value strictly between -1 and 1 is stored as the integer 0,
    a negative value from -1 down is stored as a nonzero integer. *)
Theorem X13_flag_on_iff_magnitude_at_least_one
    fs fpath params struct_name a d i key x :
  give_Me_input2d_Parameters fs fpath = Ok (Array1 params, struct_name) ->
  main2d fs fpath = Ok a ->
  (d, i, key) ∈ flag_slots ->
  params !! i = Some x ->
  exists n,
    dict_of a d !! key = Some (PyInt n) /\
    truthy (PyInt n) = negb (SFltb (SFabs x) (f8_lit "1.0")).
Proof.
  intros Hextract Hrun Hin Hx.
  unfold main2d in Hrun. rewrite Hextract in Hrun. rewrite bind_Ok in Hrun.
  pose proof (give_Me_input2d_Parameters_valid _ _ _ _ Hextract) as Hvalid.
  simpl in Hvalid. rewrite forallb_forall in Hvalid.
  assert (Hvx : valid_binary F8.prec F8.emax x = true).
  { apply Hvalid. apply list_elem_of_In. eapply list_elem_of_lookup_2. exact Hx. }
  apply main2d_build_inv in Hrun as (_ & _ & _ & _ & _ & _ & Hint & _).
  destruct (Hint _ _ _ (flag_slots_int_fields _ _ _ Hin)) as (y & n & Hy & Hn & Hk).
  assert (y = x) by congruence. subst y.
  exists n. split; [exact Hk |].
  pose proof (to_int_zero_iff x Hvx (to_int_Ok_finite x n Hn)) as Hiff.
  simpl. destruct (Z.eqb_spec n 0) as [-> | Hne].
  - rewrite (proj1 Hiff Hn). reflexivity.
  - destruct (SFltb (SFabs x) (f8_lit "1.0")); [| reflexivity].
    exfalso. apply Hne. specialize (proj2 Hiff eq_refl). congruence.
Qed.

Lemma X13_flag_on_iff_magnitude_at_least_one_witness :
  exists n,
    dict_of (args_of (params_of input2d_text) "/sims/run1/beam.vertex") Model
      !! "update_target_pts" = Some (PyInt n) /\
    truthy (PyInt n) = negb (SFltb (SFabs (f8_lit "0.5")) (f8_lit "1.0")).
Proof.
  apply (X13_flag_on_iff_magnitude_at_least_one
           (one_file "/sims/run1/input2d" input2d_text) ("/sims/run1", "input2d")
           (params_of input2d_text) "/sims/run1/beam.vertex"
           (args_of (params_of input2d_text) "/sims/run1/beam.vertex")
           Model 12%nat "update_target_pts" (f8_lit "0.5")).
  - vm_compute. reflexivity.
  - vm_compute. reflexivity.
  - unfold flag_slots, model_flags, plot_flags. apply list_elem_of_In. simpl. tauto.
  - vm_compute. reflexivity.
Defined.

(** X14. A count or flag written as a decimal integer of magnitude at
    most [2^53] is stored as that integer: the numeric pass reads the
    line [name = n] as a value whose [int] is [n]. The bound is sharp:
    [2^53 + 1] is read as [2^53]. *)
Theorem X14_integer_text_stored_exactly name n :
  name_ok name = true ->
  - 2 ^ 53 <= n <= 2 ^ 53 ->
  (exists x,
     F8.parse (str_of_Z n) = Ok x /\
     loadtxt_row (name ++ " = " ++ str_of_Z n ++ String "010" "")
       = Ok (Some (String.substring 0 25 (name ++ " "), x)) /\
     F8.to_int x = Ok n) /\
  (F8.parse (str_of_Z (2 ^ 53 + 1)) ≫= F8.to_int) = Ok (2 ^ 53).
Proof.
  intros Hname Hn. split; [| vm_compute; reflexivity].
  assert (Hparse : exists x, F8.parse (str_of_Z n) = Ok x /\ F8.to_int x = Ok n).
  { destruct (Z.eq_dec n (2 ^ 53)) as [-> | Hhi].
    { eexists. split; vm_compute; reflexivity. }
    destruct (Z.eq_dec n (- 2 ^ 53)) as [-> | Hlo].
    { eexists. split; vm_compute; reflexivity. }
    destruct n as [|p|p].
    - eexists. split; vm_compute; reflexivity.
    - apply (parse_integer_text false p). lia.
    - rewrite (str_of_Z_neg (Z.neg p)) by lia.
      change (- Z.neg p) with (Z.pos p).
      apply (parse_integer_text true p). lia. }
  destruct Hparse as (x & Hx & Hint). exists x.
  split; [exact Hx |]. split; [| exact Hint].
  rewrite loadtxt_row_written
    by (first [exact Hname | apply str_of_Z_signed_value | apply str_of_Z_not_empty]).
  rewrite Hx. reflexivity.
Qed.

Lemma X14_integer_text_stored_exactly_witness :
  exists x,
    F8.parse (str_of_Z 64) = Ok x /\
    loadtxt_row ("Nx" ++ " = " ++ str_of_Z 64 ++ String "010" "")
      = Ok (Some (String.substring 0 25 ("Nx" ++ " "), x)) /\
    F8.to_int x = Ok 64.
Proof.
  apply (proj1 (X14_integer_text_stored_exactly "Nx" 64 eq_refl ltac:(lia))).
Defined.

(** ** Paths *)

Lemma startswith_app sub h t :
  Py.startswith sub h = true -> Py.startswith sub (h ++ t) = true.
Proof.
  revert h. induction sub as [|a sub IH]; intros h; [destruct h; reflexivity |].
  destruct h as [|b h]; [discriminate |].
  change (String b h ++ t) with (String b (h ++ t)).
  rewrite !startswith_cons, !andb_true_iff. intros [Hab Hs]. auto.
Qed.

Lemma str_in_cons sub c s :
  Py.str_in sub (String c s) = Py.startswith sub (String c s) || Py.str_in sub s.
Proof. reflexivity. Qed.

Lemma str_in_app sub h t :
  Py.str_in sub h = true -> Py.str_in sub (h ++ t) = true.
Proof.
  induction h as [|c h IH].
  - change (Py.str_in sub "") with (Py.startswith sub "" || false).
    rewrite orb_false_r. intros H. destruct sub; [| discriminate].
    destruct t; reflexivity.
  - change (String c h ++ t) with (String c (h ++ t)).
    rewrite !str_in_cons, !orb_true_iff. intros [H | H].
    + left. apply (startswith_app sub (String c h) t H).
    + right. auto.
Qed.

Lemma str_in_app_false sub h t :
  Py.str_in sub (h ++ t) = false -> Py.str_in sub h = false.
Proof.
  intros H. destruct (Py.str_in sub h) eqn:E; [| reflexivity].
  rewrite (str_in_app sub h t E) in H. discriminate.
Qed.

Lemma cut_last_slash_cons c p :
  posixpath.cut_last_slash (String c p) =
  let '(h, t) := posixpath.cut_last_slash p in
  if Py.str_in "/" p then (String c h, t)
  else if Ascii.eqb c "/" then ("/", p)
  else (EmptyString, String c p).
Proof. reflexivity. Qed.

Lemma endswith_slash_cons c d s :
  posixpath.endswith_slash (String c (String d s))
    = posixpath.endswith_slash (String d s).
Proof. reflexivity. Qed.

Lemma str_in_slash_cons c s :
  Py.str_in "/" (String c s) = Ascii.eqb "/" c || Py.str_in "/" s.
Proof.
  rewrite str_in_cons. change "/" with (String "/" "") at 1.
  rewrite startswith_cons. destruct s; rewrite andb_true_r; reflexivity.
Qed.

(** The cut at the last slash: the two parts make up the path, the tail
    has no slash, and the head is empty or ends with the last slash. *)
Lemma cut_last_slash_spec p h t :
  posixpath.cut_last_slash p = (h, t) ->
  h ++ t = p /\ Py.str_in "/" t = false /\
  (if Py.str_in "/" p then posixpath.endswith_slash h = true else h = "").
Proof.
  revert h t. induction p as [|c p IH]; intros h t.
  - intros H. injection H as <- <-. repeat split.
  - rewrite cut_last_slash_cons.
    destruct (posixpath.cut_last_slash p) as [h' t'].
    destruct (IH h' t' eq_refl) as (Happ & Htail & Hhead).
    rewrite str_in_slash_cons.
    destruct (Py.str_in "/" p) eqn:Hp.
    + intros H. injection H as <- <-. rewrite orb_true_r.
      split; [change (String c h' ++ t') with (String c (h' ++ t')); congruence |].
      split; [exact Htail |].
      destruct h' as [|d h']; [discriminate |].
      rewrite endswith_slash_cons. exact Hhead.
    + rewrite orb_false_r.
      destruct (Ascii.eqb c "/") eqn:Hc.
      * intros H. injection H as <- <-. apply Ascii.eqb_eq in Hc. subst c.
        repeat split. exact Hp.
      * intros H. injection H as <- <-. rewrite Ascii.eqb_sym, Hc.
        split; [reflexivity |]. split; [| reflexivity].
        rewrite str_in_slash_cons, Ascii.eqb_sym, Hc, Hp. reflexivity.
Qed.

Lemma rstrip_slash_cons c s :
  posixpath.rstrip_slash (String c s) =
  match posixpath.rstrip_slash s with
  | EmptyString => if Ascii.eqb c "/" then EmptyString else String c EmptyString
  | r => String c r
  end.
Proof. reflexivity. Qed.

Lemma all_slashes_cons c s :
  posixpath.all_slashes (String c s) = Ascii.eqb c "/" && posixpath.all_slashes s.
Proof. reflexivity. Qed.

Lemma rstrip_slash_empty s :
  posixpath.rstrip_slash s = "" <-> posixpath.all_slashes s = true.
Proof.
  induction s as [|c s IH]; [split; reflexivity |].
  rewrite rstrip_slash_cons, all_slashes_cons, andb_true_iff, <- IH.
  destruct (posixpath.rstrip_slash s) as [|d r].
  - destruct (Ascii.eqb c "/"); split; try tauto; try discriminate.
    intros [H _]. discriminate.
  - split; [discriminate | intros [_ H]; discriminate].
Qed.

Lemma rstrip_slash_no_trailing s :
  posixpath.endswith_slash (posixpath.rstrip_slash s) = false.
Proof.
  induction s as [|c s IH]; [reflexivity |].
  rewrite rstrip_slash_cons.
  destruct (posixpath.rstrip_slash s) as [|d r].
  - destruct (Ascii.eqb c "/") eqn:Hc; [reflexivity |]. simpl. exact Hc.
  - rewrite endswith_slash_cons. exact IH.
Qed.

(** A head with one slash at its end, and not only slashes. *)
Lemma rstrip_slash_one h :
  Py.str_in "//" h = false ->
  posixpath.endswith_slash h = true ->
  posixpath.all_slashes h = false ->
  posixpath.rstrip_slash h ++ "/" = h.
Proof.
  induction h as [|c h IH]; [discriminate |].
  intros Hdbl Hend Hall.
  rewrite str_in_cons in Hdbl. apply orb_false_iff in Hdbl as [Hstart Hdbl].
  destruct h as [|d h].
  - simpl in Hend. rewrite all_slashes_cons, Hend in Hall. discriminate.
  - rewrite endswith_slash_cons in Hend.
    rewrite rstrip_slash_cons.
    destruct (posixpath.all_slashes (String d h)) eqn:Hall'.
    + (* the rest is the single last slash *)
      rewrite (proj2 (rstrip_slash_empty _) Hall').
      rewrite all_slashes_cons, andb_true_iff in Hall'. destruct Hall' as [Hd Hh].
      apply Ascii.eqb_eq in Hd. subst d.
      rewrite all_slashes_cons, all_slashes_cons, Ascii.eqb_refl, Hh in Hall.
      rewrite !andb_true_r in Hall. rewrite Hall.
      destruct h as [|d' h]; [reflexivity |].
      rewrite all_slashes_cons, andb_true_iff in Hh. destruct Hh as [Hd' _].
      apply Ascii.eqb_eq in Hd'. subst d'.
      rewrite str_in_cons in Hdbl. apply orb_false_iff in Hdbl as [Hdbl _].
      discriminate.
    + specialize (IH Hdbl Hend eq_refl).
      destruct (posixpath.rstrip_slash (String d h)) as [|d' r] eqn:Hr.
      * apply rstrip_slash_empty in Hr. congruence.
      * change (String c (String d' r) ++ "/") with (String c (String d' r ++ "/")).
        rewrite IH. reflexivity.
Qed.

(** [os.path.join] after [os.path.split]. *)
Lemma join_split p :
  Py.str_in "//" p = false ->
  posixpath.join (posixpath.split p).1 (posixpath.split p).2 = p.
Proof.
  intros Hdbl. unfold posixpath.split.
  destruct (posixpath.cut_last_slash p) as [h t] eqn:Hcut.
  destruct (cut_last_slash_spec p h t Hcut) as (Happ & Htail & Hhead).
  assert (Hstart : Py.startswith "/" t = false).
  { destruct t as [|c t]; [reflexivity |].
    rewrite str_in_cons in Htail. apply orb_false_iff in Htail as [H _]. exact H. }
  destruct (Py.str_in "/" p) eqn:Hp.
  - destruct (negb (String.eqb h "") && negb (posixpath.all_slashes h))%bool eqn:Hcase;
      simpl fst; simpl snd; unfold posixpath.join; rewrite Hstart.
    + apply andb_true_iff in Hcase as [_ Hall]. apply negb_true_iff in Hall.
      rewrite rstrip_slash_no_trailing.
      destruct (String.eqb_spec (posixpath.rstrip_slash h) "") as [He | _].
      * apply rstrip_slash_empty in He. congruence.
      * simpl orb. cbv iota.
        assert (Hh : Py.str_in "//" h = false)
          by (apply (str_in_app_false "//" h t); rewrite Happ; exact Hdbl).
        rewrite <- (rstrip_slash_one h Hh Hhead Hall) in Happ.
        rewrite append_assoc in Happ. exact Happ.
    + rewrite Hhead, orb_true_r. exact Happ.
  - subst h. simpl. unfold posixpath.join. rewrite Hstart. simpl. exact Happ.
Qed.

(** ** Line ends *)

Lemma readlines_from_lf s cur :
  readlines_from (String "010" s) cur = (cur ++ String "010" "") :: readlines_from s "".
Proof. reflexivity. Qed.

Lemma readlines_from_crlf s cur :
  readlines_from (String "013" (String "010" s)) cur
    = (cur ++ String "010" "") :: readlines_from s "".
Proof. reflexivity. Qed.

Lemma readlines_from_other c s cur :
  Ascii.eqb c "010" = false -> Ascii.eqb c "013" = false ->
  readlines_from (String c s) cur = readlines_from s (cur ++ String c "").
Proof.
  destruct c as [[] [] [] [] [] [] [] []]; intros H1 H2;
    try discriminate; reflexivity.
Qed.

Lemma crlf_cons c s :
  crlf (String c s) =
  if Ascii.eqb c "010" then String "013" (String "010" (crlf s))
  else String c (crlf s).
Proof. reflexivity. Qed.

Lemma readlines_from_crlf_text s cur :
  all_chars (fun c => negb (Ascii.eqb c "013")) s = true ->
  readlines_from (crlf s) cur = readlines_from s cur.
Proof.
  revert cur. induction s as [|c s IH]; intros cur; [reflexivity |].
  rewrite all_chars_cons, andb_true_iff, negb_true_iff. intros [Hc Hs].
  rewrite crlf_cons. destruct (Ascii.eqb c "010") eqn:Hn.
  - apply Ascii.eqb_eq in Hn. subst c.
    rewrite readlines_from_crlf, readlines_from_lf, (IH "" Hs). reflexivity.
  - rewrite !(readlines_from_other c) by assumption. apply IH. exact Hs.
Qed.

(** ** The script body and the files it opens *)

(** X15. The file dialog is shown exactly when no path is given (none,
    or an empty one) and the dialog flag is set. A path that is given
    wins over the flag: the run is then the same whatever the flag and
    whatever the dialog would have returned. *)
Theorem X15_dialog_shown_iff_no_path driver fs dialog args :
  (Askopenfilename ∈ (script driver fs dialog args).1 <->
   path_given (args_path args) = None /\ args_fdiag args = true) /\
  (forall p, path_given (args_path args) = Some p ->
     forall dialog' fdiag',
       script driver fs dialog' (Namespace fdiag' (args_path args))
         = script driver fs dialog args).
Proof.
  split.
  - unfold script.
    destruct (path_given (args_path args)) as [p|].
    + unfold run_main2d. split.
      * destruct (main2d fs (posixpath.split p)); simpl; intros H;
          repeat (apply elem_of_cons in H as [H | H]; [discriminate |]);
          apply elem_of_nil in H; destruct H.
      * intros [H _]. discriminate.
    + destruct (args_fdiag args).
      * destruct (run_main2d driver fs dialog) as [evs t]. simpl.
        split; [auto | intros _; apply elem_of_cons; left; reflexivity].
      * simpl. split.
        -- intros H. apply list_elem_of_singleton in H. discriminate.
        -- intros [_ H]. discriminate.
  - intros p Hp dialog' fdiag'. unfold script. simpl. rewrite Hp. reflexivity.
Qed.

(** X16. Whatever the solver does and however the parser ends:
    [Driver.main] is called only after [main2d] was entered and built
    its arguments without raising, with those arguments, and the run
    then ends as the call ends. When the statements of [main2d] raise,
    the exception is uncaught, [Driver.main] is not called and the exit
    status is 1. When the parser exits, neither is called. [main2d] is
    entered at most once and [Driver.main] called at most once. *)
Theorem X16_driver_called_only_on_success driver fs dialog parsed :
  (forall a, Call_Driver_main a ∈ (main_block driver fs dialog parsed).1 ->
     exists args fpath,
       parsed = Parsed args /\
       Call_main2d fpath ∈ (main_block driver fs dialog parsed).1 /\
       main2d fs fpath = Ok a /\
       (main_block driver fs dialog parsed).2 = after_call (driver a)) /\
  (forall fpath e,
     Call_main2d fpath ∈ (main_block driver fs dialog parsed).1 ->
     main2d fs fpath = Raise e ->
     (forall a, Call_Driver_main a ∉ (main_block driver fs dialog parsed).1) /\
     (main_block driver fs dialog parsed).2 = Uncaught e /\
     exit_status (main_block driver fs dialog parsed).2 = 1) /\
  (parsed = Help_shown \/ parsed = Usage_error ->
   forall a fpath,
     (Call_Driver_main a ∉ (main_block driver fs dialog parsed).1) /\
     (Call_main2d fpath ∉ (main_block driver fs dialog parsed).1)) /\
  (forall f1 f2, Call_main2d f1 ∈ (main_block driver fs dialog parsed).1 ->
     Call_main2d f2 ∈ (main_block driver fs dialog parsed).1 -> f1 = f2) /\
  (forall a1 a2, Call_Driver_main a1 ∈ (main_block driver fs dialog parsed).1 ->
     Call_Driver_main a2 ∈ (main_block driver fs dialog parsed).1 -> a1 = a2).
Proof.
  assert (Hrun : forall inname,
    (forall a, Call_Driver_main a ∈ (run_main2d driver fs inname).1 ->
       exists fpath,
         Call_main2d fpath ∈ (run_main2d driver fs inname).1 /\
         main2d fs fpath = Ok a /\
         (run_main2d driver fs inname).2 = after_call (driver a)) /\
    (forall fpath e,
       Call_main2d fpath ∈ (run_main2d driver fs inname).1 ->
       main2d fs fpath = Raise e ->
       (forall a, Call_Driver_main a ∉ (run_main2d driver fs inname).1) /\
       (run_main2d driver fs inname).2 = Uncaught e /\
       exit_status (run_main2d driver fs inname).2 = 1) /\
    (forall f1 f2, Call_main2d f1 ∈ (run_main2d driver fs inname).1 ->
       Call_main2d f2 ∈ (run_main2d driver fs inname).1 -> f1 = f2) /\
    (forall a1 a2, Call_Driver_main a1 ∈ (run_main2d driver fs inname).1 ->
       Call_Driver_main a2 ∈ (run_main2d driver fs inname).1 -> a1 = a2)).
  { intros inname. unfold run_main2d.
    destruct (main2d fs (posixpath.split inname)) as [a0|e0] eqn:E; simpl.
    - split; [| split; [| split]].
      + intros a H.
        apply elem_of_cons in H as [H | H]; [discriminate |].
        apply list_elem_of_singleton in H. injection H as ->.
        exists (posixpath.split inname).
        split; [apply elem_of_cons; left; reflexivity |].
        split; [exact E | reflexivity].
      + intros fpath e H He.
        apply elem_of_cons in H as [H | H];
          [| apply list_elem_of_singleton in H; discriminate].
        injection H as ->. congruence.
      + intros f1 f2 H1 H2.
        apply elem_of_cons in H1 as [H1 | H1];
          [| apply list_elem_of_singleton in H1; discriminate].
        apply elem_of_cons in H2 as [H2 | H2];
          [| apply list_elem_of_singleton in H2; discriminate].
        congruence.
      + intros a1 a2 H1 H2.
        apply elem_of_cons in H1 as [H1 | H1]; [discriminate |].
        apply elem_of_cons in H2 as [H2 | H2]; [discriminate |].
        apply list_elem_of_singleton in H1. apply list_elem_of_singleton in H2.
        congruence.
    - split; [| split; [| split]].
      + intros a H. apply list_elem_of_singleton in H. discriminate.
      + intros fpath e H He.
        apply list_elem_of_singleton in H. injection H as ->.
        assert (e = e0) by congruence. subst e.
        split; [| split; reflexivity].
        intros a Hin. apply list_elem_of_singleton in Hin. discriminate.
      + intros f1 f2 H1 H2.
        apply list_elem_of_singleton in H1. apply list_elem_of_singleton in H2.
        congruence.
      + intros a1 a2 H1. apply list_elem_of_singleton in H1. discriminate. }
  assert (Hscript : forall args,
    (forall a, Call_Driver_main a ∈ (script driver fs dialog args).1 ->
       exists fpath,
         Call_main2d fpath ∈ (script driver fs dialog args).1 /\
         main2d fs fpath = Ok a /\
         (script driver fs dialog args).2 = after_call (driver a)) /\
    (forall fpath e,
       Call_main2d fpath ∈ (script driver fs dialog args).1 ->
       main2d fs fpath = Raise e ->
       (forall a, Call_Driver_main a ∉ (script driver fs dialog args).1) /\
       (script driver fs dialog args).2 = Uncaught e /\
       exit_status (script driver fs dialog args).2 = 1) /\
    (forall f1 f2, Call_main2d f1 ∈ (script driver fs dialog args).1 ->
       Call_main2d f2 ∈ (script driver fs dialog args).1 -> f1 = f2) /\
    (forall a1 a2, Call_Driver_main a1 ∈ (script driver fs dialog args).1 ->
       Call_Driver_main a2 ∈ (script driver fs dialog args).1 -> a1 = a2)).
  { intros args. unfold script.
    destruct (path_given (args_path args)) as [p|]; [apply Hrun |].
    destruct (args_fdiag args).
    - specialize (Hrun dialog).
      destruct (run_main2d driver fs dialog) as [evs t]. simpl in *.
      destruct Hrun as (H1 & H2 & H3 & H4).
      split; [| split; [| split]].
      + intros a H. apply elem_of_cons in H as [H | H]; [discriminate |].
        destruct (H1 a H) as (fpath & Hin & Hok & Ht).
        exists fpath. split; [apply elem_of_cons; right; exact Hin |].
        split; assumption.
      + intros fpath e H He.
        apply elem_of_cons in H as [H | H]; [discriminate |].
        destruct (H2 fpath e H He) as (Hno & Ht & Hs).
        split; [| split; assumption].
        intros a Hin. apply elem_of_cons in Hin as [Hin | Hin]; [discriminate |].
        exact (Hno a Hin).
      + intros f1 f2 Hf1 Hf2.
        apply elem_of_cons in Hf1 as [Hf1 | Hf1]; [discriminate |].
        apply elem_of_cons in Hf2 as [Hf2 | Hf2]; [discriminate |].
        exact (H3 f1 f2 Hf1 Hf2).
      + intros a1 a2 Ha1 Ha2.
        apply elem_of_cons in Ha1 as [Ha1 | Ha1]; [discriminate |].
        apply elem_of_cons in Ha2 as [Ha2 | Ha2]; [discriminate |].
        exact (H4 a1 a2 Ha1 Ha2).
    - simpl. split; [| split; [| split]].
      + intros a H. apply list_elem_of_singleton in H. discriminate.
      + intros fpath e H. apply list_elem_of_singleton in H. discriminate.
      + intros f1 f2 H. apply list_elem_of_singleton in H. discriminate.
      + intros a1 a2 H. apply list_elem_of_singleton in H. discriminate. }
  destruct parsed as [args | |]; simpl.
  - destruct (Hscript args) as (H1 & H2 & H3 & H4).
    split; [| split; [| split; [| split]]]; try assumption.
    + intros a H. destruct (H1 a H) as (fpath & Hin & Hok & Ht).
      exists args, fpath. repeat split; assumption.
    + intros [H | H]; discriminate.
  - split; [| split; [| split; [| split]]].
    + intros a H. apply list_elem_of_singleton in H. discriminate.
    + intros fpath e H. apply list_elem_of_singleton in H. discriminate.
    + intros _ a fpath.
      split; intros H; apply list_elem_of_singleton in H; discriminate.
    + intros f1 f2 H. apply list_elem_of_singleton in H. discriminate.
    + intros a1 a2 H. apply list_elem_of_singleton in H. discriminate.
  - split; [| split; [| split; [| split]]].
    + intros a H. apply list_elem_of_singleton in H. discriminate.
    + intros fpath e H. apply list_elem_of_singleton in H. discriminate.
    + intros _ a fpath.
      split; intros H; apply list_elem_of_singleton in H; discriminate.
    + intros f1 f2 H. apply list_elem_of_singleton in H. discriminate.
    + intros a1 a2 H. apply list_elem_of_singleton in H. discriminate.
Qed.

(** X17. The script splits the path it is given and the extractor joins
    the two parts again: for a path without a doubled slash the file
    that is opened is the file that was named. A doubled slash before
    the last component is lost on the way. *)
Theorem X17_split_then_join_is_the_path p :
  Py.str_in "//" p = false ->
  posixpath.join (posixpath.split p).1 (posixpath.split p).2 = p /\
  (forall fs,
     open fs (posixpath.join (posixpath.split p).1 (posixpath.split p).2)
       = open fs p) /\
  posixpath.join (posixpath.split "sims//input2d").1
                 (posixpath.split "sims//input2d").2 = "sims/input2d".
Proof.
  intros Hdbl. pose proof (join_split p Hdbl) as H.
  split; [exact H |]. split; [intros fs; rewrite H; reflexivity |].
  vm_compute. reflexivity.
Qed.

Lemma X17_split_then_join_is_the_path_witness :
  posixpath.join (posixpath.split "/sims/run1/input2d").1
                 (posixpath.split "/sims/run1/input2d").2
    = "/sims/run1/input2d".
Proof.
  apply (proj1 (X17_split_then_join_is_the_path "/sims/run1/input2d" eq_refl)).
Defined.

(** X18. When the file named on the command line or picked in the
    dialog does not exist (the path without a doubled slash), the
    extractor raises before anything is read: [main2d] is called and
    ends with the exception uncaught, [Driver.main] is not called, and
    the exit status is 1. *)
Theorem X18_missing_input_file driver fs inname :
  Py.str_in "//" inname = false ->
  fs inname = None ->
  (forall r, give_Me_input2d_Parameters fs (posixpath.split inname) <> Ok r) /\
  exists e,
    run_main2d driver fs inname
      = ([Call_main2d (posixpath.split inname)], Uncaught e) /\
    (forall a, Call_Driver_main a ∉ (run_main2d driver fs inname).1) /\
    exit_status (run_main2d driver fs inname).2 = 1.
Proof.
  intros Hdbl Hnone.
  assert (H : give_Me_input2d_Parameters fs (posixpath.split inname)
              = Raise FileNotFoundError).
  { unfold give_Me_input2d_Parameters, open.
    rewrite (join_split inname Hdbl), Hnone. reflexivity. }
  split; [intros r; rewrite H; discriminate |].
  exists FileNotFoundError. unfold run_main2d, main2d. rewrite H. simpl.
  split; [reflexivity |]. split; [| reflexivity].
  intros a Hin. apply list_elem_of_singleton in Hin. discriminate.
Qed.

Lemma X18_missing_input_file_witness :
  exists e,
    run_main2d (fun _ => Returns)
               (one_file "/sims/run1/input2d" input2d_text) "/sims/run2/input2d"
      = ([Call_main2d (posixpath.split "/sims/run2/input2d")], Uncaught e) /\
    (forall a, Call_Driver_main a ∉
       (run_main2d (fun _ => Returns)
                   (one_file "/sims/run1/input2d" input2d_text)
                   "/sims/run2/input2d").1) /\
    exit_status
      (run_main2d (fun _ => Returns)
                  (one_file "/sims/run1/input2d" input2d_text)
                  "/sims/run2/input2d").2
      = 1.
Proof.
  apply (proj2 (X18_missing_input_file (fun _ => Returns)
                  (one_file "/sims/run1/input2d" input2d_text)
                  "/sims/run2/input2d" eq_refl eq_refl)).
Defined.

(** X19. A file saved with Windows line ends is read as the same file
    with Unix line ends: the lines are the same, and so is what the
    extractor returns. *)
Theorem X19_windows_line_ends fs fs' dir name content :
  all_chars (fun c => negb (Ascii.eqb c "013")) content = true ->
  fs (posixpath.join dir name) = Some content ->
  fs' (posixpath.join dir name) = Some (crlf content) ->
  readlines (crlf content) = readlines content /\
  give_Me_input2d_Parameters fs' (dir, name)
    = give_Me_input2d_Parameters fs (dir, name).
Proof.
  intros Hcr Hfs Hfs'.
  assert (H : readlines (crlf content) = readlines content)
    by (apply readlines_from_crlf_text; exact Hcr).
  split; [exact H |].
  unfold give_Me_input2d_Parameters, open. simpl fst. simpl snd.
  rewrite Hfs, Hfs', H. reflexivity.
Qed.

Lemma X19_windows_line_ends_witness :
  readlines (crlf rubberband_text) = readlines rubberband_text /\
  give_Me_input2d_Parameters
    (one_file "/sims/band/input2d" (crlf rubberband_text)) ("/sims/band", "input2d")
  = give_Me_input2d_Parameters
      (one_file "/sims/band/input2d" rubberband_text) ("/sims/band", "input2d").
Proof.
  apply (X19_windows_line_ends
           (one_file "/sims/band/input2d" rubberband_text)
           (one_file "/sims/band/input2d" (crlf rubberband_text))
           "/sims/band" "input2d" rubberband_text);
    vm_compute; reflexivity.
Defined.

(** ** Names and words *)

Lemma all_chars_singleton P c : all_chars P (String c "") = P c.
Proof. rewrite all_chars_cons. simpl. apply andb_true_r. Qed.

Lemma split_from_cons c s word :
  Py.split_from (String c s) word =
  if Py.isspace c then
    match word with
    | Some w => w :: Py.split_from s None
    | None => Py.split_from s None
    end
  else
    Py.split_from s (Some (match word with
                           | Some w => w ++ String c EmptyString
                           | None => String c EmptyString
                           end)).
Proof. reflexivity. Qed.

(** The words of [split]: none is empty, none has white space in it. *)
Lemma split_from_words s word :
  (forall w, word = Some w ->
     w <> "" /\ all_chars (fun c => negb (Py.isspace c)) w = true) ->
  Forall (fun w => w <> "" /\ all_chars (fun c => negb (Py.isspace c)) w = true)
         (Py.split_from s word).
Proof.
  revert word. induction s as [|c s IH]; intros word Hword.
  - destruct word as [w|]; simpl; [| constructor].
    constructor; [apply Hword; reflexivity | constructor].
  - rewrite split_from_cons. destruct (Py.isspace c) eqn:Hc.
    + destruct word as [w|].
      * constructor; [apply Hword; reflexivity |]. apply IH. discriminate.
      * apply IH. discriminate.
    + apply IH. intros w' Hw'. injection Hw' as <-.
      destruct word as [w|].
      * destruct (Hword w eq_refl) as [Hne Hall]. split.
        -- destruct w; [congruence | discriminate].
        -- rewrite all_chars_app, Hall, all_chars_singleton, Hc. reflexivity.
      * split; [discriminate |]. rewrite all_chars_singleton, Hc. reflexivity.
Qed.

Lemma for_words_Some dir words ws n sn :
  for_words dir words ws n = Ok (Some sn) ->
  exists w, In w words /\ sn = posixpath.join dir w.
Proof.
  revert n. induction ws as [|word ws IH]; intros n; simpl; [discriminate |].
  destruct (String.eqb word "=").
  - destruct (words !! (n + 1)%nat) as [w|] eqn:E; [| discriminate].
    intros H. injection H as <-. exists w. split; [| reflexivity].
    apply list_elem_of_In. eapply list_elem_of_lookup_2. exact E.
  - apply IH.
Qed.

Lemma for_lines_Some dir lines sn :
  for_lines dir lines = Ok (Some sn) ->
  exists line, In line lines /\ qualifies line = true /\
    for_words dir (Py.split line) (Py.split line) 0 = Ok (Some sn).
Proof.
  induction lines as [|l lines IH]; simpl; [discriminate |].
  destruct (qualifies l) eqn:Hq.
  - intros H. exists l. split; [left; reflexivity |]. split; assumption.
  - intros H. destruct (IH H) as (line & Hin & Hrest).
    exists line. split; [right; exact Hin | exact Hrest].
Qed.



(** ** The order of the reads *)

(** X20. [main2d] fills [grid_Info], plot switches included, before it
    reads any flag of [model_Info]. So a vector shorter than the schema
    whose grid counts and plot switches, as far as it has them, are
    finite raises [IndexError] whatever its flags hold, a NaN or an
    infinity too. *)
Theorem X20_short_vector_index_error_first params struct_name :
  (length params < schema_length)%nat ->
  (forall i, In i grid_int_slots ->
     forall x, params !! i = Some x -> F8.is_finite x = true) ->
  main2d_build params struct_name = Raise IndexError.
Proof.
  intros Hlen Hfin. unfold main2d_build. cbv beta zeta.
  do 18 run_grid_statement Hfin.
  unfold schema_length in Hlen. lia.
Qed.

Lemma X20_short_vector_index_error_first_witness :
  main2d_build (<[9%nat := S754_nan]> (take 20 (params_of rubberband_text)))
               "/sims/band/rubberband"
    = Raise IndexError.
Proof.
  apply (X20_short_vector_index_error_first
           (<[9%nat := S754_nan]> (take 20 (params_of rubberband_text)))
           "/sims/band/rubberband").
  - vm_compute. lia.
  - intros i Hi x. unfold grid_int_slots in Hi. simpl in Hi.
    repeat (destruct Hi as [<- | Hi];
            [vm_compute; intros H; first [discriminate | injection H as <-; reflexivity] |]).
    destruct Hi.
Defined.

(** ** Names and words *)



(** X22. A structure reference the extractor returns is one word of a
    line that passed the test, joined to the directory: the word is not
    empty and has no white space in it, so a name written with a space
    is cut at the space. *)
Theorem X22_reference_is_one_word dir lines struct_name :
  string_reference_pass dir lines = Ok struct_name ->
  exists line w,
    In line lines /\ qualifies line = true /\ In w (Py.split line) /\
    w <> "" /\ all_chars (fun c => negb (Py.isspace c)) w = true /\
    struct_name = posixpath.join dir w.
Proof.
  unfold string_reference_pass. intros H.
  apply bind_Ok_inv in H as ([sn|] & Hlines & Hread); [| discriminate].
  injection Hread as ->.
  apply for_lines_Some in Hlines as (line & Hin & Hq & Hwords).
  apply for_words_Some in Hwords as (w & Hw & ->).
  exists line, w. repeat (split; [assumption |]).
  assert (Hall : Forall (fun w => w <> "" /\
                           all_chars (fun c => negb (Py.isspace c)) w = true)
                        (Py.split line))
    by (apply split_from_words; discriminate).
  rewrite Forall_forall in Hall.
  destruct (Hall w (proj2 (list_elem_of_In _ _) Hw)) as [Hne Hns].
  repeat split; assumption.
Qed.

Lemma X22_reference_is_one_word_witness :
  exists line w,
    In line [ "string_name = rubber band % two words" ] /\
    qualifies line = true /\ In w (Py.split line) /\
    w <> "" /\ all_chars (fun c => negb (Py.isspace c)) w = true /\
    "/sims/band/rubber" = posixpath.join "/sims/band" w.
Proof.
  apply (X22_reference_is_one_word "/sims/band"
           [ "string_name = rubber band % two words" ] "/sims/band/rubber").
  vm_compute. reflexivity.
Defined.

